(** * Reduction utilities of the WiFeS pipeline: [utils/pywifes_utils.py]

    A shallow embedding of [extract_stellar_spectra_ascii],
    [make_extracted_stellar_cube] and [update_object_header], with the
    properties of their file naming, cube layout, error propagation and
    header repair, and of [flat_stats] and the script
    [utils/print_header.py].

    Conventions of the embedding.
    - Python [str] is [string]; the methods used by the module
      ([in], [startswith], [endswith], [replace], [split], slicing) are
      recursive functions in [Module Str].
    - The file system is a store keyed by the path strings the program
      builds with [os.path.join]: a map from paths to file contents and a map
      from directory paths to their listing, in the order [os.scandir]
      returns it.  Two different strings are two different nodes, so the
      store is exact for paths without [.], [..], doubled separators or
      symbolic links.
    - FITS header cards are string valued ([OBJNAME], [OBJECT], [IMAGETYP],
      [RUN], [REDSTEP] are string cards of the instrument format).
    - [process_stellar] ([ps]) is outside the module: its two routines, the
      numeric type and the [%.18e] formatting of [numpy.savetxt] are the
      fields of the class [Extraction].
    - Exceptions are values of [exn]; a computation is a function from the
      world (file system and standard output) to an outcome that either
      returns or raises, in both cases with the world it leaves behind. *)

From stdpp Require Import base option list gmap strings sorting pretty.
From Stdlib Require Import Ascii Lia.
From Stdlib Require String.

Local Open Scope stdpp_scope.
Local Open Scope list_scope.

(** ** Python string methods *)

Module Str.

(** [s.startswith(pre)] *)
Definition startswith (s pre : string) : bool := String.prefix pre s.

(** [s.endswith(suf)] *)
Fixpoint endswith (s suf : string) : bool :=
  if String.eqb s suf then true
  else match s with
       | EmptyString => false
       | String _ s' => endswith s' suf
       end.

(** [sub in s] *)
Fixpoint contains (sub s : string) : bool :=
  if String.prefix sub s then true
  else match s with
       | EmptyString => false
       | String _ s' => contains sub s'
       end.

(** [s.replace(old, new)] for a non-empty [old]: the occurrences are
    found from the left and do not overlap; [skip] counts the characters
    of a matched occurrence that are still to be dropped. *)
Fixpoint replace_from (skip : nat) (old new s : string) : string :=
  match s with
  | EmptyString => EmptyString
  | String c s' =>
      match skip with
      | S k => replace_from k old new s'
      | O =>
          if String.prefix old s
          then new +:+ replace_from (String.length old - 1) old new s'
          else String c (replace_from 0 old new s')
      end
  end.

(** [s.replace("", new)] puts [new] before every character and at the end. *)
Fixpoint intersperse (new s : string) : string :=
  match s with
  | EmptyString => new
  | String c s' => new +:+ String c (intersperse new s')
  end.

Definition replace (s old new : string) : string :=
  match old with
  | EmptyString => intersperse new s
  | _ => replace_from 0 old new s
  end.

(** [s.split(sep)] for a one character separator; never empty. *)
Fixpoint split (sep : ascii) (s : string) : list string :=
  match s with
  | EmptyString => [EmptyString]
  | String c s' =>
      if Ascii.eqb c sep then EmptyString :: split sep s'
      else match split sep s' with
           | h :: t => String c h :: t
           | [] => [String c EmptyString]
           end
  end.

(** [s[1:]] *)
Definition tail (s : string) : string :=
  match s with
  | EmptyString => EmptyString
  | String _ s' => s'
  end.

(** [l[-2]] of a Python list, [None] standing for [IndexError]. *)
Definition penultimate {A} (l : list A) : option A :=
  match rev l with
  | _ :: x :: _ => Some x
  | _ => None
  end.

Definition newline : string := String (ascii_of_nat 10) EmptyString.
Definition tab : string := String (ascii_of_nat 9) EmptyString.

End Str.

(** ** [os.path] on POSIX *)

Module Path.

(** [os.path.join(a, b)] *)
Definition join (a b : string) : string :=
  if Str.startswith b "/" then b
  else if String.eqb a "" || Str.endswith a "/" then a +:+ b
  else a +:+ "/" +:+ b.

(** [p[:i], p[i:]] with [i = p.rfind('/') + 1] *)
Fixpoint cut (p : string) : string * string :=
  match p with
  | EmptyString => (EmptyString, EmptyString)
  | String c p' =>
      let '(h, t) := cut p' in
      match h with
      | EmptyString =>
          if Ascii.eqb c "/" then (String c EmptyString, t)
          else (EmptyString, String c t)
      | _ => (String c h, t)
      end
  end.

(** [head == '/' * len(head)] *)
Fixpoint all_sep (h : string) : bool :=
  match h with
  | EmptyString => true
  | String c h' => Ascii.eqb c "/" && all_sep h'
  end.

(** [head.rstrip('/')] *)
Fixpoint rstrip_sep (h : string) : string :=
  match h with
  | EmptyString => EmptyString
  | String c h' =>
      match rstrip_sep h' with
      | EmptyString => if Ascii.eqb c "/" then EmptyString else String c EmptyString
      | r => String c r
      end
  end.

(** [os.path.split(p)] *)
Definition split (p : string) : string * string :=
  let '(h, t) := cut p in
  (if all_sep h then h else rstrip_sep h, t).

Definition dirname (p : string) : string := fst (split p).
Definition basename (p : string) : string := snd (split p).

End Path.

(** ** Exceptions *)

Inductive exn : Type :=
| KeyError (key : string)
| IndexError
| ValueError
| UnboundLocalError (var : string)
| FileNotFoundError (path : string)
| FileExistsError (path : string)
| IsADirectoryError (path : string)
| NotADirectoryError (path : string)
| OSError (path : string)
| ExtractionError (msg : string).

Section Pipeline.

(** [Num]: a [numpy.float64]; [Frame]: the image of a reduced frame;
    [Flux]: the flux stamp handed from one [ps] routine to the other. *)
Context {Num Frame Flux : Type}.

(** ** FITS files and the file system *)

Local Abbreviation Header := (gmap string string).

Inductive payload : Type :=
| NoData
| Image (frame : Frame)
| BinTable (names : list string) (rows : list (list Num)).

Record HDU : Type := { hdu_header : Header; hdu_data : payload }.

Inductive content : Type :=
| FitsFile (hdul : list HDU)
| TextFile (lines : list string).

Record FS : Type := {
  files : gmap string content;
  dirs : gmap string (list string)
}.

Record World : Type := { fs : FS; stdout : list string }.

(** The routines of [process_stellar] and the number formatting of
    [numpy.savetxt].  A routine sees the path it is given and what the
    store holds there. *)
Class Extraction : Type := {
  read_and_find_star_p08 : string → option content → exn + (Flux * list Num);
  weighted_extract_spectrum : Flux → exn + (list Num * list Num);
  format_e18 : Num → string
}.

Context `{!Extraction}.

(** ** Computations *)

Inductive outcome (A : Type) : Type :=
| Return (a : A) (w : World)
| Raise (e : exn) (w : World).
Global Arguments Return {A} a w.
Global Arguments Raise {A} e w.

Definition M (A : Type) : Type := World → outcome A.

Global Instance M_ret : MRet M := λ A a w, Return a w.
Global Instance M_bind : MBind M := λ A B k m w,
  match m w with
  | Return a w' => k a w'
  | Raise e w' => Raise e w'
  end.

Definition raise {A} (e : exn) : M A := λ w, Raise e w.

Definition final {A} (o : outcome A) : World :=
  match o with Return _ w => w | Raise _ w => w end.

Definition get_fs : M FS := λ w, Return (fs w) w.

(** A read of the file system that may raise. *)
Definition read {A} (f : FS → exn + A) : M A := λ w,
  match f (fs w) with
  | inr a => Return a w
  | inl e => Raise e w
  end.

(** An update of the file system that may raise and then changes nothing. *)
Definition update (f : FS → exn + FS) : M unit := λ w,
  match f (fs w) with
  | inr s => Return tt {| fs := s; stdout := stdout w |}
  | inl e => Raise e w
  end.

Definition print (line : string) : M unit := λ w,
  Return tt {| fs := fs w; stdout := stdout w ++ [line] |}.

(** A local variable that a branch may have left unassigned. *)
Definition local (var : string) (v : option string) : M string :=
  match v with
  | Some s => mret s
  | None => raise (UnboundLocalError var)
  end.

(** [l[0]] *)
Definition first {A} (l : list A) : M A :=
  match l with
  | x :: _ => mret x
  | [] => raise IndexError
  end.

(** [for x in xs: body], the locals the body assigns threaded as [l]. *)
Fixpoint for_each {X L} (xs : list X) (body : X → L → M L) (l : L) : M L :=
  match xs with
  | [] => mret l
  | x :: xs' => l' ← body x l; for_each xs' body l'
  end.

(** ** File system operations *)

Definition isdir (s : FS) (p : string) : bool :=
  bool_decide (is_Some (dirs s !! p)).

Definition isfile (s : FS) (p : string) : bool :=
  bool_decide (is_Some (files s !! p)).

Definition exists_ (s : FS) (p : string) : bool := isdir s p || isfile s p.

(** A new name is listed last in its directory. *)
Definition link (p : string) (ds : gmap string (list string)) :
    gmap string (list string) :=
  alter (λ l, l ++ [Path.basename p]) (Path.dirname p) ds.

(** The parent of a path that is created or written must be a directory. *)
Definition parent_check (s : FS) (p : string) : option exn :=
  if isdir s (Path.dirname p) then None
  else if isfile s (Path.dirname p) then Some (NotADirectoryError p)
  else Some (FileNotFoundError p).

(** [os.mkdir(p)] *)
Definition mkdir (p : string) (s : FS) : exn + FS :=
  if exists_ s p then inl (FileExistsError p)
  else match parent_check s p with
       | Some e => inl e
       | None => inr {| files := files s; dirs := <[p := []]> (link p (dirs s)) |}
       end.

(** The store after [p] holds [c]: created if new, replaced if there. *)
Definition put (p : string) (c : content) (s : FS) : FS :=
  {| files := <[p := c]> (files s);
     dirs := if isfile s p then dirs s else link p (dirs s) |}.

(** Opening [p] for writing and storing [c]: [HDUList.writeto(p,
    overwrite=True)] and the [open(p, 'w')] of [numpy.savetxt]. *)
Definition write (p : string) (c : content) (s : FS) : exn + FS :=
  if isdir s p then inl (IsADirectoryError p)
  else match parent_check s p with
       | Some e => inl e
       | None => inr (put p c s)
       end.

(** [fits.open(p)] *)
Definition fits_open (p : string) (s : FS) : exn + list HDU :=
  match files s !! p with
  | Some (FitsFile hdul) => inr hdul
  | Some (TextFile _) => inl (OSError p)
  | None => inl (if isdir s p then IsADirectoryError p else FileNotFoundError p)
  end.

(** [hdul[0].header] *)
Definition primary_header (p : string) (hdul : list HDU) : exn + Header :=
  match hdul with
  | h :: _ => inr (hdu_header h)
  | [] => inl (OSError p)
  end.

(** [fits.getheader(p)] *)
Definition getheader (p : string) (s : FS) : exn + Header :=
  match fits_open p s with
  | inr hdul => primary_header p hdul
  | inl e => inl e
  end.

(** [header[key]] *)
Definition card (h : Header) (key : string) : M string :=
  match h !! key with
  | Some v => mret v
  | None => raise (KeyError key)
  end.

(** ** [glob] and [os.walk]

    [glob] never matches a name that starts with a dot against a pattern
    that starts with [*], and gives nothing for a directory it cannot
    list.  The two functions below are [glob.glob] at the two patterns the
    module uses, for a directory and a suffix without the characters
    [*], [?] and [[]. *)

Definition has_magic (s : string) : bool :=
  Str.contains "*" s || Str.contains "?" s || Str.contains "[" s.

Definition hidden (name : string) : bool := Str.startswith name ".".

Definition listdir (s : FS) (d : string) : list string :=
  default [] (dirs s !! d).

(** names in [d] matching [*<suffix>] *)
Definition glob1 (s : FS) (d suffix : string) : list string :=
  filter (λ n, negb (hidden n) && Str.endswith n suffix = true) (listdir s d).

(** [glob.glob(os.path.join(d, "*" + suffix))] *)
Definition glob_in (s : FS) (d suffix : string) : list string :=
  Path.join d <$> glob1 s d suffix.

(** [glob.glob(os.path.join(d, "*", "*" + suffix))]: the directories
    directly in [d], and in each of them the names matching [*<suffix>]. *)
Definition glob_below (s : FS) (d suffix : string) : list string :=
  sub ← filter (λ n, negb (hidden n) && isdir s (Path.join d n) = true)
               (listdir s d);
  glob_in s (Path.join d sub) suffix.

(** [os.walk(top)], top down; a directory that cannot be listed yields
    nothing.  Every level of the recursion is a directory with a longer
    path, so one unit of fuel per directory of the store is enough. *)
Fixpoint walk (fuel : nat) (s : FS) (top : string) :
    list (string * list string * list string) :=
  match fuel with
  | O => []
  | S k =>
      match dirs s !! top with
      | None => []
      | Some names =>
          let subdirs := filter (λ n, isdir s (Path.join top n) = true) names in
          let nondirs := filter (λ n, isdir s (Path.join top n) = false) names in
          (top, subdirs, nondirs)
            :: (sub ← subdirs; walk k s (Path.join top sub))
      end
  end.

Definition os_walk (s : FS) (top : string) :
    list (string * list string * list string) :=
  walk (S (size (dirs s))) s top.

(** ** [numpy] *)

(** [np.array([a, b, ...]).T.tolist()] and [np.transpose([a, b, ...])]:
    the rows of the table whose columns are given; columns of different
    lengths are refused. *)
Fixpoint transpose (width : nat) (cols : list (list Num)) : list (list Num) :=
  match width with
  | O => []
  | S k => (cols ≫= take 1) :: transpose k (drop 1 <$> cols)
  end.

Definition columns_T (cols : list (list Num)) : M (list (list Num)) :=
  match cols with
  | [] => mret []
  | c :: rest =>
      if forallb (λ c', Nat.eqb (length c') (length c)) rest
      then mret (transpose (length c) cols)
      else raise ValueError
  end.

(** [np.rec.array(data, names=...)] looks at [data[0]]. *)
Definition rec_array (data : list (list Num)) (names : list string) : M payload :=
  _ ← first data; mret (BinTable names data).

(** [np.savetxt(p, X)]: one line per row, the numbers in [%.18e] separated
    by one space, no header and no footer. *)
Definition savetxt_line (row : list Num) : string :=
  String.concat " " (format_e18 <$> row).

Definition savetxt (p : string) (X : list (list Num)) : M unit :=
  update (write p (TextFile (savetxt_line <$> X))).

(** ** [process_stellar] *)

Definition ps_read_and_find_star_p08 (p : string) : M (Flux * list Num) :=
  read (λ s, read_and_find_star_p08 p (files s !! p)).

Definition ps_weighted_extract_spectrum (flux : Flux) : M (list Num * list Num) :=
  read (λ _, weighted_extract_spectrum flux).

(** ** Output format depending on the spectral arm

    [if 'T2m3wr' in key: var = red
     elif 'T2m3wb' in key: var = blue]
    gives the value of [var] after the statement from its value before:
    there is no [else], so a key with neither marker leaves the variable
    as it was, unassigned if it never was assigned. *)
Definition spectral_arm (key red blue : string) (var : option string) :
    option string :=
  if Str.contains "T2m3wr" key then Some red
  else if Str.contains "T2m3wb" key then Some blue
  else var.

(** ** [extract_stellar_spectra_ascii] *)

(** [if not os.path.isdir(out_dir) and not os.path.exists(out_dir):
    os.mkdir(out_dir)] *)
Definition ensure_dir (out_dir : string) : M unit :=
  s ← get_fs;
  if negb (isdir s out_dir) && negb (exists_ s out_dir)
  then update (mkdir out_dir)
  else mret tt.

(** The body of the loop over the files of one directory; [filename] is
    the local variable of that name, which keeps its value from one file
    to the next. *)
Definition ascii_file (night : string) (steps : list string)
    (out_dir path name : string) (filename : option string) :
    M (option string) :=
  let fl := Path.join path name in
  match Str.penultimate (Str.split "." fl) with
  | None => raise IndexError
  | Some part =>
      let step := Str.tail part in
      if bool_decide (step ∈ steps) && Str.endswith fl (step +:+ ".fits")
      then
        print fl;;
        hdul ← read (fits_open fl);
        header ← read (λ _, primary_header fl hdul);
        objectid ← card header "OBJNAME";
        run ← card header "RUN";
        '(flux, wave) ← ps_read_and_find_star_p08 fl;
        '(spectrum, sig) ← ps_weighted_extract_spectrum flux;
        let filename :=
          spectral_arm name
            (night +:+ "_" +:+ objectid +:+ "_" +:+ step +:+ "_r.dat")
            (night +:+ "_" +:+ objectid +:+ "_" +:+ step +:+ "_b.dat")
            filename in
        filename ← local "filename" filename;
        let filename := Str.replace filename " " "_" in
        let fln := Path.join out_dir filename in
        print fln;;
        X ← columns_T [wave; spectrum];
        savetxt fln X;;
        mret (Some filename)
      else mret filename
  end.

Definition extract_stellar_spectra_ascii (root night : string)
    (steps : list string) : M unit :=
  let data_dir := Path.join root night in
  let out_dir := Path.join data_dir "ascii" in
  ensure_dir out_dir;;
  print ("Converting to ascii: " +:+ data_dir);;
  s ← get_fs;
  for_each (os_walk s data_dir)
    (λ '(path, subdirs, files), for_each files (ascii_file night steps out_dir path))
    None;;
  mret tt.

(** ** [make_extracted_stellar_cube] *)

(** [hdu.header[key] = v] *)
Definition set_card (key v : string) (h : HDU) : HDU :=
  {| hdu_header := <[key := v]> (hdu_header h); hdu_data := hdu_data h |}.

(** The body of the loop over [zip(fits_files, steps)]: one table is
    appended to [hdus] and tagged with its step. *)
Definition cube_step (fits_file step : string) (hdus : list HDU) :
    M (list HDU) :=
  print (Str.tab +:+ "Extracting 1D spectrum for step " +:+ step);;
  '(flux, wave) ← ps_read_and_find_star_p08 fits_file;
  '(spectrum, sig) ← ps_weighted_extract_spectrum flux;
  data ← columns_T [wave; spectrum; sig];
  rec ← rec_array data ["wave"; "spectrum"; "sigma"];
  let hdus := hdus ++ [ {| hdu_header := ∅; hdu_data := rec |} ] in
  mret (alter (set_card "REDSTEP" step) (length hdus - 1) hdus).

(** The body of the loop over the observations; [output_filename] is the
    local variable of that name, which keeps its value from one
    observation to the next. *)
Definition cube_observation (night : string) (steps : list string)
    (out_dir ob : string) (output_filename : option string) :
    M (option string) :=
  let fits_files := (λ step, ob +:+ ".p" +:+ step +:+ ".fits") <$> steps in
  fits_file0 ← first fits_files;
  header ← read (getheader fits_file0);
  objname ← card header "OBJNAME";
  let obj_id := Str.replace objname " " "" in
  let hdus := [ {| hdu_header := header; hdu_data := NoData |} ] in
  print ("Making cube for " +:+ ob +:+ ".pXX.fits");;
  hdus ← for_each (zip fits_files steps)
           (λ '(fits_file, step), cube_step fits_file step) hdus;
  let output_filename :=
    spectral_arm ob
      (night +:+ "_" +:+ obj_id +:+ "_r.fits")
      (night +:+ "_" +:+ obj_id +:+ "_b.fits")
      output_filename in
  output_filename ← local "output_filename" output_filename;
  let output_filepath := Path.join out_dir output_filename in
  print ("Writing cube to " +:+ output_filename +:+ " " +:+ Str.newline);;
  update (write output_filepath (FitsFile hdus));;
  mret (Some output_filename).

(** The observations found: [glob] at [data_dir/*/*<step>.fits], every
    [.p<step>.fits] taken out of each path. *)
Definition unique_obs (s : FS) (data_dir step0 : string) : list string :=
  (λ ob, Str.replace ob (".p" +:+ step0 +:+ ".fits") "")
    <$> glob_below s data_dir (step0 +:+ ".fits").

Definition make_extracted_stellar_cube (root night : string)
    (steps : list string) : M unit :=
  let data_dir := Path.join root night in
  let out_dir := Path.join data_dir "extracted_cubes_1d" in
  ensure_dir out_dir;;
  step0 ← first steps;
  s ← get_fs;
  for_each (unique_obs s data_dir step0)
    (cube_observation night steps out_dir) None;;
  mret tt.

(** ** [update_object_header] *)

(** Leaving the [with] block of a file opened in update mode writes the
    HDUs back. *)
Definition flush (p : string) (hdul : list HDU) : M unit :=
  update (λ s, inr (put p (FitsFile hdul) s)).

(** The body of the loop over the files of the night. *)
Definition update_file (print_only : bool) (fits_file : string) (_ : unit) :
    M unit :=
  ff ← read (fits_open fits_file);
  header ← read (λ _, primary_header fits_file ff);
  if bool_decide (is_Some (header !! "OBJNAME")) then
    imagetyp ← card header "IMAGETYP";
    if String.eqb imagetyp "object" then
      objname ← card header "OBJNAME";
      if Str.contains "exp" objname then
        object ← card header "OBJECT";
        if negb (String.eqb object "") then
          print (fits_file +:+ ": " +:+ Str.tab +:+ " OBJECT: " +:+ object
                   +:+ Str.tab +:+ " OBJNAME: " +:+ objname);;
          if negb print_only
          then flush fits_file (alter (set_card "OBJNAME" object) 0 ff)
          else mret tt
        else mret tt
      else mret tt
    else mret tt
  else mret tt.

Definition update_object_header (root night : string) (print_only : bool) :
    M unit :=
  s ← get_fs;
  let fits_files := glob_in s (Path.join root night) ".fits" in
  let fits_files := merge_sort String.le fits_files in
  for_each fits_files (update_file print_only) tt.

End Pipeline.

Global Arguments payload : clear implicits.
Global Arguments HDU : clear implicits.
Global Arguments content : clear implicits.
Global Arguments FS : clear implicits.
Global Arguments World : clear implicits.
Global Arguments Extraction : clear implicits.
Global Arguments outcome : clear implicits.
Global Arguments M : clear implicits.

(** ** [flat_stats]

    The figure of [matplotlib] is the list of the curves plotted on its
    axes, each with its abscissae; [flat_stats] returns what [plt.show()]
    displays, and the display is taken to be there.  The arithmetic of [numpy] on the image of a frame is the
    class [Numpy]: the rows of the image, the larger of two numbers and the
    quotient of two numbers. *)

Class Numpy (Num Frame : Type) : Type := {
  image_rows : Frame → list (list Num);
  fmax : Num → Num → Num;
  fdiv : Num → Num → Num
}.

Section Scripts.

Context {Num Frame : Type} `{!Numpy Num Frame}.

Local Abbreviation Header := (gmap string string).
Local Abbreviation M := (M Num Frame).
Local Abbreviation FS := (FS Num Frame).

(** [l[i]] *)
Definition index {A} (l : list A) (i : nat) : M A :=
  match l !! i with
  | Some x => mret x
  | None => raise IndexError
  end.

(** [fits.getdata(p, ext=0)]: the image of the primary HDU; a primary HDU
    without an image gives [IndexError]. *)
Definition getdata (p : string) (s : FS) : exn + Frame :=
  match fits_open p s with
  | inr hdul =>
      match hdul with
      | {| hdu_data := Image frame |} :: _ => inr frame
      | _ :: _ => inl IndexError
      | [] => inl (OSError p)
      end
  | inl e => inl e
  end.

(** [np.max(rows, axis=0)]: the largest number of every column; there is
    none without a row. *)
Definition max_axis0 (rows : list (list Num)) : exn + list Num :=
  match rows with
  | [] => inl ValueError
  | row :: rows' => inr (foldl (zip_with fmax) row rows')
  end.

(** [np.max(line)] *)
Definition np_max (line : list Num) : exn + Num :=
  match line with
  | [] => inl ValueError
  | x :: line' => inr (foldl fmax x line')
  end.

Definition flat_root : string := "/data/mash/marusa/2m3reduced/wifes/".

(** The body of the loop over the files of one directory; [ax] holds the
    curves plotted so far. *)
Definition flat_file (path name : string) (ax : list (list nat * list Num)) :
    M (list (list nat * list Num)) :=
  let fl := Path.join path name in
  print fl;;
  if String.eqb fl "wifesB_super_domeflat.fits" then
    print ("****************" +:+ fl);;
    f ← read (fits_open fl);
    header ← read (λ _, primary_header fl f);
    image_data ← read (getdata fl);
    let line := take (2245 - 2145) (drop 2145 (image_rows image_data)) in
    line ← read (λ _, max_axis0 line);
    m ← read (λ _, np_max line);
    let line := (λ v, fdiv v m) <$> line in
    let x := seq 0 (length line) in
    mret (ax ++ [(x, line)])
  else mret ax.

Definition flat_stats : M (list (list nat * list Num)) :=
  let root := flat_root in
  print ("root " +:+ root);;
  let ax := [] in
  s ← get_fs;
  ax ← for_each (os_walk s root)
         (λ '(path, subdirs, files), for_each files (flat_file path)) ax;
  mret ax.

(** ** The script [print_header.py]

    [argv] is [sys.argv]; [header_str] is the text [print] gives for a
    whole header. *)
Definition print_header (header_str : Header → string) (argv : list string) :
    M unit :=
  filename ← index argv 1;
  let keyword := argv !! 2 in
  match keyword with
  | None =>
      header ← read (getheader filename);
      print (header_str header)
  | Some keyword =>
      header ← read (getheader filename);
      value ← card header keyword;
      print ("'" +:+ value +:+ "'")
  end.

End Scripts.

(** ** A night of integer frames

    An instance of the routines over integers, for running the functions:
    a frame holds the three series, the first routine hands the wavelengths
    and the stamp out of the primary HDU, the second one the spectrum and its
    uncertainty out of the stamp. *)

Module Fixture.

Definition frame : Type := list Z * list Z * list Z.
Definition flux : Type := list Z * list Z.

Global Instance extraction : Extraction Z frame flux := {|
  read_and_find_star_p08 p c :=
    match c with
    | Some (FitsFile ({| hdu_data := Image (wave, spectrum, sig) |} :: _)) =>
        inr ((spectrum, sig), wave)
    | Some _ => inl (OSError p)
    | None => inl (FileNotFoundError p)
    end;
  weighted_extract_spectrum fl := inr fl;
  format_e18 := pretty
|}.

Definition series : frame := ([1; 2]%Z, [10; 20]%Z, [3; 4]%Z).

Definition frame_file (cards : list (string * string)) : content Z frame :=
  FitsFile [ {| hdu_header := list_to_map cards; hdu_data := Image series |} ].

Definition store (ds : list (string * list string))
    (fl : list (string * content Z frame)) : FS Z frame :=
  {| files := list_to_map fl; dirs := list_to_map ds |}.

Definition world (s : FS Z frame) : World Z frame :=
  {| fs := s; stdout := [] |}.

Definition steps : list string := ["08"; "09"; "10"].

(** The step-files of an exposure: their names, and their paths in [dir]
    with the frames they hold. *)
Definition step_names (base : string) (steps : list string) : list string :=
  (λ step, base +:+ ".p" +:+ step +:+ ".fits") <$> steps.

Definition exposure (dir base objname : string) (steps : list string) :
    list (string * content Z frame) :=
  (λ step, (dir +:+ "/" +:+ base +:+ ".p" +:+ step +:+ ".fits",
            frame_file [("OBJNAME", objname); ("RUN", "7")])) <$> steps.

(** One red-arm exposure of "HD 1234" in a directory below the night. *)
Definition night_below : FS Z frame :=
  store
    [ ("root", ["20190101"]);
      ("root/20190101", ["reduc"]);
      ("root/20190101/reduc", step_names "obs1.T2m3wr-x" steps) ]
    (exposure "root/20190101/reduc" "obs1.T2m3wr-x" "HD 1234" steps).

(** The same exposure with its files directly in the night directory. *)
Definition night_flat : FS Z frame :=
  store
    [ ("root", ["20190101"]);
      ("root/20190101", step_names "obs1.T2m3wr-x" steps) ]
    (exposure "root/20190101" "obs1.T2m3wr-x" "HD 1234" steps).

(** Two red-arm exposures of one object: they share the name of their
    cube. *)
Definition night_twice : FS Z frame :=
  store
    [ ("root", ["20190101"]);
      ("root/20190101", ["reduc"]);
      ("root/20190101/reduc",
        step_names "obs1.T2m3wr-x" steps ++ step_names "obs2.T2m3wr-y" steps) ]
    (exposure "root/20190101/reduc" "obs1.T2m3wr-x" "HD 1234" steps
       ++ exposure "root/20190101/reduc" "obs2.T2m3wr-y" "HD 1234" steps).

(** An exposure whose key holds both arm markers. *)
Definition night_both : FS Z frame :=
  store
    [ ("root", ["20190101"]);
      ("root/20190101", ["reduc"]);
      ("root/20190101/reduc", step_names "obs1.T2m3wr-T2m3wb" steps) ]
    (exposure "root/20190101/reduc" "obs1.T2m3wr-T2m3wb" "HD 1234" steps).

(** An exposure whose key holds no arm marker. *)
Definition night_unmarked : FS Z frame :=
  store
    [ ("root", ["20190101"]);
      ("root/20190101", ["reduc"]);
      ("root/20190101/reduc", step_names "obs1" steps) ]
    (exposure "root/20190101/reduc" "obs1" "HD 1234" steps).

(** Two exposures; the first one found has lost its step 09. *)
Definition night_partial : FS Z frame :=
  store
    [ ("root", ["20190101"]);
      ("root/20190101", ["reduc"]);
      ("root/20190101/reduc",
        step_names "a.T2m3wr-1" ["08"; "10"] ++ step_names "b.T2m3wb-2" steps) ]
    (exposure "root/20190101/reduc" "a.T2m3wr-1" "HD 1" ["08"; "10"]
       ++ exposure "root/20190101/reduc" "b.T2m3wb-2" "HD 2" steps).

(** The same two exposures, the complete one found first. *)
Definition night_partial_late : FS Z frame :=
  store
    [ ("root", ["20190101"]);
      ("root/20190101", ["reduc"]);
      ("root/20190101/reduc",
        step_names "b.T2m3wb-2" steps ++ step_names "a.T2m3wr-1" ["08"; "10"]) ]
    (exposure "root/20190101/reduc" "a.T2m3wr-1" "HD 1" ["08"; "10"]
       ++ exposure "root/20190101/reduc" "b.T2m3wb-2" "HD 2" steps).

(** Raw files of a night for [update_object_header]: one with the
    copy-paste error, one that is fine, one that is not an object frame,
    one with an empty [OBJECT]. *)
Definition night_headers : FS Z frame :=
  store
    [ ("root", ["20190101"]);
      ("root/20190101", ["a.fits"; "b.fits"; "c.fits"; "d.fits"]) ]
    [ ("root/20190101/a.fits",
        frame_file [("IMAGETYP", "object"); ("OBJNAME", "exp 300");
                    ("OBJECT", "HD 1234")]);
      ("root/20190101/b.fits",
        frame_file [("IMAGETYP", "object"); ("OBJNAME", "HD 5");
                    ("OBJECT", "HD 5")]);
      ("root/20190101/c.fits",
        frame_file [("IMAGETYP", "flat"); ("OBJNAME", "exp 5");
                    ("OBJECT", "dome")]);
      ("root/20190101/d.fits",
        frame_file [("IMAGETYP", "object"); ("OBJNAME", "exp 1");
                    ("OBJECT", "")]) ].

End Fixture.

(** ** The path and string functions on examples *)

Example join_plain : Path.join "root" "20190101" = "root/20190101".
Proof. reflexivity. Qed.
Example join_absolute : Path.join "root" "/abs" = "/abs".
Proof. reflexivity. Qed.
Example join_trailing : Path.join "root/" "x" = "root/x".
Proof. reflexivity. Qed.
Example join_empty : Path.join "" "x" = "x".
Proof. reflexivity. Qed.
Example split_plain : Path.split "a/b/c.fits" = ("a/b", "c.fits").
Proof. reflexivity. Qed.
Example split_root : Path.split "/c.fits" = ("/", "c.fits").
Proof. reflexivity. Qed.
Example split_bare : Path.split "c.fits" = ("", "c.fits").
Proof. reflexivity. Qed.
Example split_doubled : Path.split "a//c" = ("a", "c").
Proof. reflexivity. Qed.
Example replace_all :
  Str.replace "d.p08.fits/x.p08.fits" ".p08.fits" "" = "d/x".
Proof. reflexivity. Qed.
Example replace_spaces : Str.replace "HD 1234" " " "" = "HD1234".
Proof. reflexivity. Qed.
Example replace_overlap : Str.replace "aaa" "aa" "b" = "ba".
Proof. reflexivity. Qed.
Example replace_empty_old : Str.replace "ab" "" "-" = "-a-b-".
Proof. reflexivity. Qed.
Example split_dots : Str.split "." "a.b..c" = ["a"; "b"; ""; "c"].
Proof. reflexivity. Qed.
Example step_of_name :
  Str.tail <$> Str.penultimate (Str.split "." "n/T2m3wr-1.p08.fits") = Some "08".
Proof. reflexivity. Qed.
Example endswith_ex : Str.endswith "x.p08.fits" "08.fits" = true.
Proof. reflexivity. Qed.
Example contains_ex : Str.contains "T2m3wr" "a/T2m3wr-1" = true.
Proof. reflexivity. Qed.


(** * Properties *)

Section Properties.

Context {Num Frame Flux : Type} `{!Extraction Num Frame Flux}.

Local Abbreviation Header := (gmap string string).
Local Abbreviation HDU := (HDU Num Frame).
Local Abbreviation content := (content Num Frame).
Local Abbreviation FS := (FS Num Frame).
Local Abbreviation World := (World Num Frame).
Local Abbreviation outcome := (outcome Num Frame).
Local Abbreviation M := (M Num Frame).

(** ** Running a computation *)

Lemma bind_eq {A B} (m : M A) (k : A → M B) (w : World) :
  (m ≫= k) w
  = match m w with Return a w' => k a w' | Raise e w' => Raise e w' end.
Proof. reflexivity. Qed.

Lemma bind_Return {A B} (m : M A) (k : A → M B) (w w2 : World) b :
  (m ≫= k) w = Return b w2 ↔ ∃ a w1, m w = Return a w1 ∧ k a w1 = Return b w2.
Proof.
  rewrite bind_eq. destruct (m w) as [a w1|e w1]; split.
  - eauto.
  - by intros (? & ? & [= <- <-] & ?).
  - done.
  - by intros (? & ? & [=] & ?).
Qed.

Lemma bind_Raise {A B} (m : M A) (k : A → M B) (w w2 : World) e :
  (m ≫= k) w = Raise e w2 ↔
    m w = Raise e w2 ∨ ∃ a w1, m w = Return a w1 ∧ k a w1 = Raise e w2.
Proof.
  rewrite bind_eq. destruct (m w) as [a w1|e1 w1]; split.
  - intros Hk. right. eauto.
  - by intros [[=]|(? & ? & [= <- <-] & ?)].
  - intros [= -> ->]. by left.
  - by intros [[= -> ->]|(? & ? & [=] & ?)].
Qed.

Lemma read_Return {A} (f : FS → exn + A) (w w1 : World) a :
  read f w = Return a w1 ↔ f (fs w) = inr a ∧ w1 = w.
Proof.
  unfold read. destruct (f (fs w)); split.
  - intros [=].
  - intros [[=] _].
  - by intros [= -> ->].
  - by intros [[= ->] ->].
Qed.

Lemma update_Return (f : FS → exn + FS) (w w1 : World) u :
  update f w = Return u w1 ↔
    ∃ s, f (fs w) = inr s ∧ w1 = {| fs := s; stdout := stdout w |}.
Proof.
  unfold update. destruct (f (fs w)) as [e|s]; split.
  - intros [=].
  - intros (? & [=] & _).
  - intros [= <-]. eauto.
  - intros (? & [= <-] & ->). by destruct u.
Qed.

Lemma update_Raise (f : FS → exn + FS) (w w1 : World) e :
  update f w = Raise (A:=unit) e w1 ↔ f (fs w) = inl e ∧ w1 = w.
Proof.
  unfold update. destruct (f (fs w)); split.
  - by intros [= -> ->].
  - by intros [[= ->] ->].
  - intros [=].
  - intros [[=] _].
Qed.

Lemma card_Return (h : Header) key (w w1 : World) v :
  card h key w = Return v w1 ↔ h !! key = Some v ∧ w1 = w.
Proof.
  unfold card. destruct (h !! key); split.
  - by intros [= -> ->].
  - by intros [[= ->] ->].
  - intros [=].
  - intros [[=] _].
Qed.

Lemma local_Return var v (w w1 : World) name :
  local var v w = Return name w1 ↔ v = Some name ∧ w1 = w.
Proof.
  unfold local. destruct v; split.
  - by intros [= -> ->].
  - by intros [[= ->] ->].
  - intros [=].
  - intros [[=] _].
Qed.

Lemma first_Return {A} (l : list A) (w w1 : World) x :
  first l w = Return x w1 ↔ head l = Some x ∧ w1 = w.
Proof.
  unfold first. destruct l; split.
  - intros [=].
  - intros [[=] _].
  - by intros [= -> ->].
  - by intros [[= ->] ->].
Qed.

(** ** Computations that keep a relation between the worlds

    [keeps R m]: whatever [m] does, returning or raising, the world it
    leaves is related by [R] to the world it started in. *)

Definition keeps {A} (R : relation World) (m : M A) : Prop :=
  ∀ w, R w (final (m w)).

(** [returns m a]: [a] is a value [m] can return. *)
Definition returns {A} (m : M A) (a : A) : Prop :=
  ∃ w w1, m w = Return a w1.

Section Keeps.
Context (R : relation World) `{!PreOrder R}.
Hypothesis R_print : ∀ w line,
  R w {| fs := fs w; stdout := stdout w ++ [line] |}.

Lemma keeps_ret {A} (a : A) : keeps R (mret a).
Proof. intros w. simpl. reflexivity. Qed.

Lemma keeps_raise {A} e : keeps R (raise (A:=A) e).
Proof. intros w. simpl. reflexivity. Qed.

Lemma keeps_bind {A B} (m : M A) (k : A → M B) :
  keeps R m → (∀ a, returns m a → keeps R (k a)) → keeps R (m ≫= k).
Proof.
  intros Hm Hk w. rewrite bind_eq. specialize (Hm w).
  destruct (m w) as [a w1|e w1] eqn:E; simpl in *; [|done].
  etrans; [done|]. apply Hk. by exists w, w1.
Qed.

Lemma keeps_for_each {X L} (xs : list X) (body : X → L → M L) l :
  (∀ x l', x ∈ xs → keeps R (body x l')) → keeps R (for_each xs body l).
Proof.
  revert l. induction xs as [|x xs IH]; intros l Hbody; simpl.
  - apply keeps_ret.
  - apply keeps_bind.
    + apply Hbody. by left.
    + intros l' _. apply IH. intros ???. apply Hbody. by right.
Qed.

Lemma keeps_get_fs : keeps R get_fs.
Proof. intros w. simpl. reflexivity. Qed.

Lemma keeps_read {A} (f : FS → exn + A) : keeps R (read f).
Proof. intros w. unfold read. destruct (f (fs w)); simpl; reflexivity. Qed.

Lemma keeps_print line : keeps R (print line).
Proof. intros w. apply R_print. Qed.

Lemma keeps_card (h : Header) key : keeps R (card h key).
Proof. unfold card. destruct (h !! key); [apply keeps_ret|apply keeps_raise]. Qed.

Lemma keeps_local var v : keeps R (local var v).
Proof. destruct v; [apply keeps_ret|apply keeps_raise]. Qed.

Lemma keeps_first {A} (l : list A) : keeps R (first l).
Proof. destruct l; [apply keeps_raise|apply keeps_ret]. Qed.

Lemma keeps_update (f : FS → exn + FS) :
  (∀ w s, f (fs w) = inr s → R w {| fs := s; stdout := stdout w |}) →
  keeps R (update f).
Proof.
  intros Hf w. unfold update. destruct (f (fs w)) eqn:E; simpl;
    [reflexivity|by apply Hf].
Qed.

Lemma keeps_columns_T (cols : list (list Num)) : keeps R (columns_T cols).
Proof.
  unfold columns_T. destruct cols; [apply keeps_ret|].
  case_match; [apply keeps_ret|apply keeps_raise].
Qed.

Lemma keeps_rec_array data names : keeps R (rec_array data names).
Proof.
  unfold rec_array. apply keeps_bind; [apply keeps_first|].
  intros. apply keeps_ret.
Qed.

Lemma keeps_ps_read p : keeps R (ps_read_and_find_star_p08 p).
Proof. apply keeps_read. Qed.

Lemma keeps_ps_extract flux : keeps R (ps_weighted_extract_spectrum flux).
Proof. apply keeps_read. Qed.

End Keeps.

(** Takes a goal [keeps R m] apart along the structure of [m]; what is
    left are the updates of the file system and the loops. *)
Ltac keeps_step :=
  lazymatch goal with
  | |- PreOrder _ => apply _
  | |- keeps _ (mret _) => apply keeps_ret
  | |- keeps _ (raise _) => apply keeps_raise
  | |- keeps _ get_fs => apply keeps_get_fs
  | |- keeps _ (read _) => apply keeps_read
  | |- keeps _ (card _ _) => apply keeps_card
  | |- keeps _ (local _ _) => apply keeps_local
  | |- keeps _ (first _) => apply keeps_first
  | |- keeps _ (print _) => apply keeps_print
  | |- keeps _ (columns_T _) => apply keeps_columns_T
  | |- keeps _ (rec_array _ _) => apply keeps_rec_array
  | |- keeps _ (ps_read_and_find_star_p08 _) => apply keeps_ps_read
  | |- keeps _ (ps_weighted_extract_spectrum _) => apply keeps_ps_extract
  | |- keeps _ (_ ≫= _) => apply keeps_bind; [| |intros ? ?]
  | |- keeps _ (if _ then _ else _) => case_match
  | |- keeps _ (match _ with _ => _ end) => case_match
  | |- keeps _ (let '(_, _) := _ in _) => case_match
  end.

(** ** Computations that leave the file system alone *)

Definition same_fs : relation World := λ w w', fs w' = fs w.

Global Instance same_fs_preorder : PreOrder same_fs.
Proof.
  split; [done|]. intros w1 w2 w3 H12 H23. unfold same_fs in *. congruence.
Qed.

Lemma same_fs_print (w : World) line :
  same_fs w {| fs := fs w; stdout := stdout w ++ [line] |}.
Proof. done. Qed.

Lemma update_file_dry_run fits_file u :
  keeps same_fs (update_file true fits_file u).
Proof.
  unfold update_file.
  repeat keeps_step; first [apply same_fs_print|simpl in *; discriminate].
Qed.

(** C9. With [print_only] set, [update_object_header] leaves every file
    of the store as it was, header cards included: whatever the files
    of the night hold, and whether the call returns or raises, the file
    system after the call is the file system before it. *)
Theorem dry_run_changes_nothing root night (w : World) :
  fs (final (update_object_header root night true w)) = fs w.
Proof.
  change (same_fs w (final (update_object_header root night true w))).
  revert w. change (keeps same_fs (update_object_header root night true)).
  unfold update_object_header. repeat keeps_step.
  apply keeps_for_each; [apply _|]. intros f u _. apply update_file_dry_run.
Qed.


(** ** The tables of [extract_stellar_spectra_ascii] *)

Lemma transpose_pair (wave spectrum : list Num) :
  length wave = length spectrum →
  transpose (length wave) [wave; spectrum]
  = (λ '(x, y), [x; y]) <$> zip wave spectrum.
Proof.
  revert spectrum. induction wave as [|x wave IH]; intros [|y spectrum] Hlen;
    simplify_eq/=; [done|].
  f_equal. rewrite <- IH by done. done.
Qed.


(** The lines [numpy.savetxt] writes for a wavelength and a spectrum
    series: one per sample, the wavelength first. *)
Definition ascii_rows (wave spectrum : list Num) : list string :=
  (λ '(x, y), format_e18 x +:+ " " +:+ format_e18 y) <$> zip wave spectrum.

Lemma savetxt_rows (wave spectrum : list Num) :
  savetxt_line <$> ((λ '(x, y), [x; y]) <$> zip wave spectrum)
  = ascii_rows wave spectrum.
Proof.
  unfold ascii_rows. rewrite <- list_fmap_compose.
  apply list_fmap_ext. by intros _ [x y] _.
Qed.

(** A file holds the extracted series of some frame as a table. *)
Definition ascii_table (c : content) : Prop :=
  ∃ fl c0 flux wave spectrum sig,
    read_and_find_star_p08 fl c0 = inr (flux, wave)
    ∧ weighted_extract_spectrum flux = inr (spectrum, sig)
    ∧ length wave = length spectrum
    ∧ c = TextFile (ascii_rows wave spectrum).

(** Every file is as it was or holds such a table. *)
Definition only_tables : relation World := λ w w',
  ∀ p, files (fs w') !! p = files (fs w) !! p
       ∨ ∃ c, files (fs w') !! p = Some c ∧ ascii_table c.

Global Instance only_tables_preorder : PreOrder only_tables.
Proof.
  split; [by left|]. intros w1 w2 w3 H12 H23 p.
  destruct (H23 p) as [->|?]; [apply H12|by right].
Qed.






(** ** Taking a run that returned apart *)

Lemma print_Return line (w w1 : World) u :
  print line w = Return u w1 ↔
    w1 = {| fs := fs w; stdout := stdout w ++ [line] |}.
Proof.
  unfold print. split; [by intros [= <-]|]. intros ->. by destruct u.
Qed.

Lemma mret_Return {A} (a b : A) (w w1 : World) :
  (mret a : M A) w = Return b w1 ↔ a = b ∧ w1 = w.
Proof. split; [by intros [= <- <-]|by intros [<- ->]]. Qed.

Lemma get_fs_Return (w w1 : World) s :
  get_fs w = Return s w1 ↔ s = fs w ∧ w1 = w.
Proof. split; [by intros [= <- <-]|by intros [-> ->]]. Qed.

Lemma columns_T_Return (col : list Num) cols X (w w1 : World) :
  columns_T (col :: cols) w = Return X w1 ↔
    Forall (λ c, length c = length col) cols
    ∧ X = transpose (length col) (col :: cols) ∧ w1 = w.
Proof.
  unfold columns_T.
  destruct (forallb _ cols) eqn:Hall.
  - rewrite mret_Return. rewrite forallb_forall in Hall. split.
    + intros [<- ->]. split; [|done]. apply Forall_forall. intros c Hc.
      by apply Nat.eqb_eq, Hall, list_elem_of_In.
    + by intros (_ & -> & ->).
  - split; [done|]. intros (Hlen & _ & _).
    apply not_true_iff_false in Hall. destruct Hall.
    apply forallb_forall. intros c Hc. apply Nat.eqb_eq.
    rewrite Forall_forall in Hlen. by apply Hlen, list_elem_of_In.
Qed.

Lemma rec_array_Return (data : list (list Num)) names (w w1 : World) rec :
  rec_array data names w = Return rec w1 ↔
    data ≠ [] ∧ rec = BinTable names data ∧ w1 = w.
Proof.
  unfold rec_array. destruct data as [|row data]; simpl.
  - split; [done|]. by intros (? & _).
  - rewrite bind_eq. simpl. split; [by intros [= <- <-]|by intros (_ & -> & ->)].
Qed.

(** Applies the lemmas above to every hypothesis that says a computation
    returned, one bind after the other. *)
Ltac run_inv :=
  repeat match goal with
  | H : (let '(_, _) := ?x in _) _ = Return _ _ |- _ => destruct x
  | H : (_ ≫= _) _ = Return _ _ |- _ =>
      apply bind_Return in H as (? & ? & ? & H)
  | H : print _ _ = Return _ _ |- _ => apply print_Return in H as ->
  | H : read _ _ = Return _ _ |- _ => apply read_Return in H as [H ->]
  | H : ps_read_and_find_star_p08 _ _ = Return _ _ |- _ =>
      unfold ps_read_and_find_star_p08 in H; apply read_Return in H as [H ->]
  | H : ps_weighted_extract_spectrum _ _ = Return _ _ |- _ =>
      unfold ps_weighted_extract_spectrum in H;
      apply read_Return in H as [H ->]
  | H : card _ _ _ = Return _ _ |- _ => apply card_Return in H as [H ->]
  | H : local _ _ _ = Return _ _ |- _ => apply local_Return in H as [H ->]
  | H : first _ _ = Return _ _ |- _ => apply first_Return in H as [H ->]
  | H : update _ _ = Return _ _ |- _ =>
      apply update_Return in H as (? & H & ->)
  | H : @mret _ _ _ _ _ = Return _ _ |- _ =>
      apply mret_Return in H as [<- ->]
  | H : get_fs _ = Return _ _ |- _ => apply get_fs_Return in H as [-> ->]
  | H : columns_T (_ :: _) _ = Return _ _ |- _ =>
      apply columns_T_Return in H as (H & -> & ->)
  | H : rec_array _ _ _ = Return _ _ |- _ =>
      apply rec_array_Return in H as (H & -> & ->)
  | H : raise _ _ = Return _ _ |- _ => discriminate H
  end.

(** ** The cube of one observation *)

Lemma alter_last {A} (f : A → A) (l : list A) x :
  alter f (length (l ++ [x]) - 1) (l ++ [x]) = l ++ [f x].
Proof.
  rewrite length_app. simpl.
  replace (length l + 1 - 1) with (length l + 0) by lia.
  by rewrite alter_app_r.
Qed.

(** The rows of the table of three series of one length. *)
Definition table_rows (wave spectrum sig : list Num) : list (list Num) :=
  (λ '(x, (y, z)), [x; y; z]) <$> zip wave (zip spectrum sig).

Lemma transpose_triple (wave spectrum sig : list Num) :
  length spectrum = length wave → length sig = length wave →
  transpose (length wave) [wave; spectrum; sig] = table_rows wave spectrum sig.
Proof.
  unfold table_rows. revert spectrum sig.
  induction wave as [|x wave IH]; intros [|y spectrum] [|z sig] Hs Hg;
    simplify_eq/=; [done|].
  f_equal. by rewrite <- IH.
Qed.

(** [t] is the table of the step-file of [ob] for [step] in the store
    [s]: the series the two routines give for that file, row by row, under
    the three column names, tagged with the step. *)
Definition step_table (s : FS) (ob step : string) (t : HDU) : Prop :=
  ∃ flux wave spectrum sig,
    read_and_find_star_p08 (ob +:+ ".p" +:+ step +:+ ".fits")
      (files s !! (ob +:+ ".p" +:+ step +:+ ".fits")) = inr (flux, wave)
    ∧ weighted_extract_spectrum flux = inr (spectrum, sig)
    ∧ length spectrum = length wave ∧ length sig = length wave
    ∧ wave ≠ []
    ∧ t = {| hdu_header := {[ "REDSTEP" := step ]};
             hdu_data := BinTable ["wave"; "spectrum"; "sigma"]
                           (table_rows wave spectrum sig) |}.

Lemma cube_step_Return ob step hdus (w w' : World) hdus' :
  cube_step (ob +:+ ".p" +:+ step +:+ ".fits") step hdus w = Return hdus' w' →
  ∃ t, step_table (fs w) ob step t ∧ hdus' = hdus ++ [t]
       ∧ fs w' = fs w
       ∧ stdout w'
         = stdout w ++ [Str.tab +:+ "Extracting 1D spectrum for step " +:+ step].
Proof.
  unfold cube_step. intros Hrun. run_inv. simpl in *.
  rewrite alter_last. eexists. split; [|done].
  match goal with H : Forall _ [_; _] |- _ =>
    apply Forall_cons in H as [Hs [Hg _]%Forall_cons] end.
  match goal with
  | Hr : read_and_find_star_p08 _ _ = inr (?flux, ?wave),
    He : weighted_extract_spectrum _ = inr (?spectrum, ?sig) |- _ =>
      exists flux, wave, spectrum, sig
  end.
  repeat split; try done.
  - intros ->. simpl in *. done.
  - unfold set_card. simpl. rewrite insert_empty. by rewrite transpose_triple.
Qed.


Lemma cube_steps_Return ob steps hdus (w w' : World) hdus' :
  for_each (zip ((λ step, ob +:+ ".p" +:+ step +:+ ".fits") <$> steps) steps)
    (λ '(fits_file, step), cube_step fits_file step) hdus w
  = Return hdus' w' →
  ∃ tables,
    Forall2 (step_table (fs w) ob) steps tables
    ∧ hdus' = hdus ++ tables
    ∧ fs w' = fs w
    ∧ stdout w'
      = stdout w
        ++ ((λ step, Str.tab +:+ "Extracting 1D spectrum for step " +:+ step)
              <$> steps).
Proof.
  revert hdus w. induction steps as [|step steps IH]; intros hdus w Hrun.
  - simpl in Hrun. run_inv. exists []. by rewrite !app_nil_r.
  - simpl in Hrun. apply bind_Return in Hrun as (hdus1 & w1 & Hstep & Hrun).
    apply cube_step_Return in Hstep as (t & Ht & -> & Hfs & Hout).
    apply IH in Hrun as (tables & Htables & -> & Hfs' & Hout').
    exists (t :: tables). rewrite Hfs in Htables.
    split; [by constructor|]. split; [by rewrite <- app_assoc|].
    split; [congruence|]. rewrite Hout', Hout, <- app_assoc. done.
Qed.

(** C1. When [make_extracted_stellar_cube] gets through an observation
    (the body of its loop returns), the file it has written is the primary
    header of the first step-file, with no data, followed by one table for
    every step of [steps], in the order of [steps]: the table of a step
    holds the series extracted from the step-file of that step and carries
    the card [REDSTEP] with the step.  So there are as many tables as
    steps, and their tags read in order are [steps]. *)
Theorem cube_layout night steps out_dir ob var (w w' : World) var' :
  cube_observation night steps out_dir ob var w = Return var' w' →
  ∃ step0 header name tables,
    head steps = Some step0
    ∧ getheader (ob +:+ ".p" +:+ step0 +:+ ".fits") (fs w) = inr header
    ∧ var' = Some name
    ∧ fs w'
      = put (Path.join out_dir name)
          (FitsFile ({| hdu_header := header; hdu_data := NoData |} :: tables))
          (fs w)
    ∧ Forall2 (step_table (fs w) ob) steps tables
    ∧ length tables = length steps
    ∧ (λ t, hdu_header t !! "REDSTEP") <$> tables = Some <$> steps.
Proof.
  unfold cube_observation. intros Hrun.
  apply bind_Return in Hrun as (f0 & w1 & Hfirst & Hrun).
  apply first_Return in Hfirst as [Hfirst ->].
  apply bind_Return in Hrun as (header & w1 & Hheader & Hrun).
  apply read_Return in Hheader as [Hheader ->].
  apply bind_Return in Hrun as (objname & w1 & Hcard & Hrun).
  apply card_Return in Hcard as [Hcard ->].
  apply bind_Return in Hrun as (u & w1 & Hprint & Hrun).
  apply print_Return in Hprint as ->.
  apply bind_Return in Hrun as (hdus & w2 & Hloop & Hrun).
  apply cube_steps_Return in Hloop as (tables & Htables & -> & Hfs & Hout).
  simpl in Hfs, Htables.
  run_inv.
  match goal with Hw : write _ _ _ = inr _ |- _ =>
    unfold write in Hw; repeat case_match; simplify_eq end.
  destruct steps as [|step0 steps']; [done|]. simpl in Hfirst.
  injection Hfirst as <-.
  eexists step0, header, _, tables. repeat split; try done.
  - simpl. by rewrite Hfs.
  - by eapply eq_sym, Forall2_length.
  - clear -Htables. induction Htables as [|step t ?? Ht _ IH]; [done|].
    simpl. f_equal; [|done].
    destruct Ht as (? & ? & ? & ? & _ & _ & _ & _ & _ & ->). simpl.
    by rewrite lookup_singleton_eq.
Qed.


(** ** The name of the cube *)

Lemma contains_char (a : ascii) (s : string) :
  Str.contains (String a EmptyString) s = true
  ↔ a ∈ String.list_ascii_of_string s.
Proof.
  induction s as [|c s IH]; simpl.
  - split; [done|]. by intros ?%elem_of_nil.
  - rewrite elem_of_cons. destruct (ascii_dec a c) as [->|Hne].
    + destruct s; simpl; (split; [by left|done]).
    + rewrite IH. split; [by right|]. by intros [?|?].
Qed.

Lemma replace_char_delete (a : ascii) (s : string) :
  String.list_ascii_of_string (Str.replace s (String a EmptyString) "")
  = filter (λ c, c ≠ a) (String.list_ascii_of_string s).
Proof.
  unfold Str.replace. induction s as [|c s IH]; simpl; [done|].
  destruct (ascii_dec a c) as [->|Hne].
  - rewrite filter_cons_False by (by intros ?).
    destruct s; simpl in *; done.
  - rewrite filter_cons_True by done. simpl. by f_equal.
Qed.

Lemma replace_char_gone (a : ascii) (s : string) :
  Str.contains (String a EmptyString) (Str.replace s (String a EmptyString) "")
  = false.
Proof.
  apply not_true_iff_false. rewrite contains_char, replace_char_delete.
  rewrite list_elem_of_filter. by intros [? _].
Qed.

Lemma write_inr p (c : content) (s s' : FS) :
  write p c s = inr s' →
  s' = put p c s ∧ isdir s p = false ∧ isdir s (Path.dirname p) = true.
Proof.
  unfold write, parent_check. intros Hw.
  destruct (isdir s p); [done|]. destruct (isdir s (Path.dirname p)).
  - by injection Hw as <-.
  - by destruct (isfile s (Path.dirname p)).
Qed.

(** C2, as the code has it.  The cube of an observation whose key holds
    an arm marker is written to [<night>_<object-id>_r.fits] (red marker)
    or [<night>_<object-id>_b.fits] (blue marker only) in the output
    directory, where the object identifier is [OBJNAME] of the first
    step-file with every space deleted: its characters are those of
    [OBJNAME] that are not a space, in order, so no space is left. *)
Theorem cube_name night steps out_dir ob var (w w' : World) var' :
  cube_observation night steps out_dir ob var w = Return var' w' →
  Str.contains "T2m3wr" ob = true ∨ Str.contains "T2m3wb" ob = true →
  ∃ step0 header objname obj_id name,
    head steps = Some step0
    ∧ getheader (ob +:+ ".p" +:+ step0 +:+ ".fits") (fs w) = inr header
    ∧ header !! "OBJNAME" = Some objname
    ∧ String.list_ascii_of_string obj_id
      = filter (λ c, c ≠ " "%char) (String.list_ascii_of_string objname)
    ∧ Str.contains " " obj_id = false
    ∧ name = (if Str.contains "T2m3wr" ob
              then night +:+ "_" +:+ obj_id +:+ "_r.fits"
              else night +:+ "_" +:+ obj_id +:+ "_b.fits")
    ∧ var' = Some name
    ∧ isfile (fs w') (Path.join out_dir name) = true.
Proof.
  intros Hrun Hmarker. unfold cube_observation in Hrun.
  apply bind_Return in Hrun as (f0 & w1 & Hfirst & Hrun).
  apply first_Return in Hfirst as [Hfirst ->].
  apply bind_Return in Hrun as (header & w1 & Hheader & Hrun).
  apply read_Return in Hheader as [Hheader ->].
  apply bind_Return in Hrun as (objname & w1 & Hcard & Hrun).
  apply card_Return in Hcard as [Hcard ->].
  apply bind_Return in Hrun as (u & w1 & _ & Hrun).
  apply bind_Return in Hrun as (hdus & w2 & _ & Hrun).
  apply bind_Return in Hrun as (name & w3 & Hlocal & Hrun).
  apply local_Return in Hlocal as [Hlocal ->].
  run_inv.
  match goal with Hw : write _ _ _ = inr _ |- _ =>
    apply write_inr in Hw as (-> & _ & _) end.
  destruct steps as [|step0 steps']; [done|]. simpl in Hfirst.
  injection Hfirst as <-.
  exists step0, header, objname, (Str.replace objname " " ""), name.
  split; [done|]. split; [done|]. split; [done|].
  split; [apply replace_char_delete|]. split; [apply replace_char_gone|].
  split; [|split; [done|]].
  - unfold spectral_arm in Hlocal. destruct Hmarker as [Hr|Hb].
    + rewrite Hr in *. congruence.
    + destruct (Str.contains "T2m3wr" ob); [congruence|].
      rewrite Hb in Hlocal. congruence.
  - unfold isfile. simpl. rewrite lookup_insert_eq.
    by apply bool_decide_eq_true.
Qed.


(** ** The arm markers *)

(** C3, as the code has it.  For a key that holds an arm marker the
    statement assigns the name of that arm whatever the variable held
    before, the red one when the key holds the red marker (also when it
    holds the blue marker too) and the blue one when it holds the blue
    marker only; reading the variable afterwards raises nothing. *)
Theorem arm_of_marked_key key red blue var (w : World) :
  Str.contains "T2m3wr" key = true ∨ Str.contains "T2m3wb" key = true →
  spectral_arm key red blue var
  = Some (if Str.contains "T2m3wr" key then red else blue)
  ∧ local "output_filename" (spectral_arm key red blue var) w
    = Return (if Str.contains "T2m3wr" key then red else blue) w.
Proof.
  intros Hmarker. unfold spectral_arm.
  destruct (Str.contains "T2m3wr" key); [done|].
  destruct Hmarker as [Hr|Hb]; [done|by rewrite Hb].
Qed.

(** ** A run that raises *)

(** [fails_clean m]: when [m] raises, the file system is as [m] found it. *)
Definition fails_clean {A} (m : M A) : Prop :=
  ∀ w e w', m w = Raise e w' → fs w' = fs w.

Lemma fails_clean_bind {A B} (m : M A) (k : A → M B) :
  keeps same_fs m → (∀ a, fails_clean (k a)) → fails_clean (m ≫= k).
Proof.
  intros Hm Hk w e w' [Hraise|(a & w1 & Hret & Hraise)]%bind_Raise.
  - specialize (Hm w). by rewrite Hraise in Hm.
  - specialize (Hm w). rewrite Hret in Hm. apply Hk in Hraise.
    unfold same_fs in Hm. simpl in Hm. congruence.
Qed.

Lemma fails_clean_update_ret {A} (f : FS → exn + FS) (a : A) :
  fails_clean (update f;; mret a).
Proof.
  intros w e w' [Hraise|(u & w1 & _ & Hraise)]%bind_Raise; [|done].
  by apply update_Raise in Hraise as [_ ->].
Qed.

Lemma keeps_cube_step fits_file step hdus :
  keeps same_fs (cube_step fits_file step hdus).
Proof. unfold cube_step. repeat keeps_step. apply same_fs_print. Qed.

Lemma cube_observation_fails_clean night steps out_dir ob var :
  fails_clean (cube_observation night steps out_dir ob var).
Proof.
  unfold cube_observation.
  repeat lazymatch goal with
  | |- fails_clean (update _ ≫= _) => apply fails_clean_update_ret
  | |- fails_clean (_ ≫= _) => apply fails_clean_bind; [|intros ?]
  end;
    try (repeat keeps_step; apply same_fs_print).
  apply keeps_for_each; [apply _|]. intros [fits_file step] hdus _.
  apply keeps_cube_step.
Qed.

Lemma for_each_app {X L} (xs ys : list X) (body : X → L → M L) l (w : World) :
  for_each (xs ++ ys) body l w
  = match for_each xs body l w with
    | Return l' w' => for_each ys body l' w'
    | Raise e w' => Raise e w'
    end.
Proof.
  revert l w. induction xs as [|x xs IH]; intros l w; simpl; [done|].
  rewrite !bind_eq. destruct (body x l w); [apply IH|done].
Qed.

(** The call, once the output directory is there and [steps] has a first
    step: the loop over the observations found. *)
Lemma cube_run_eq root night steps step0 (w w0 : World) :
  ensure_dir (Path.join (Path.join root night) "extracted_cubes_1d") w
  = Return tt w0 →
  head steps = Some step0 →
  make_extracted_stellar_cube root night steps w
  = match for_each (unique_obs (fs w0) (Path.join root night) step0)
            (cube_observation night steps
               (Path.join (Path.join root night) "extracted_cubes_1d"))
            None w0 with
    | Return _ w' => Return tt w'
    | Raise e w' => Raise e w'
    end.
Proof.
  intros Hdir Hstep0. unfold make_extracted_stellar_cube.
  rewrite bind_eq, Hdir. destruct steps as [|? steps']; [done|].
  injection Hstep0 as ->. reflexivity.
Qed.

(** C4, as the code has it.  The loop over the observations has no
    handler: when the body raises for one observation, after the
    observations found before it have returned, the call raises that
    error, and the file system it leaves is the one those earlier
    observations left.  No cube is written for the observation that
    failed, and none for the observations found after it, which are never
    looked at. *)
Theorem failure_aborts_run root night steps step0 pre ob post var e
    (w w0 w1 w2 : World) :
  ensure_dir (Path.join (Path.join root night) "extracted_cubes_1d") w
  = Return tt w0 →
  head steps = Some step0 →
  unique_obs (fs w0) (Path.join root night) step0 = pre ++ ob :: post →
  for_each pre
    (cube_observation night steps
       (Path.join (Path.join root night) "extracted_cubes_1d")) None w0
  = Return var w1 →
  cube_observation night steps
    (Path.join (Path.join root night) "extracted_cubes_1d") ob var w1
  = Raise e w2 →
  make_extracted_stellar_cube root night steps w = Raise e w2
  ∧ fs w2 = fs w1.
Proof.
  intros Hdir Hstep0 Hobs Hpre Hob. split.
  - rewrite (cube_run_eq _ _ _ _ _ _ Hdir Hstep0), Hobs, for_each_app, Hpre.
    simpl. by rewrite bind_eq, Hob.
  - by eapply cube_observation_fails_clean.
Qed.


(** ** A key without arm marker *)

Lemma bind_run {A B} (m : M A) (k : A → M B) (w : World) a w1 :
  m w = Return a w1 → (m ≫= k) w = k a w1.
Proof. intros Hm. by rewrite bind_eq, Hm. Qed.

Lemma bind_fail {A B} (m : M A) (k : A → M B) (w : World) e w1 :
  m w = Raise e w1 → (m ≫= k) w = Raise e w1.
Proof. intros Hm. by rewrite bind_eq, Hm. Qed.

Lemma print_eq line (w : World) :
  print line w = Return tt {| fs := fs w; stdout := stdout w ++ [line] |}.
Proof. reflexivity. Qed.

Lemma cube_step_run ob step t hdus (w : World) :
  step_table (fs w) ob step t →
  cube_step (ob +:+ ".p" +:+ step +:+ ".fits") step hdus w
  = Return (hdus ++ [t])
      {| fs := fs w;
         stdout := stdout w
           ++ [Str.tab +:+ "Extracting 1D spectrum for step " +:+ step] |}.
Proof.
  intros (flux & wave & spectrum & sig & Hread & Hextract & Hs & Hg & Hne & ->).
  unfold cube_step. rewrite bind_eq, print_eq.
  unfold ps_read_and_find_star_p08 at 1. rewrite bind_eq. unfold read at 1.
  simpl fs. rewrite Hread.
  unfold ps_weighted_extract_spectrum at 1. rewrite bind_eq. unfold read at 1.
  rewrite Hextract. rewrite bind_eq.
  assert (columns_T [wave; spectrum; sig]
            {| fs := fs w;
               stdout := stdout w
                 ++ [Str.tab +:+ "Extracting 1D spectrum for step " +:+ step] |}
          = Return (table_rows wave spectrum sig)
              {| fs := fs w;
                 stdout := stdout w
                   ++ [Str.tab +:+ "Extracting 1D spectrum for step " +:+ step] |})
    as ->.
  { apply columns_T_Return. split; [by repeat constructor|].
    split; [|done]. by rewrite transpose_triple. }
  rewrite bind_eq.
  assert (table_rows wave spectrum sig ≠ []) as Hrows.
  { unfold table_rows. destruct wave, spectrum, sig; simplify_eq/=; done. }
  destruct (table_rows wave spectrum sig) as [|row rows] eqn:Erows; [done|].
  simpl. rewrite alter_last. unfold set_card. simpl.
  by rewrite insert_empty.
Qed.

Lemma cube_steps_run ob steps tables hdus (w : World) :
  Forall2 (step_table (fs w) ob) steps tables →
  for_each (zip ((λ step, ob +:+ ".p" +:+ step +:+ ".fits") <$> steps) steps)
    (λ '(fits_file, step), cube_step fits_file step) hdus w
  = Return (hdus ++ tables)
      {| fs := fs w;
         stdout := stdout w
           ++ ((λ step, Str.tab +:+ "Extracting 1D spectrum for step " +:+ step)
                 <$> steps) |}.
Proof.
  revert tables hdus w. induction steps as [|step steps IH];
    intros tables hdus w Htables.
  - apply Forall2_nil_inv_l in Htables as ->. simpl.
    rewrite !app_nil_r. by destruct w.
  - apply Forall2_cons_inv_l in Htables as (t & tables' & Ht & Htables & ->).
    simpl. rewrite bind_eq, (cube_step_run _ _ _ _ _ Ht).
    rewrite (IH tables') by done. simpl.
    by rewrite <- !app_assoc.
Qed.

(** What a key needs for its cube to be assembled: the first step-file
    has a primary header with [OBJNAME] and every step-file gives its
    table. *)
Definition extractable (s : FS) (steps : list string) (ob : string) : Prop :=
  ∃ step0 header objname tables,
    head steps = Some step0
    ∧ getheader (ob +:+ ".p" +:+ step0 +:+ ".fits") s = inr header
    ∧ header !! "OBJNAME" = Some objname
    ∧ Forall2 (step_table s ob) steps tables.

(** The lines printed for an observation up to the end of the extraction. *)
Definition extraction_log (steps : list string) (ob : string) : list string :=
  ("Making cube for " +:+ ob +:+ ".pXX.fits")
    :: ((λ step, Str.tab +:+ "Extracting 1D spectrum for step " +:+ step)
          <$> steps).

Lemma cube_observation_unbound night steps out_dir ob (w : World) :
  extractable (fs w) steps ob →
  Str.contains "T2m3wr" ob = false →
  Str.contains "T2m3wb" ob = false →
  cube_observation night steps out_dir ob None w
  = Raise (UnboundLocalError "output_filename")
      {| fs := fs w; stdout := stdout w ++ extraction_log steps ob |}.
Proof.
  intros (step0 & header & objname & tables & Hstep0 & Hheader & Hcard & Ht)
    Hred Hblue.
  unfold cube_observation. destruct steps as [|? steps']; [done|].
  injection Hstep0 as ->.
  rewrite (bind_run _ _ w (ob +:+ ".p" +:+ step0 +:+ ".fits") w) by done.
  rewrite (bind_run _ _ w header w) by (unfold read; by rewrite Hheader).
  rewrite (bind_run _ _ w objname w) by (unfold card; by rewrite Hcard).
  rewrite (bind_run _ _ _ _ _ (print_eq _ _)).
  rewrite (bind_run _ _ _ _ _
             (cube_steps_run ob _ tables _ {| fs := fs w; stdout := _ |} Ht)).
  apply bind_fail. unfold spectral_arm. rewrite Hred, Hblue. simpl.
  unfold raise, extraction_log. by rewrite <- app_assoc.
Qed.

(** C10. When the first observation found has a key with neither arm
    marker, and its cube could be assembled (the header of its first
    step-file is read and every step gives its table), the call raises
    [UnboundLocalError] for [output_filename]: the variable was never
    assigned.  The error comes after the extraction, whose lines are
    printed, and nothing is written: the file system is the one the
    creation of the output directory left. *)
Theorem unmarked_first_key_unbound root night steps step0 ob rest
    (w w0 : World) :
  ensure_dir (Path.join (Path.join root night) "extracted_cubes_1d") w
  = Return tt w0 →
  head steps = Some step0 →
  unique_obs (fs w0) (Path.join root night) step0 = ob :: rest →
  Str.contains "T2m3wr" ob = false →
  Str.contains "T2m3wb" ob = false →
  extractable (fs w0) steps ob →
  make_extracted_stellar_cube root night steps w
  = Raise (UnboundLocalError "output_filename")
      {| fs := fs w0; stdout := stdout w0 ++ extraction_log steps ob |}.
Proof.
  intros Hdir Hstep0 Hobs Hred Hblue Hextract.
  rewrite (cube_run_eq _ _ _ _ _ _ Hdir Hstep0), Hobs. simpl.
  by rewrite (bind_fail _ _ _ _ _ (cube_observation_unbound _ _ _ _ _
                                     Hextract Hred Hblue)).
Qed.


(** ** The observations found *)

(** C5, as the code has it.  For a night directory and a first step
    without the characters [*], [?] and [[], the observations found are
    those of the files exactly one directory below the night directory:
    [ob] is found if and only if there are a directory [sub] listed in the
    night directory and a name listed in [sub], neither starting with a
    dot, the name ending with [<step>.fits], such that [ob] is the path
    [night/sub/name] with every [.p<step>.fits] taken out.  Files directly
    in the night directory and files two or more directories below it are
    not looked at. *)
Theorem found_one_level_below (s : FS) data_dir step0 ob :
  has_magic data_dir = false → has_magic step0 = false →
  ob ∈ unique_obs s data_dir step0 ↔
  ∃ sub name,
    sub ∈ listdir s data_dir
    ∧ hidden sub = false
    ∧ isdir s (Path.join data_dir sub) = true
    ∧ name ∈ listdir s (Path.join data_dir sub)
    ∧ hidden name = false
    ∧ Str.endswith name (step0 +:+ ".fits") = true
    ∧ ob = Str.replace (Path.join (Path.join data_dir sub) name)
             (".p" +:+ step0 +:+ ".fits") "".
Proof.
  intros _ _. unfold unique_obs, glob_below, glob_in, glob1.
  rewrite list_elem_of_fmap. split.
  - intros (path & -> & Hpath).
    apply list_elem_of_bind in Hpath as (sub & Hpath & Hsub).
    apply list_elem_of_fmap in Hpath as (name & -> & Hname).
    apply list_elem_of_filter in Hsub as [Hsub Hin].
    apply list_elem_of_filter in Hname as [Hname Hin'].
    apply andb_prop in Hsub as [Hhid%negb_true_iff Hdir].
    apply andb_prop in Hname as [Hhid'%negb_true_iff Hend].
    by exists sub, name.
  - intros (sub & name & Hin & Hhid & Hdir & Hin' & Hhid' & Hend & ->).
    eexists. split; [done|]. apply list_elem_of_bind. exists sub. split.
    + apply list_elem_of_fmap. exists name. split; [done|].
      apply list_elem_of_filter. split; [|done].
      by rewrite Hhid', Hend.
    + apply list_elem_of_filter. split; [|done]. by rewrite Hhid, Hdir.
Qed.


(** ** The header repair *)

(** The three conditions on a primary header: the frame is an object
    frame, [OBJNAME] holds the marker of the copy-paste error, and
    [OBJECT] is not empty. *)
Definition needs_repair (h : Header) : bool :=
  match h !! "IMAGETYP", h !! "OBJNAME", h !! "OBJECT" with
  | Some imagetyp, Some objname, Some object =>
      String.eqb imagetyp "object" && Str.contains "exp" objname
        && negb (String.eqb object "")
  | _, _, _ => false
  end.

(** [OBJECT] copied into [OBJNAME] where the three conditions hold. *)
Definition repair (h : Header) : Header :=
  match h !! "OBJECT" with
  | Some object => if needs_repair h then <["OBJNAME" := object]> h else h
  | None => h
  end.

Definition repair_file (c : content) : content :=
  match c with
  | FitsFile (hdu :: rest) =>
      FitsFile ({| hdu_header := repair (hdu_header hdu);
                   hdu_data := hdu_data hdu |} :: rest)
  | _ => c
  end.

Lemma repair_idemp h : repair (repair h) = repair h.
Proof.
  unfold repair at 2 3. destruct (h !! "OBJECT") as [object|] eqn:Hobject;
    [|unfold repair; by rewrite Hobject].
  destruct (needs_repair h) eqn:Hneeds; [|unfold repair; by rewrite Hobject, Hneeds].
  unfold repair. rewrite lookup_insert_ne, Hobject by done.
  destruct (needs_repair (<[_:=_]> _)); [|done]. by rewrite insert_insert_eq.
Qed.

Lemma repair_file_idemp c : repair_file (repair_file c) = repair_file c.
Proof.
  destruct c as [[|hdu rest]|]; simpl; [done| |done]. by rewrite repair_idemp.
Qed.

Lemma update_file_Return fits_file (w w' : World) u u' :
  update_file false fits_file u w = Return u' w' →
  ∃ hdu rest,
    files (fs w) !! fits_file = Some (FitsFile (hdu :: rest))
    ∧ files (fs w')
      = <[fits_file := repair_file (FitsFile (hdu :: rest))]> (files (fs w))
    ∧ dirs (fs w') = dirs (fs w).
Proof.
  unfold update_file. intros Hrun.
  apply bind_Return in Hrun as (ff & w1 & Hopen & Hrun).
  apply read_Return in Hopen as [Hopen ->].
  apply bind_Return in Hrun as (header & w1 & Hheader & Hrun).
  apply read_Return in Hheader as [Hheader ->].
  unfold fits_open in Hopen.
  destruct (files (fs w) !! fits_file) as [[hdul|]|] eqn:Hfile; simplify_eq.
  destruct ff as [|hdu rest]; simplify_eq/=.
  exists hdu, rest. split; [done|].
  assert (needs_repair (hdu_header hdu) = false →
          files (fs w) = <[fits_file := repair_file (FitsFile (hdu :: rest))]>
                           (files (fs w))) as Hsame.
  { intros Hno. symmetry. apply insert_id. rewrite Hfile. simpl.
    unfold repair. rewrite Hno. destruct hdu. simpl. by destruct (_ !! "OBJECT"). }
  unfold needs_repair in Hsame. simpl repair_file in *.
  destruct (bool_decide _) eqn:Hhas in Hrun;
    [|apply mret_Return in Hrun as [_ ->]; split; [|done]; apply Hsame;
      apply bool_decide_eq_false in Hhas;
      destruct (hdu_header hdu !! "OBJNAME"); [by destruct Hhas|];
      by destruct (hdu_header hdu !! "IMAGETYP")].
  apply bind_Return in Hrun as (imagetyp & w1 & [Himagetyp ->]%card_Return & Hrun).
  rewrite Himagetyp in Hsame.
  destruct (String.eqb imagetyp "object") eqn:Hobj;
    [|apply mret_Return in Hrun as [_ ->]; split; [|done]; apply Hsame;
      by repeat case_match].
  apply bind_Return in Hrun as (objname & w1 & [Hobjname ->]%card_Return & Hrun).
  rewrite Hobjname in Hsame.
  destruct (Str.contains "exp" objname) eqn:Hexp;
    [|apply mret_Return in Hrun as [_ ->]; split; [|done]; apply Hsame;
      by repeat case_match].
  apply bind_Return in Hrun as (object & w1 & [Hobject ->]%card_Return & Hrun).
  rewrite Hobject in Hsame.
  destruct (String.eqb object "") eqn:Hempty; simpl in Hrun;
    [apply mret_Return in Hrun as [_ ->]; split; [|done]; by apply Hsame|].
  apply bind_Return in Hrun as (? & w1 & ->%print_Return & Hrun).
  unfold flush in Hrun. apply update_Return in Hrun as (s & [= <-] & ->).
  simpl. split.
  - do 3 f_equal. unfold set_card, repair, needs_repair. simpl.
    by rewrite Hobject, Himagetyp, Hobjname, Hobj, Hexp, Hempty.
  - unfold isfile. by rewrite Hfile.
Qed.


Lemma update_files_Return l (w w' : World) u u' :
  for_each l (update_file false) u w = Return u' w' →
  dirs (fs w') = dirs (fs w)
  ∧ (∀ p, files (fs w') !! p
          = if decide (p ∈ l) then repair_file <$> files (fs w) !! p
            else files (fs w) !! p)
  ∧ ∀ p, p ∈ l →
         ∃ hdu rest, files (fs w) !! p = Some (FitsFile (hdu :: rest)).
Proof.
  revert w u. induction l as [|f l IH]; intros w u Hrun.
  - apply mret_Return in Hrun as [_ ->]. split; [done|]. split.
    + intros p. by rewrite decide_False by apply not_elem_of_nil.
    + by intros p ?%elem_of_nil.
  - simpl in Hrun. apply bind_Return in Hrun as (u1 & w1 & Hfile & Hrun).
    apply update_file_Return in Hfile as (hdu & rest & Hc & Hfiles & Hdirs).
    apply IH in Hrun as (Hdirs' & Hrest & Hfits).
    split; [congruence|]. split.
    + intros p. rewrite Hrest, Hfiles. destruct (decide (p = f)) as [->|Hne].
      * rewrite lookup_insert_eq, Hc, (decide_True (P:=f ∈ f :: l)) by by left.
        change (repair_file <$> Some ?c) with (Some (repair_file c)).
        case_decide; [|done]. simpl. by rewrite repair_idemp.
      * rewrite lookup_insert_ne by done.
        destruct (decide (p ∈ l)) as [Hin|Hnin].
        -- by rewrite decide_True by by right.
        -- rewrite decide_False; [done|]. by intros [?|?]%elem_of_cons.
    + intros p [->|Hin]%elem_of_cons; [by eauto|].
      destruct (Hfits p Hin) as (hdu' & rest' & Hp). rewrite Hfiles in Hp.
      destruct (decide (p = f)) as [->|Hne]; [by eauto|].
      rewrite lookup_insert_ne in Hp by done. eauto.
Qed.

(** C8. When [update_object_header] without [print_only] returns, the
    files of the night, those that [glob] finds at [root/night/*.fits],
    are FITS files; in the primary header of each of them that is an
    object frame ([IMAGETYP] is [object]) whose [OBJNAME] holds [exp] and
    whose [OBJECT] is not empty, [OBJNAME] now is [OBJECT] and nothing
    else has changed; every file of the night for which one of the three
    conditions fails, every other file of the store and every directory
    listing is as it was. *)
Theorem header_repair root night (w w' : World) p :
  update_object_header root night false w = Return tt w' →
  dirs (fs w') = dirs (fs w)
  ∧ (p ∉ glob_in (fs w) (Path.join root night) ".fits" →
     files (fs w') !! p = files (fs w) !! p)
  ∧ (p ∈ glob_in (fs w) (Path.join root night) ".fits" →
     ∃ hdu rest,
       files (fs w) !! p = Some (FitsFile (hdu :: rest))
       ∧ if needs_repair (hdu_header hdu)
         then ∃ object,
                hdu_header hdu !! "OBJECT" = Some object
                ∧ files (fs w') !! p
                  = Some (FitsFile
                      ({| hdu_header := <["OBJNAME" := object]> (hdu_header hdu);
                          hdu_data := hdu_data hdu |} :: rest))
         else files (fs w') !! p = files (fs w) !! p).
Proof.
  unfold update_object_header. intros Hrun.
  apply bind_Return in Hrun as (s & w1 & [-> ->]%get_fs_Return & Hrun).
  apply update_files_Return in Hrun as (Hdirs & Hfiles & Hfits).
  split; [done|].
  assert (∀ q, q ∈ merge_sort String.le
                     (glob_in (fs w) (Path.join root night) ".fits")
               ↔ q ∈ glob_in (fs w) (Path.join root night) ".fits") as Hsort.
  { intros q. by rewrite merge_sort_Permutation. }
  split.
  - intros Hnin. rewrite Hfiles, decide_False; [done|]. by rewrite Hsort.
  - intros Hin. rewrite Hfiles, decide_True by by rewrite Hsort.
    destruct (Hfits p) as (hdu & rest & Hp); [by rewrite Hsort|].
    exists hdu, rest. split; [done|]. rewrite Hp. simpl. unfold repair.
    destruct (needs_repair (hdu_header hdu)) eqn:Hneeds.
    + unfold needs_repair in Hneeds.
      destruct (hdu_header hdu !! "OBJECT") as [object|];
        [by exists object|by repeat case_match].
    + destruct hdu. simpl. by destruct (_ !! "OBJECT").
Qed.


(** ** Strings as lists of characters *)

Local Abbreviation chars := String.list_ascii_of_string.

Lemma chars_app a b : chars (a +:+ b) = chars a ++ chars b.
Proof. induction a as [|c a IH]; [done|]. simpl. by rewrite <- IH. Qed.

Lemma chars_inj a b : chars a = chars b → a = b.
Proof.
  intros Heq. rewrite <- (String.string_of_list_ascii_of_string a),
    <- (String.string_of_list_ascii_of_string b). by rewrite Heq.
Qed.

Lemma string_app_assoc a b c : (a +:+ b) +:+ c = a +:+ (b +:+ c).
Proof. apply chars_inj. by rewrite !chars_app, app_assoc. Qed.

Lemma string_app_nil_r a : a +:+ "" = a.
Proof. apply chars_inj. by rewrite chars_app, app_nil_r. Qed.

Lemma endswith_eq s suf :
  Str.endswith s suf
  = String.eqb s suf
    || match s with EmptyString => false | String _ s' => Str.endswith s' suf end.
Proof. by destruct s. Qed.

Lemma endswith_spec s suf : Str.endswith s suf = true ↔ ∃ a, s = a +:+ suf.
Proof.
  induction s as [|c s IH]; rewrite endswith_eq.
  - destruct (String.eqb_spec "" suf) as [<-|Hne].
    + split; [by exists ""|done].
    + split; [done|]. intros [a Ha]. destruct a, suf; simplify_eq/=.
  - destruct (String.eqb_spec (String c s) suf) as [<-|Hne].
    + split; [by exists ""|done].
    + simpl. rewrite IH. split.
      * intros [a ->]. by exists (String c a).
      * intros [[|c' a] Ha]; [by destruct Hne|]. injection Ha as -> ->. eauto.
Qed.

Lemma endswith_app a suf : Str.endswith (a +:+ suf) suf = true.
Proof. apply endswith_spec. by exists a. Qed.

Lemma endswith_app_l a s suf :
  Str.endswith s suf = true → Str.endswith (a +:+ s) suf = true.
Proof.
  rewrite !endswith_spec. intros [b ->]. exists (a +:+ b).
  by rewrite string_app_assoc.
Qed.

(** Two suffixes of one string whose last characters differ. *)
Lemma endswith_last_char s a c b d :
  Str.endswith s (a +:+ String c "") = true →
  Str.endswith s (b +:+ String d "") = true → c = d.
Proof.
  rewrite !endswith_spec. intros [x ->] [y Heq].
  apply (f_equal chars) in Heq. rewrite !chars_app, !app_assoc in Heq.
  by apply app_inj_tail in Heq as [_ [= ->]].
Qed.


(** ** Paths *)

Lemma join_cases a b :
  Str.startswith b "/" = false →
  Path.join a b = a +:+ b ∨ Path.join a b = a +:+ "/" +:+ b.
Proof. unfold Path.join. intros ->. destruct (_ || _); auto. Qed.




Lemma cut_sep_app a b :
  Path.cut (a +:+ "/" +:+ b)
  = (a +:+ "/" +:+ (Path.cut b).1, (Path.cut b).2).
Proof.
  induction a as [|c a IH].
  - change ("" +:+ "/" +:+ b) with (String "/" b). simpl.
    by destruct (Path.cut b) as [[|c h] t].
  - change (String c a +:+ "/" +:+ b) with (String c (a +:+ "/" +:+ b)).
    simpl. rewrite IH. by destruct a.
Qed.

Lemma rstrip_sep_app x c y :
  c ≠ "/"%char →
  Path.rstrip_sep ((x +:+ String c "") +:+ y)
  = (x +:+ String c "") +:+ Path.rstrip_sep y.
Proof.
  intros Hc. induction x as [|c' x IH].
  - change (("" +:+ String c "") +:+ y) with (String c y). simpl.
    destruct (Path.rstrip_sep y); [|done].
    by destruct (Ascii.eqb_spec c "/").
  - change ((String c' x +:+ String c "") +:+ y)
      with (String c' ((x +:+ String c "") +:+ y)).
    simpl. rewrite IH. by destruct x.
Qed.




(** ** Running the assembler again *)

(** Paths and names of cubes: they end with the suffix of an arm. *)
Definition cube_like (p : string) : Prop :=
  Str.endswith p "_r.fits" = true ∨ Str.endswith p "_b.fits" = true.

(** A step that cannot be taken for the end of a cube name: it has a last
    character, which is neither [r] nor [b]. *)
Definition step_ok (step : string) : Prop :=
  ∃ t c, step = t +:+ String c "" ∧ c ≠ "r"%char ∧ c ≠ "b"%char.

Lemma endswith_char_before s a c b d k :
  Str.endswith s ((a +:+ String c "") +:+ k) = true →
  Str.endswith s ((b +:+ String d "") +:+ k) = true → c = d.
Proof.
  rewrite !endswith_spec. intros [x ->] [y Heq].
  apply (f_equal chars) in Heq. rewrite !chars_app, !app_assoc in Heq.
  apply app_inv_tail in Heq. by apply app_inj_tail in Heq as [_ [= ->]].
Qed.

Lemma cube_like_not_step p step :
  step_ok step → cube_like p → Str.endswith p (step +:+ ".fits") = false.
Proof.
  intros (t & c & -> & Hr & Hb) Hcube. apply not_true_iff_false. intros Hend.
  destruct Hcube as [Hcube|Hcube].
  - destruct Hr. by apply (endswith_char_before p t c "_" "r" ".fits").
  - destruct Hb. by apply (endswith_char_before p t c "_" "b" ".fits").
Qed.











(** What [cube_observation] computes for a key before it writes: the name
    of the cube and its HDUs, from the store [s] and the value [var] of
    [output_filename] so far. *)
Definition assembles (night : string) (steps : list string) (ob : string)
    (var : option string) (s : FS) (name : string) (hdus : list HDU) : Prop :=
  ∃ step0 header objname tables,
    head steps = Some step0
    ∧ getheader (ob +:+ ".p" +:+ step0 +:+ ".fits") s = inr header
    ∧ header !! "OBJNAME" = Some objname
    ∧ Forall2 (step_table s ob) steps tables
    ∧ spectral_arm ob
        (night +:+ "_" +:+ Str.replace objname " " "" +:+ "_r.fits")
        (night +:+ "_" +:+ Str.replace objname " " "" +:+ "_b.fits") var
      = Some name
    ∧ hdus = {| hdu_header := header; hdu_data := NoData |} :: tables.

Lemma cube_observation_Return night steps out_dir ob var (w w' : World) var' :
  cube_observation night steps out_dir ob var w = Return var' w' →
  ∃ name hdus,
    assembles night steps ob var (fs w) name hdus
    ∧ var' = Some name
    ∧ write (Path.join out_dir name) (FitsFile hdus) (fs w) = inr (fs w').
Proof.
  unfold cube_observation. intros Hrun.
  apply bind_Return in Hrun as (f0 & w1 & Hfirst & Hrun).
  apply first_Return in Hfirst as [Hfirst ->].
  apply bind_Return in Hrun as (header & w1 & Hheader & Hrun).
  apply read_Return in Hheader as [Hheader ->].
  apply bind_Return in Hrun as (objname & w1 & Hcard & Hrun).
  apply card_Return in Hcard as [Hcard ->].
  apply bind_Return in Hrun as (u & w1 & Hprint & Hrun).
  apply print_Return in Hprint as ->.
  apply bind_Return in Hrun as (hdus & w2 & Hloop & Hrun).
  apply cube_steps_Return in Hloop as (tables & Htables & -> & Hfs & Hout).
  apply bind_Return in Hrun as (name & w3 & Hlocal & Hrun).
  apply local_Return in Hlocal as [Hlocal ->].
  run_inv. simpl in *.
  destruct steps as [|step0 steps']; [done|]. simpl in Hfirst.
  injection Hfirst as <-.
  exists name, ({| hdu_header := header; hdu_data := NoData |} :: tables).
  split; [by exists step0, header, objname, tables|].
  split; [done|]. by rewrite <- Hfs.
Qed.






Lemma startswith_sep_cons c s :
  Str.startswith (String c s) "/" = if ascii_dec "/" c then true else false.
Proof.
  unfold Str.startswith.
  change (String.prefix "/" (String c s))
    with (if ascii_dec "/" c then String.prefix "" s else false).
  destruct (ascii_dec "/" c); [by destruct s|done].
Qed.







Lemma FS_eq (s1 s2 : FS) :
  files s1 = files s2 → dirs s1 = dirs s2 → s1 = s2.
Proof. destruct s1, s2. simpl. by intros -> ->. Qed.















(** * Further properties *)

(** ** Computations that leave the files alone *)

Definition same_files : relation World := λ w w',
  files (fs w') = files (fs w).

Global Instance same_files_preorder : PreOrder same_files.
Proof.
  split; [done|]. intros w1 w2 w3 H12 H23. unfold same_files in *. congruence.
Qed.

(** ** Cubes that share a name *)

(** Storing twice at one path leaves what was stored last. *)
Lemma put_put p (c1 c2 : content) (s : FS) :
  put p c2 (put p c1 s) = put p c2 s.
Proof.
  apply FS_eq.
  - simpl. by rewrite insert_insert_eq.
  - unfold put at 1. simpl.
    assert (isfile (put p c1 s) p = true) as ->; [|done].
    unfold isfile. simpl. rewrite lookup_insert_eq.
    by apply bool_decide_eq_true.
Qed.

(** The object identifier the assembler takes for a key: [OBJNAME] of its
    first step-file, the spaces deleted. *)
Definition object_id (s : FS) (ob step0 : string) : option string :=
  match getheader (ob +:+ ".p" +:+ step0 +:+ ".fits") s with
  | inr header => (λ objname, Str.replace objname " " "") <$> header !! "OBJNAME"
  | inl _ => None
  end.

(** Two keys of one arm: both hold the red marker, or neither does and both
    hold the blue one. *)
Definition same_arm (ob1 ob2 : string) : Prop :=
  Str.contains "T2m3wr" ob1 = true ∧ Str.contains "T2m3wr" ob2 = true
  ∨ Str.contains "T2m3wr" ob1 = false ∧ Str.contains "T2m3wr" ob2 = false
    ∧ Str.contains "T2m3wb" ob1 = true ∧ Str.contains "T2m3wb" ob2 = true.

(** X1. Two observations of one object in one arm, assembled one after the
    other, are given one file name: the cube of the second is written over
    the cube of the first, and the file system is left as if the first had
    never been assembled. *)
Theorem same_object_one_cube night steps step0 out_dir ob1 ob2 var
    (w w1 w2 : World) var1 var2 :
  head steps = Some step0 →
  same_arm ob1 ob2 →
  object_id (fs w) ob1 step0 = object_id (fs w1) ob2 step0 →
  cube_observation night steps out_dir ob1 var w = Return var1 w1 →
  cube_observation night steps out_dir ob2 var1 w1 = Return var2 w2 →
  ∃ name c1 header tables,
    var1 = Some name ∧ var2 = Some name
    ∧ fs w1 = put (Path.join out_dir name) c1 (fs w)
    ∧ getheader (ob2 +:+ ".p" +:+ step0 +:+ ".fits") (fs w1) = inr header
    ∧ Forall2 (step_table (fs w1) ob2) steps tables
    ∧ fs w2
      = put (Path.join out_dir name)
          (FitsFile ({| hdu_header := header; hdu_data := NoData |} :: tables))
          (fs w).
Proof.
  intros Hstep0 Harm Hid Hrun1 Hrun2.
  apply cube_observation_Return in Hrun1
    as (name1 & hdus1 & Hplan1 & -> & Hwrite1).
  apply cube_observation_Return in Hrun2
    as (name2 & hdus2 & Hplan2 & -> & Hwrite2).
  destruct Hplan1 as (s1 & h1 & o1 & t1 & Hs1 & Hh1 & Ho1 & _ & Hname1 & ->).
  destruct Hplan2 as (s2 & h2 & o2 & t2 & Hs2 & Hh2 & Ho2 & Ht2 & Hname2 & ->).
  rewrite Hstep0 in Hs1, Hs2. simplify_eq.
  unfold object_id in Hid. rewrite Hh1, Hh2, Ho1, Ho2 in Hid.
  change (Some (Str.replace o1 " " "") = Some (Str.replace o2 " " "")) in Hid.
  apply (inj Some) in Hid. rewrite <- Hid in Hname2.
  assert (name2 = name1) as ->.
  { unfold spectral_arm in *.
    destruct Harm as [[Hr1 Hr2]|(Hr1 & Hr2 & Hb1 & Hb2)].
    - rewrite Hr1 in Hname1. rewrite Hr2 in Hname2. congruence.
    - rewrite Hr1, Hb1 in Hname1. rewrite Hr2, Hb2 in Hname2. congruence. }
  apply write_inr in Hwrite1 as (Hfs1 & _ & _).
  apply write_inr in Hwrite2 as (Hfs2 & _ & _).
  exists name1, (FitsFile ({| hdu_header := h1; hdu_data := NoData |} :: t1)),
    h2, t2.
  repeat (split; [done|]). by rewrite Hfs2, Hfs1, put_put.
Qed.

(** ** A key without arm marker after a key with one *)

(** X2. An observation whose key holds neither arm marker, met when an
    earlier observation has left its name in [output_filename]: no error is
    raised, the variable keeps the earlier name, and the cube of this
    observation is written under that name, over the earlier cube. *)
Theorem unmarked_key_takes_last_name night steps out_dir ob prev
    (w w' : World) var' :
  Str.contains "T2m3wr" ob = false →
  Str.contains "T2m3wb" ob = false →
  cube_observation night steps out_dir ob (Some prev) w = Return var' w' →
  var' = Some prev
  ∧ ∃ step0 header tables,
      head steps = Some step0
      ∧ getheader (ob +:+ ".p" +:+ step0 +:+ ".fits") (fs w) = inr header
      ∧ Forall2 (step_table (fs w) ob) steps tables
      ∧ files (fs w') !! Path.join out_dir prev
        = Some (FitsFile
            ({| hdu_header := header; hdu_data := NoData |} :: tables))
      ∧ ∀ p, p ≠ Path.join out_dir prev →
             files (fs w') !! p = files (fs w) !! p.
Proof.
  intros Hred Hblue Hrun.
  apply cube_observation_Return in Hrun as (name & hdus & Hplan & -> & Hwrite).
  destruct Hplan as (step0 & header & objname & tables & Hstep0 & Hheader & _
                     & Htables & Hname & ->).
  unfold spectral_arm in Hname. rewrite Hred, Hblue in Hname.
  injection Hname as <-. split; [done|].
  apply write_inr in Hwrite as (-> & _ & _).
  exists step0, header, tables. repeat (split; [done|]). simpl. split.
  - by rewrite lookup_insert_eq.
  - intros p Hp. by rewrite lookup_insert_ne.
Qed.

(** ** Loops that keep an invariant on their locals *)

Lemma keeps_for_each_inv {X L} (R : relation World) `{!PreOrder R}
    (I : L → Prop) (xs : list X) (body : X → L → M L) l :
  (∀ x l', I l' → keeps R (body x l')) →
  (∀ x l1 w l2 w', I l1 → body x l1 w = Return l2 w' → I l2) →
  I l → keeps R (for_each xs body l).
Proof.
  intros Hkeeps Hinv. revert l.
  induction xs as [|x xs IH]; intros l Hl w; simpl.
  - reflexivity.
  - rewrite bind_eq. specialize (Hkeeps x l Hl w).
    destruct (body x l w) as [l2 w2|e w2] eqn:Hbody; simpl in *; [|done].
    etrans; [done|]. apply IH. by eapply Hinv.
Qed.

Lemma ensure_dir_files d (w : World) :
  files (fs (final (ensure_dir d w))) = files (fs w).
Proof.
  unfold ensure_dir. rewrite bind_eq. simpl.
  destruct (negb (isdir (fs w) d) && negb (exists_ (fs w) d)); [|done].
  unfold update, mkdir. repeat case_match; by simplify_eq/=.
Qed.

(** ** What the assembler leaves alone *)

(** The value of [output_filename] between two observations: unassigned,
    or the name of a cube of the night. *)
Definition cube_named (night : string) (var : option string) : Prop :=
  ∀ name, var = Some name →
          ∃ rest, name = night +:+ "_" +:+ rest ∧ cube_like rest.

(** Every file is as it was or is a cube of the night in [out_dir]. *)
Definition only_cubes (night out_dir : string) : relation World := λ w w',
  ∀ p, files (fs w') !! p = files (fs w) !! p
       ∨ ∃ rest hdus,
           p = Path.join out_dir (night +:+ "_" +:+ rest)
           ∧ cube_like rest
           ∧ files (fs w') !! p = Some (FitsFile hdus).

Global Instance only_cubes_preorder night out_dir :
  PreOrder (only_cubes night out_dir).
Proof.
  split; [by left|]. intros w1 w2 w3 H12 H23 p.
  destruct (H23 p) as [->|?]; [apply H12|by right].
Qed.

Lemma only_cubes_same night out_dir (w w' : World) :
  files (fs w') = files (fs w) → only_cubes night out_dir w w'.
Proof. intros Hsame p. left. by rewrite Hsame. Qed.

Lemma spectral_arm_named night obj_id ob var name :
  cube_named night var →
  spectral_arm ob (night +:+ "_" +:+ obj_id +:+ "_r.fits")
    (night +:+ "_" +:+ obj_id +:+ "_b.fits") var = Some name →
  ∃ rest, name = night +:+ "_" +:+ rest ∧ cube_like rest.
Proof.
  intros Hvar Hname. unfold spectral_arm in Hname.
  destruct (Str.contains "T2m3wr" ob); [|destruct (Str.contains "T2m3wb" ob)];
    simplify_eq.
  - eexists. split; [done|]. left. apply endswith_app.
  - eexists. split; [done|]. right. apply endswith_app.
  - by apply Hvar.
Qed.

Lemma cube_observation_named night steps out_dir ob var (w w' : World) var' :
  cube_named night var →
  cube_observation night steps out_dir ob var w = Return var' w' →
  cube_named night var'.
Proof.
  intros Hvar Hrun.
  apply cube_observation_Return in Hrun as (name & hdus & Hplan & -> & _).
  destruct Hplan as (_ & _ & objname & _ & _ & _ & _ & _ & Hname & _).
  intros ? [= <-]. by eapply spectral_arm_named.
Qed.

Lemma keeps_cube_observation night steps out_dir ob var :
  cube_named night var →
  keeps (only_cubes night out_dir)
    (cube_observation night steps out_dir ob var).
Proof.
  intros Hvar. unfold cube_observation.
  repeat keeps_step; try (intros; by apply only_cubes_same).
  - apply keeps_for_each; [apply _|]. intros [fits_file step] hdus _.
    unfold cube_step.
    repeat keeps_step; intros; by apply only_cubes_same.
  - apply keeps_update; [apply _|]. intros v fs1 Hwrite p.
    apply write_inr in Hwrite as (-> & _ & _). simpl.
    match goal with |- context [<[?q := _]> _ !! p] =>
      destruct (decide (q = p)) as [<-|Hne] end;
      [|left; by rewrite lookup_insert_ne].
    right. rewrite lookup_insert_eq.
    match goal with Hret : returns (local _ _) _ |- _ =>
      destruct Hret as (v1 & v2 & [Hname _]%local_Return) end.
    destruct (spectral_arm_named _ _ _ _ _ Hvar Hname) as (rest & -> & Hcube).
    by eexists rest, _.
Qed.

(** X3. Whatever [make_extracted_stellar_cube] does, returning or raising, a
    path whose content after the call is not its content before the call is
    the path of a cube in the output directory, named [<night>_..._r.fits]
    or [<night>_..._b.fits], and holds a FITS file. Every other file, the
    step-files among them, is as it was, and no file is removed. *)
Theorem assembler_changes_only_cubes root night steps (w : World) p :
  let out_dir := Path.join (Path.join root night) "extracted_cubes_1d" in
  let w' := final (make_extracted_stellar_cube root night steps w) in
  files (fs w') !! p ≠ files (fs w) !! p →
  ∃ rest hdus,
    p = Path.join out_dir (night +:+ "_" +:+ rest)
    ∧ (Str.endswith rest "_r.fits" = true ∨ Str.endswith rest "_b.fits" = true)
    ∧ files (fs w') !! p = Some (FitsFile hdus).
Proof.
  intros out_dir w' Hchanged.
  assert (keeps (only_cubes night out_dir)
            (make_extracted_stellar_cube root night steps)) as Hkeeps.
  { unfold make_extracted_stellar_cube.
    repeat keeps_step; try (intros; by apply only_cubes_same).
    - intros v. apply only_cubes_same, ensure_dir_files.
    - apply (keeps_for_each_inv _ (cube_named night)).
      + intros ob var Hvar. by apply keeps_cube_observation.
      + intros ob var v var' v' Hvar. by apply cube_observation_named.
      + by intros ? [=]. }
  by destruct (Hkeeps w p) as [?|?].
Qed.

(** ** The names of the ascii files *)

(** Replacing one character by another one, character by character. *)
Lemma replace_char_map (a b : ascii) (s : string) :
  chars (Str.replace s (String a "") (String b ""))
  = (λ c, if decide (c = a) then b else c) <$> chars s.
Proof.
  unfold Str.replace. induction s as [|c s IH]; simpl; [done|].
  destruct (ascii_dec a c) as [->|Hne].
  - rewrite decide_True by done.
    destruct s; simpl in *; by f_equal.
  - rewrite decide_False by done. simpl. by f_equal.
Qed.

Lemma replace_space_gone (s : string) :
  Str.contains " " (Str.replace s " " "_") = false.
Proof.
  apply not_true_iff_false. rewrite contains_char, replace_char_map.
  intros (c & Hc & _)%list_elem_of_fmap. by case_decide.
Qed.

Lemma replace_space_endswith (s suf : string) :
  Str.contains " " suf = false →
  Str.endswith s suf = true →
  Str.endswith (Str.replace s " " "_") suf = true.
Proof.
  intros Hsuf [a ->]%endswith_spec. apply endswith_spec.
  exists (Str.replace a " " "_"). apply chars_inj.
  rewrite chars_app, !replace_char_map, chars_app, fmap_app. f_equal.
  apply not_true_iff_false in Hsuf. rewrite contains_char in Hsuf.
  clear -Hsuf. induction (chars suf) as [|c l IH]; [done|]. simpl.
  rewrite not_elem_of_cons in Hsuf. destruct Hsuf as [Hc Hl].
  rewrite decide_False by done. f_equal. by apply IH.
Qed.

(** Names of ascii files: they end with the suffix of an arm and hold no
    space. *)
Definition dat_like (name : string) : Prop :=
  (Str.endswith name "_r.dat" = true ∨ Str.endswith name "_b.dat" = true)
  ∧ Str.contains " " name = false.

Definition dat_named (var : option string) : Prop :=
  ∀ name, var = Some name → dat_like name.

(** Every file is as it was or is an ascii file in [out_dir]. *)
Definition only_dat (out_dir : string) : relation World := λ w w',
  ∀ p, files (fs w') !! p = files (fs w) !! p
       ∨ ∃ filename lines,
           p = Path.join out_dir filename
           ∧ dat_like filename
           ∧ files (fs w') !! p = Some (TextFile lines).

Global Instance only_dat_preorder out_dir : PreOrder (only_dat out_dir).
Proof.
  split; [by left|]. intros w1 w2 w3 H12 H23 p.
  destruct (H23 p) as [->|?]; [apply H12|by right].
Qed.

Lemma only_dat_same out_dir (w w' : World) :
  files (fs w') = files (fs w) → only_dat out_dir w w'.
Proof. intros Hsame p. left. by rewrite Hsame. Qed.

Lemma spectral_arm_dat night objectid step name var filename :
  dat_named var →
  spectral_arm name
    (night +:+ "_" +:+ objectid +:+ "_" +:+ step +:+ "_r.dat")
    (night +:+ "_" +:+ objectid +:+ "_" +:+ step +:+ "_b.dat") var
  = Some filename →
  dat_like (Str.replace filename " " "_").
Proof.
  intros Hvar Hname. unfold spectral_arm in Hname.
  split; [|apply replace_space_gone].
  destruct (Str.contains "T2m3wr" name); [|destruct (Str.contains "T2m3wb" name)];
    simplify_eq.
  - left. apply replace_space_endswith; [done|].
    rewrite <- !string_app_assoc. apply endswith_app.
  - right. apply replace_space_endswith; [done|].
    rewrite <- !string_app_assoc. apply endswith_app.
  - destruct (Hvar _ eq_refl) as [[?|?] _]; [left|right];
      by apply replace_space_endswith.
Qed.

Lemma ascii_file_named night steps out_dir path name var (w w' : World) var' :
  dat_named var →
  ascii_file night steps out_dir path name var w = Return var' w' →
  dat_named var'.
Proof.
  intros Hvar Hrun. unfold ascii_file in Hrun.
  destruct (Str.penultimate _) as [part|]; [|done].
  destruct (_ && _); [|by apply mret_Return in Hrun as [<- _]].
  run_inv. intros ? [= <-]. by eapply spectral_arm_dat.
Qed.

Lemma keeps_ascii_file_dat night steps out_dir path name var :
  dat_named var →
  keeps (only_dat out_dir) (ascii_file night steps out_dir path name var).
Proof.
  intros Hvar. unfold ascii_file.
  repeat keeps_step; try (intros; by apply only_dat_same).
  unfold savetxt. apply keeps_update; [apply _|]. intros v fs1 Hwrite p.
  apply write_inr in Hwrite as (-> & _ & _). simpl.
  match goal with |- context [<[?q := _]> _ !! p] =>
    destruct (decide (q = p)) as [<-|Hne] end;
    [|left; by rewrite lookup_insert_ne].
  right. rewrite lookup_insert_eq.
  match goal with Hret : returns (local _ _) _ |- _ =>
    destruct Hret as (v1 & v2 & [Hname _]%local_Return) end.
  eexists _, _. split; [done|]. split; [|done].
  by eapply spectral_arm_dat.
Qed.

(** X4. Whatever [extract_stellar_spectra_ascii] does, returning or raising,
    a path whose content after the call is not its content before the call
    is in the directory [ascii] of the night, under a name that ends with
    [_r.dat] or [_b.dat] and holds no space, and it holds a text file. Every
    other file, the FITS files of the night among them, is as it was, and no
    file is removed. *)
Theorem exporter_changes_only_dat root night steps (w : World) p :
  let out_dir := Path.join (Path.join root night) "ascii" in
  let w' := final (extract_stellar_spectra_ascii root night steps w) in
  files (fs w') !! p ≠ files (fs w) !! p →
  ∃ filename lines,
    p = Path.join out_dir filename
    ∧ (Str.endswith filename "_r.dat" = true
       ∨ Str.endswith filename "_b.dat" = true)
    ∧ Str.contains " " filename = false
    ∧ files (fs w') !! p = Some (TextFile lines).
Proof.
  intros out_dir w' Hchanged.
  assert (keeps (only_dat out_dir)
            (extract_stellar_spectra_ascii root night steps)) as Hkeeps.
  { unfold extract_stellar_spectra_ascii.
    repeat keeps_step; try (intros; by apply only_dat_same).
    - intros v. apply only_dat_same, ensure_dir_files.
    - apply (keeps_for_each_inv _ dat_named).
      + intros [[path subdirs] names] var Hvar.
        apply (keeps_for_each_inv _ dat_named); [| |done].
        * intros name var1 Hvar1. by apply keeps_ascii_file_dat.
        * intros name var1 v var2 v' Hvar1. by apply ascii_file_named.
      + intros [[path subdirs] names] var v var' v' Hvar Hrun.
        revert var v Hvar Hrun.
        induction names as [|name names IH]; intros var v Hvar Hrun.
        * by apply mret_Return in Hrun as [<- _].
        * simpl in Hrun. apply bind_Return in Hrun as (var1 & v1 & Hfile & Hrun).
          eapply IH; [|done]. by eapply ascii_file_named.
      + by intros ? [=]. }
  destruct (Hkeeps w p) as [?|(filename & lines & -> & [Hend Hsp] & Hfile)];
    [done|].
  by exists filename, lines.
Qed.

(** X5. The file [extract_stellar_spectra_ascii] writes for a frame it has
    selected (the step read off the path is one of [steps] and the path ends
    with that step and [.fits]) whose name holds an arm marker:
    [<night>_<OBJNAME>_<step>_r.dat], or [..._b.dat] for the blue marker
    only, with every space replaced by an underscore, those of [OBJNAME] and
    those of [night] alike. The name is as long as before the replacement,
    and the file is there after the step. *)
Theorem ascii_name night steps out_dir path name var (w w' : World) var' step :
  Str.tail <$> Str.penultimate (Str.split "." (Path.join path name))
  = Some step →
  step ∈ steps →
  Str.endswith (Path.join path name) (step +:+ ".fits") = true →
  Str.contains "T2m3wr" name = true ∨ Str.contains "T2m3wb" name = true →
  ascii_file night steps out_dir path name var w = Return var' w' →
  ∃ header objectid filename,
    getheader (Path.join path name) (fs w) = inr header
    ∧ header !! "OBJNAME" = Some objectid
    ∧ chars filename
      = (λ c, if decide (c = " "%char) then "_"%char else c)
          <$> chars (night +:+ "_" +:+ objectid +:+ "_" +:+ step
                       +:+ (if Str.contains "T2m3wr" name
                            then "_r.dat" else "_b.dat"))
    ∧ Str.contains " " filename = false
    ∧ var' = Some filename
    ∧ isfile (fs w') (Path.join out_dir filename) = true.
Proof.
  intros Hstep Hin Hend Hmarker Hrun. unfold ascii_file in Hrun.
  destruct (Str.penultimate _) as [part|]; [|done].
  injection Hstep as <-.
  rewrite bool_decide_eq_true_2, Hend in Hrun by done. simpl in Hrun.
  apply bind_Return in Hrun as (u & w1 & Hprint & Hrun).
  apply print_Return in Hprint as ->.
  apply bind_Return in Hrun as (hdul & w1 & [Hopen ->]%read_Return & Hrun).
  apply bind_Return in Hrun as (header & w1 & [Hheader ->]%read_Return & Hrun).
  apply bind_Return in Hrun as (objectid & w1 & [Hcard ->]%card_Return & Hrun).
  apply bind_Return in Hrun as (run & w1 & [_ ->]%card_Return & Hrun).
  apply bind_Return in Hrun as ([flux wave] & w1 & _ & Hrun).
  apply bind_Return in Hrun as ([spectrum sig] & w2 & _ & Hrun).
  apply bind_Return in Hrun as (filename & w3 & [Hname ->]%local_Return & Hrun).
  apply bind_Return in Hrun as (u' & w3 & _ & Hrun).
  apply bind_Return in Hrun as (X & w4 & _ & Hrun).
  apply bind_Return in Hrun as (u'' & w5 & Hsave & [<- ->]%mret_Return).
  unfold savetxt in Hsave. apply update_Return in Hsave as (s & Hwrite & ->).
  apply write_inr in Hwrite as (-> & _ & _).
  exists header, objectid, (Str.replace filename " " "_").
  split; [unfold getheader; simpl in Hopen; by rewrite Hopen|].
  split; [done|]. split.
  - rewrite replace_char_map. do 2 f_equal.
    unfold spectral_arm in Hname. destruct Hmarker as [Hr|Hb].
    + rewrite Hr in *. congruence.
    + destruct (Str.contains "T2m3wr" name); [congruence|].
      rewrite Hb in Hname. congruence.
  - split; [apply replace_space_gone|]. split; [done|].
    unfold isfile. simpl. rewrite lookup_insert_eq.
    by apply bool_decide_eq_true.
Qed.

(** ** Paths the exporter cannot read a step off *)

Lemma split_no_sep (sep : ascii) (s : string) :
  sep ∉ chars s → Str.split sep s = [s].
Proof.
  induction s as [|c s IH]; simpl; [done|].
  intros [Hc Hs]%not_elem_of_cons.
  destruct (Ascii.eqb_spec c sep) as [->|_]; [done|]. by rewrite IH.
Qed.

(** X6. The step of a file is read off its path as [fl.split(".")[-2][1:]]:
    a file whose path holds no dot at all, in the name or in a directory
    before it, has no last but one part, and the loop body raises
    [IndexError] for it before it prints or reads anything, whatever [steps]
    is. *)
Theorem dotless_path_IndexError night steps out_dir path name var (w : World) :
  Str.contains "." (Path.join path name) = false →
  ascii_file night steps out_dir path name var w = Raise IndexError w.
Proof.
  intros Hdot. unfold ascii_file. rewrite split_no_sep; [done|].
  apply not_true_iff_false in Hdot. by rewrite contains_char in Hdot.
Qed.

(** ** Files found that do not end with [.p<step>.fits] *)

Lemma replace_absent (s old new : string) :
  old ≠ "" → Str.contains old s = false → Str.replace s old new = s.
Proof.
  intros Hold. unfold Str.replace. destruct old as [|a old]; [done|].
  induction s as [|c s IH]; [done|].
  change (Str.contains (String a old) (String c s))
    with (if String.prefix (String a old) (String c s) then true
          else Str.contains (String a old) s).
  change (Str.replace_from 0 (String a old) new (String c s))
    with (if String.prefix (String a old) (String c s)
          then new +:+ Str.replace_from (String.length (String a old) - 1)
                         (String a old) new s
          else String c (Str.replace_from 0 (String a old) new s)).
  destruct (String.prefix (String a old) (String c s)); [done|].
  intros Hs. by rewrite IH.
Qed.

(** X7. [glob] matches [*<step>.fits], the key is made by taking
    [.p<step>.fits] out: a file found whose path does not hold
    [.p<step>.fits] is its own key, the first step-file looked for is that
    path with [.p<step>.fits] appended, and when the store holds nothing
    there the loop body raises [FileNotFoundError] before it prints or
    writes anything. *)
Theorem match_without_step_suffix night steps step0 out_dir data_dir path var
    (w : World) :
  head steps = Some step0 →
  path ∈ glob_below (fs w) data_dir (step0 +:+ ".fits") →
  Str.contains (".p" +:+ step0 +:+ ".fits") path = false →
  exists_ (fs w) (path +:+ ".p" +:+ step0 +:+ ".fits") = false →
  path ∈ unique_obs (fs w) data_dir step0
  ∧ cube_observation night steps out_dir path var w
    = Raise (FileNotFoundError (path +:+ ".p" +:+ step0 +:+ ".fits")) w.
Proof.
  intros Hstep0 Hfound Habsent Hnone. split.
  - unfold unique_obs. apply list_elem_of_fmap. exists path.
    split; [|done]. by rewrite replace_absent.
  - unfold cube_observation. destruct steps as [|? steps']; [done|].
    injection Hstep0 as ->.
    rewrite (bind_run _ _ w (path +:+ ".p" +:+ step0 +:+ ".fits") w) by done.
    apply bind_fail. unfold read, getheader, fits_open.
    apply orb_false_elim in Hnone as [Hdir Hfile]. rewrite Hdir.
    unfold isfile in Hfile. apply bool_decide_eq_false in Hfile.
    rewrite <- eq_None_not_Some in Hfile. by rewrite Hfile.
Qed.

(** ** No steps *)

(** X8. With an empty list of steps [make_extracted_stellar_cube] never
    returns: once the output directory is there (created by this call if it
    was missing) [steps[0]] raises [IndexError], and no file has been
    written; [extract_stellar_spectra_ascii] selects no file, so it leaves
    every file as it was, however it ends. *)
Theorem no_steps root night (w : World) :
  (∃ e w', make_extracted_stellar_cube root night [] w = Raise e w'
           ∧ files (fs w') = files (fs w)
           ∧ (exists_ (fs w')
                (Path.join (Path.join root night) "extracted_cubes_1d") = true
              → e = IndexError))
  ∧ files (fs (final (extract_stellar_spectra_ascii root night [] w)))
    = files (fs w).
Proof.
  split.
  - unfold make_extracted_stellar_cube. rewrite bind_eq.
    pose proof (ensure_dir_files
                  (Path.join (Path.join root night) "extracted_cubes_1d") w)
      as Hfiles.
    destruct (ensure_dir _ w) as [u w0|e w0] eqn:Hdir; simpl in Hfiles.
    + by exists IndexError, w0.
    + exists e, w0. split; [done|]. split; [done|]. intros Hex.
      unfold ensure_dir in Hdir. rewrite bind_eq in Hdir. simpl in Hdir.
      destruct (isdir (fs w) _) eqn:Hisdir; [done|].
      destruct (exists_ (fs w) _) eqn:Hexists; [done|]. simpl in Hdir.
      apply update_Raise in Hdir as [_ ->]. congruence.
  - change (same_files w
              (final (extract_stellar_spectra_ascii root night [] w))).
    revert w.
    change (keeps same_files (extract_stellar_spectra_ascii root night [])).
    unfold extract_stellar_spectra_ascii.
    repeat keeps_step; try done.
    + intros v. apply ensure_dir_files.
    + apply keeps_for_each; [apply _|]. intros [[path subdirs] names] var _.
      apply keeps_for_each; [apply _|]. intros name var' _.
      unfold ascii_file. case_match; [|repeat keeps_step].
      rewrite bool_decide_eq_false_2 by apply not_elem_of_nil.
      simpl. repeat keeps_step.
Qed.

(** ** A frame without [RUN] *)

(** X9. The exporter reads the card [RUN] of every frame it has selected,
    and uses it for nothing: a selected frame with [OBJNAME] and without
    [RUN] stops the loop body with [KeyError], after its path is printed and
    before anything is extracted or written. *)
Theorem missing_RUN_stops_export night steps out_dir path name var (w : World)
    step header objectid :
  Str.tail <$> Str.penultimate (Str.split "." (Path.join path name))
  = Some step →
  step ∈ steps →
  Str.endswith (Path.join path name) (step +:+ ".fits") = true →
  getheader (Path.join path name) (fs w) = inr header →
  header !! "OBJNAME" = Some objectid →
  header !! "RUN" = None →
  ascii_file night steps out_dir path name var w
  = Raise (KeyError "RUN")
      {| fs := fs w; stdout := stdout w ++ [Path.join path name] |}.
Proof.
  intros Hstep Hin Hend Hheader Hobjname Hrun. unfold ascii_file.
  destruct (Str.penultimate _) as [part|]; [|done].
  injection Hstep as <-.
  rewrite bool_decide_eq_true_2, Hend by done. simpl.
  rewrite (bind_run _ _ _ _ _ (print_eq _ _)).
  unfold getheader in Hheader.
  destruct (fits_open (Path.join path name) (fs w)) as [e|hdul] eqn:Hopen;
    [done|].
  erewrite bind_run by (unfold read; simpl; by rewrite Hopen).
  erewrite bind_run by (unfold read; simpl; by rewrite Hheader).
  erewrite bind_run by (unfold card; by rewrite Hobjname).
  apply bind_fail. unfold card. by rewrite Hrun.
Qed.

(** ** The header repair, file by file *)

(** The line printed for a file whose header meets the three conditions. *)
Definition report_line (fits_file object objname : string) : string :=
  fits_file +:+ ": " +:+ Str.tab +:+ " OBJECT: " +:+ object
    +:+ Str.tab +:+ " OBJNAME: " +:+ objname.

(** What the loop body finds in a primary header, test by test in the
    order of the code: the card that is missing, or [OBJECT] and [OBJNAME]
    when the three conditions hold, or nothing to do. *)
Definition diagnose (h : Header) : exn + option (string * string) :=
  if bool_decide (is_Some (h !! "OBJNAME")) then
    match h !! "IMAGETYP" with
    | None => inl (KeyError "IMAGETYP")
    | Some imagetyp =>
        if String.eqb imagetyp "object" then
          match h !! "OBJNAME" with
          | None => inl (KeyError "OBJNAME")
          | Some objname =>
              if Str.contains "exp" objname then
                match h !! "OBJECT" with
                | None => inl (KeyError "OBJECT")
                | Some object =>
                    if negb (String.eqb object "")
                    then inr (Some (object, objname))
                    else inr None
                end
              else inr None
          end
        else inr None
    end
  else inr None.

Lemma update_file_eq print_only fits_file u (w : World) :
  update_file print_only fits_file u w
  = match fits_open fits_file (fs w) with
    | inl e => Raise e w
    | inr ff =>
        match primary_header fits_file ff with
        | inl e => Raise e w
        | inr header =>
            match diagnose header with
            | inl e => Raise e w
            | inr None => Return tt w
            | inr (Some (object, objname)) =>
                Return tt
                  {| fs := if print_only then fs w
                           else put fits_file
                                  (FitsFile
                                     (alter (set_card "OBJNAME" object) 0 ff))
                                  (fs w);
                     stdout := stdout w
                                 ++ [report_line fits_file object objname] |}
            end
        end
    end.
Proof.
  unfold update_file. rewrite bind_eq. unfold read at 1.
  destruct (fits_open fits_file (fs w)) as [e|ff]; [done|].
  rewrite bind_eq. unfold read at 1.
  destruct (primary_header fits_file ff) as [e|header]; [done|].
  unfold diagnose.
  destruct (bool_decide (is_Some (header !! "OBJNAME"))); [|done].
  rewrite bind_eq. unfold card at 1.
  destruct (header !! "IMAGETYP") as [imagetyp|]; [|done]. simpl.
  destruct (String.eqb imagetyp "object"); [|done].
  rewrite bind_eq. unfold card at 1.
  destruct (header !! "OBJNAME") as [objname|]; [|done]. simpl.
  destruct (Str.contains "exp" objname); [|done].
  rewrite bind_eq. unfold card at 1.
  destruct (header !! "OBJECT") as [object|]; [|done]. simpl.
  destruct (String.eqb object ""); [done|]. simpl.
  rewrite bind_eq, print_eq. destruct print_only; simpl; [by destruct w|].
  done.
Qed.

Lemma diagnose_Some h object objname :
  diagnose h = inr (Some (object, objname)) →
  needs_repair h = true
  ∧ h !! "OBJECT" = Some object ∧ h !! "OBJNAME" = Some objname.
Proof.
  unfold diagnose, needs_repair. intros Hd.
  destruct (bool_decide _); [|done].
  destruct (h !! "IMAGETYP") as [imagetyp|]; [|done].
  destruct (String.eqb imagetyp "object"); [|done].
  destruct (h !! "OBJNAME") as [objname'|]; [|done].
  destruct (Str.contains "exp" objname'); [|done].
  destruct (h !! "OBJECT") as [object'|]; [|done].
  destruct (String.eqb object' ""); simplify_eq/=. done.
Qed.

Lemma diagnose_None h : diagnose h = inr None → needs_repair h = false.
Proof.
  unfold diagnose, needs_repair. intros Hd.
  destruct (bool_decide _) eqn:Hhas.
  - destruct (h !! "IMAGETYP") as [imagetyp|]; [|done].
    destruct (String.eqb imagetyp "object"); [|by repeat case_match].
    destruct (h !! "OBJNAME") as [objname'|]; [|done].
    destruct (Str.contains "exp" objname'); [|by repeat case_match].
    destruct (h !! "OBJECT") as [object'|]; [|done].
    by destruct (String.eqb object' "").
  - apply bool_decide_eq_false in Hhas. rewrite <- eq_None_not_Some in Hhas.
    rewrite Hhas. by destruct (h !! "IMAGETYP").
Qed.

Lemma needs_repair_diagnose h :
  needs_repair h = true →
  ∃ object objname, diagnose h = inr (Some (object, objname)).
Proof.
  unfold needs_repair, diagnose.
  destruct (h !! "IMAGETYP") as [imagetyp|]; [|done].
  destruct (h !! "OBJNAME") as [objname|]; [|done].
  destruct (h !! "OBJECT") as [object|]; [|done].
  rewrite bool_decide_eq_true_2 by done.
  intros [[-> ->]%andb_prop ->]%andb_prop. eauto.
Qed.

(** ** The dry run is a preview of the repair *)

(** The outcomes of two runs are alike: both return or both raise the same
    exception, and they have printed the same lines. *)
Definition alike {A} (o1 o2 : outcome A) : Prop :=
  match o1, o2 with
  | Return _ w1, Return _ w2 => stdout w1 = stdout w2
  | Raise e1 w1, Raise e2 w2 => e1 = e2 ∧ stdout w1 = stdout w2
  | _, _ => False
  end.

Lemma fits_open_same p (s1 s2 : FS) :
  dirs s1 = dirs s2 → files s1 !! p = files s2 !! p →
  fits_open p s1 = fits_open p s2.
Proof. unfold fits_open, isdir. by intros -> ->. Qed.

Lemma dirs_put_there p (c : content) (s : FS) :
  is_Some (files s !! p) → dirs (put p c s) = dirs s.
Proof.
  intros Hp. unfold put, isfile. simpl. by rewrite bool_decide_eq_true_2.
Qed.

Lemma fits_open_there p (s : FS) ff :
  fits_open p s = inr ff → files s !! p = Some (FitsFile ff).
Proof.
  unfold fits_open. destruct (files s !! p) as [[?|?]|]; by intros [= ->].
Qed.

Lemma update_files_alike l (wa wb : World) :
  NoDup l →
  stdout wa = stdout wb →
  dirs (fs wa) = dirs (fs wb) →
  (∀ p, p ∈ l → files (fs wa) !! p = files (fs wb) !! p) →
  alike (for_each l (update_file false) tt wa)
    (for_each l (update_file true) tt wb).
Proof.
  revert wa wb. induction l as [|f l IH]; intros wa wb Hnodup Hout Hdirs Hfiles.
  - done.
  - apply NoDup_cons in Hnodup as [Hf Hnodup]. simpl.
    rewrite !bind_eq, !update_file_eq.
    rewrite <- (fits_open_same f (fs wa) (fs wb)) by (auto; apply Hfiles; by left).
    destruct (fits_open f (fs wa)) as [e|ff] eqn:Hopen; [done|].
    destruct (primary_header f ff) as [e|header]; [done|].
    destruct (diagnose header) as [e|[[object objname]|]]; [done| |].
    + apply IH; [done|simpl; by rewrite Hout|..].
      * cbn [fs]. rewrite dirs_put_there; [done|].
        by rewrite (fits_open_there _ _ _ Hopen).
      * intros p Hp. simpl. rewrite lookup_insert_ne by (by intros ->).
        apply Hfiles. by right.
    + apply IH; [done..|]. intros p Hp. apply Hfiles. by right.
Qed.

(** X10. When [glob] lists no file of the night twice, a call with
    [print_only] ends as the call without it ends on the same files: both
    return or both raise the same exception, and they have printed the same
    lines, one for every header the repair changes. *)
Theorem dry_run_previews root night (w : World) :
  NoDup (glob_in (fs w) (Path.join root night) ".fits") →
  match update_object_header root night false w,
        update_object_header root night true w with
  | Return _ w1, Return _ w2 => stdout w1 = stdout w2
  | Raise e1 w1, Raise e2 w2 => e1 = e2 ∧ stdout w1 = stdout w2
  | _, _ => False
  end.
Proof.
  intros Hnodup. unfold update_object_header. rewrite !bind_eq. simpl.
  apply (update_files_alike _ w w); [|done..].
  by rewrite merge_sort_Permutation.
Qed.

(** ** The lines of the report *)

(** The lines for the files of a list, in the order of the list: one for
    every file whose primary header meets the three conditions. *)
Definition report (s : FS) (fits_files : list string) : list string :=
  fits_file ← fits_files;
  match files s !! fits_file with
  | Some (FitsFile (hdu :: _)) =>
      if needs_repair (hdu_header hdu)
      then [report_line fits_file
              (default "" (hdu_header hdu !! "OBJECT"))
              (default "" (hdu_header hdu !! "OBJNAME"))]
      else []
  | _ => []
  end.

Lemma dry_files_report l (w w' : World) u u' :
  for_each l (update_file true) u w = Return u' w' →
  stdout w' = stdout w ++ report (fs w) l.
Proof.
  revert w u. induction l as [|f l IH]; intros w u Hrun.
  - apply mret_Return in Hrun as [_ ->]. by rewrite app_nil_r.
  - simpl in Hrun. apply bind_Return in Hrun as (u1 & w1 & Hfile & Hrun).
    apply IH in Hrun. rewrite update_file_eq in Hfile.
    destruct (fits_open f (fs w)) as [e|ff] eqn:Hopen; [done|].
    apply fits_open_there in Hopen.
    destruct ff as [|hdu rest]; [done|]. simpl in Hfile.
    unfold report in *. rewrite bind_cons, Hopen.
    destruct (diagnose (hdu_header hdu)) as [e|[[object objname]|]] eqn:Hd;
      [done|..]; destruct u1; injection Hfile as <-.
    + apply diagnose_Some in Hd as (-> & -> & ->). simpl in *.
      by rewrite Hrun, <- app_assoc.
    + apply diagnose_None in Hd as ->. by rewrite Hrun.
Qed.

(** X11. When a call with [print_only] returns, what it has printed is the
    report of the files of the night taken in ascending order of their
    paths: for every file whose primary header is an object frame with [exp]
    in [OBJNAME] and a non-empty [OBJECT], one line with the path, [OBJECT]
    and [OBJNAME], and nothing for the other files. *)
Theorem dry_run_report root night (w w' : World) :
  update_object_header root night true w = Return tt w' →
  ∃ fits_files,
    fits_files ≡ₚ glob_in (fs w) (Path.join root night) ".fits"
    ∧ Sorted String.le fits_files
    ∧ stdout w' = stdout w ++ report (fs w) fits_files.
Proof.
  unfold update_object_header. intros Hrun.
  apply bind_Return in Hrun as (s & w1 & [-> ->]%get_fs_Return & Hrun).
  exists (merge_sort String.le
            (glob_in (fs w) (Path.join root night) ".fits")).
  split; [apply merge_sort_Permutation|].
  split; [apply (Sorted_merge_sort String.le)|].
  by eapply dry_files_report.
Qed.

(** ** Repairing twice *)

Lemma put_same p (c : content) (s : FS) :
  files s !! p = Some c → put p c s = s.
Proof.
  intros Hp. apply FS_eq.
  - simpl. by apply insert_id.
  - apply dirs_put_there. by rewrite Hp.
Qed.

(** A repaired header is examined without error, and is found repaired. *)
Lemma diagnose_repair h r :
  diagnose h = inr r →
  diagnose (repair h) = inr None
  ∨ ∃ object objname,
      diagnose (repair h) = inr (Some (object, objname))
      ∧ <["OBJNAME" := object]> (repair h) = repair h.
Proof.
  intros Hd. destruct r as [[object objname]|].
  - apply diagnose_Some in Hd as (Hneeds & Hobject & Hobjname).
    unfold repair. rewrite Hobject, Hneeds.
    unfold needs_repair in Hneeds. rewrite Hobject, Hobjname in Hneeds.
    destruct (h !! "IMAGETYP") as [imagetyp|] eqn:Himagetyp; [|done].
    apply andb_prop in Hneeds as [[Hobj Hexp]%andb_prop Hempty].
    unfold diagnose. rewrite lookup_insert_eq, !lookup_insert_ne by done.
    rewrite bool_decide_eq_true_2, Himagetyp, Hobj, Hobject, Hempty by done.
    destruct (Str.contains "exp" object); [right|by left].
    exists object, object. split; [done|]. by rewrite insert_insert_eq.
  - left. apply diagnose_None in Hd as Hneeds. unfold repair.
    rewrite Hneeds. by destruct (h !! "OBJECT").
Qed.

Lemma update_files_diagnosed l (w w' : World) u u' :
  for_each l (update_file false) u w = Return u' w' →
  ∀ p, p ∈ l →
       ∃ hdu rest r,
         files (fs w) !! p = Some (FitsFile (hdu :: rest))
         ∧ diagnose (hdu_header hdu) = inr r.
Proof.
  revert w u. induction l as [|f l IH]; intros w u Hrun p Hp.
  - by apply elem_of_nil in Hp.
  - simpl in Hrun. apply bind_Return in Hrun as (u1 & w1 & Hfile & Hrun).
    assert (∃ hdu rest r,
               files (fs w) !! f = Some (FitsFile (hdu :: rest))
               ∧ diagnose (hdu_header hdu) = inr r) as Hf.
    { rewrite update_file_eq in Hfile.
      destruct (fits_open f (fs w)) as [e|ff] eqn:Hopen; [done|].
      apply fits_open_there in Hopen.
      destruct ff as [|hdu rest]; [done|]. simpl in Hfile.
      destruct (diagnose (hdu_header hdu)) as [e|r] eqn:Hd; [done|].
      by exists hdu, rest, r. }
    destruct (decide (p = f)) as [->|Hne]; [done|].
    apply elem_of_cons in Hp as [?|Hp]; [done|].
    destruct (IH _ _ Hrun p Hp) as (hdu & rest & r & Hfiles & Hd).
    apply update_file_Return in Hfile as (? & ? & _ & Hw1 & _).
    rewrite Hw1, lookup_insert_ne in Hfiles by done. eauto.
Qed.

(** A file as the repair leaves it. *)
Definition repaired (s : FS) (p : string) : Prop :=
  ∃ hdu rest r,
    files s !! p = Some (repair_file (FitsFile (hdu :: rest)))
    ∧ diagnose (hdu_header hdu) = inr r.

Lemma update_files_again l (v : World) u :
  Forall (repaired (fs v)) l →
  ∃ u' v', for_each l (update_file false) u v = Return u' v' ∧ fs v' = fs v.
Proof.
  revert v u. induction l as [|f l IH]; intros v u Hl.
  - by exists u, v.
  - apply Forall_cons in Hl as [(hdu & rest & r & Hf & Hd) Hl]. simpl.
    rewrite bind_eq, update_file_eq. unfold fits_open. rewrite Hf. simpl.
    destruct (diagnose_repair _ _ Hd) as [->|(object & objname & -> & Hsame)].
    + by apply IH.
    + match goal with |- context [for_each l _ _ ?v1] =>
        destruct (IH v1 tt) as (u' & v' & Hrun & Hfs) end.
      * simpl. unfold set_card. simpl. rewrite Hsame.
        by rewrite put_same.
      * exists u', v'. split; [done|]. rewrite Hfs. simpl.
        unfold set_card. simpl. rewrite Hsame. by rewrite put_same.
Qed.

(** X12. A call without [print_only] that returned can be repeated on the
    file system it left: the second call returns too and finds every header
    as the first call left it, so it changes nothing. *)
Theorem repair_twice root night (w w1 : World) :
  update_object_header root night false w = Return tt w1 →
  ∃ w2,
    update_object_header root night false w1 = Return tt w2
    ∧ fs w2 = fs w1.
Proof.
  unfold update_object_header. intros Hrun.
  apply bind_Return in Hrun as (s & w0 & [-> ->]%get_fs_Return & Hrun).
  rewrite bind_eq. simpl.
  pose proof (update_files_diagnosed _ _ _ _ _ Hrun) as Hd.
  apply update_files_Return in Hrun as (Hdirs & Hfiles & _).
  assert (glob_in (fs w1) (Path.join root night) ".fits"
          = glob_in (fs w) (Path.join root night) ".fits") as ->.
  { unfold glob_in, glob1, listdir. by rewrite Hdirs. }
  destruct (update_files_again
              (merge_sort String.le
                 (glob_in (fs w) (Path.join root night) ".fits")) w1 tt)
    as ([] & w2 & Hrun2 & Hfs).
  - apply Forall_forall. intros p Hp.
    destruct (Hd p Hp) as (hdu & rest & r & Hp0 & Hr).
    exists hdu, rest, r. split; [|done].
    by rewrite Hfiles, decide_True, Hp0.
  - by exists w2.
Qed.

(** ** A header that cannot be examined *)

(** X13. The loop over the files of the night has no handler and nothing is
    rolled back: when a file has [OBJNAME] and no [IMAGETYP], after the
    files sorted before it have been gone through, the call raises
    [KeyError] for [IMAGETYP], with or without [print_only]; the file system
    and the report it leaves are those of the earlier files, whose repairs
    stay, and the files sorted after it are not looked at. *)
Theorem header_error_keeps_earlier_repairs root night print_only pre f post
    hdu rest (w w1 : World) :
  merge_sort String.le (glob_in (fs w) (Path.join root night) ".fits")
  = pre ++ f :: post →
  for_each pre (update_file print_only) tt w = Return tt w1 →
  files (fs w1) !! f = Some (FitsFile (hdu :: rest)) →
  is_Some (hdu_header hdu !! "OBJNAME") →
  hdu_header hdu !! "IMAGETYP" = None →
  update_object_header root night print_only w
  = Raise (KeyError "IMAGETYP") w1.
Proof.
  intros Hsort Hpre Hfile Hobjname Himagetyp. unfold update_object_header.
  rewrite bind_eq. simpl. rewrite Hsort, for_each_app, Hpre. simpl.
  rewrite bind_eq, update_file_eq. unfold fits_open. rewrite Hfile. simpl.
  unfold diagnose. by rewrite bool_decide_eq_true_2, Himagetyp.
Qed.

(** ** A night that is not there *)

Lemma dirname_join_name x c name :
  c ≠ "/"%char → Str.contains "/" name = false →
  Path.dirname (Path.join (x +:+ String c "") name) = x +:+ String c "".
Proof.
  intros Hc Hname.
  assert (Path.cut name = ("", name)) as Hcut.
  { apply not_true_iff_false in Hname. rewrite contains_char in Hname.
    clear -Hname. induction name as [|a name IH]; [done|]. simpl in *.
    apply not_elem_of_cons in Hname as [Ha Hname]. rewrite IH by done.
    destruct (Ascii.eqb_spec a "/"); [by subst|done]. }
  assert (Str.startswith name "/" = false) as Hrel.
  { destruct name as [|a name]; [done|]. rewrite startswith_sep_cons.
    destruct (ascii_dec "/" a) as [<-|]; [|done].
    by destruct name. }
  unfold Path.join. rewrite Hrel.
  assert (String.eqb (x +:+ String c "") "" = false) as ->.
  { apply String.eqb_neq. by destruct x. }
  assert (Str.endswith (x +:+ String c "") "/" = false) as ->.
  { apply not_true_iff_false. intros Hend. destruct Hc.
    apply (endswith_last_char (x +:+ String c "") x c "" "/"); [|done].
    apply endswith_spec. by exists "". }
  simpl. unfold Path.dirname, Path.split. rewrite cut_sep_app, Hcut. simpl.
  assert (Path.all_sep ((x +:+ String c "") +:+ "/" +:+ "") = false) as ->.
  { clear -Hc. induction x as [|a x IH]; simpl.
    - by destruct (Ascii.eqb_spec c "/").
    - change (String a x +:+ String c "") with (String a (x +:+ String c "")).
      simpl. by rewrite IH, andb_false_r. }
  rewrite rstrip_sep_app by done. simpl. by rewrite string_app_nil_r.
Qed.

Lemma ensure_dir_missing_parent x c name (w : World) :
  c ≠ "/"%char → Str.contains "/" name = false →
  exists_ (fs w) (x +:+ String c "") = false →
  exists_ (fs w) (Path.join (x +:+ String c "") name) = false →
  ensure_dir (Path.join (x +:+ String c "") name) w
  = Raise (FileNotFoundError (Path.join (x +:+ String c "") name)) w.
Proof.
  intros Hc Hname Hnight Hout. unfold ensure_dir. rewrite bind_eq. simpl.
  pose proof Hout as [Hd _]%orb_false_elim.
  rewrite Hout, Hd. simpl. unfold update, mkdir, parent_check.
  rewrite Hout, dirname_join_name by done.
  by apply orb_false_elim in Hnight as [-> ->].
Qed.

(** X14. When the night directory [root/night] (a path that does not end
    with a separator) is not in the store, and no output directory either,
    both functions stop at [os.mkdir], which makes one directory and not its
    parents: they raise [FileNotFoundError] for the output directory, and
    leave the file system and the standard output as they were. *)
Theorem missing_night_FileNotFoundError root night steps x c (w : World) :
  Path.join root night = x +:+ String c "" → c ≠ "/"%char →
  exists_ (fs w) (Path.join root night) = false →
  exists_ (fs w) (Path.join (Path.join root night) "ascii") = false →
  exists_ (fs w) (Path.join (Path.join root night) "extracted_cubes_1d")
  = false →
  extract_stellar_spectra_ascii root night steps w
  = Raise (FileNotFoundError (Path.join (Path.join root night) "ascii")) w
  ∧ make_extracted_stellar_cube root night steps w
    = Raise (FileNotFoundError
               (Path.join (Path.join root night) "extracted_cubes_1d")) w.
Proof.
  intros Hjoin Hc Hnight Hascii Hcubes.
  unfold extract_stellar_spectra_ascii, make_extracted_stellar_cube.
  rewrite Hjoin in *. split.
  - by rewrite (bind_fail _ _ _ _ _
                  (ensure_dir_missing_parent x c "ascii" w Hc eq_refl
                     Hnight Hascii)).
  - by rewrite (bind_fail _ _ _ _ _
                  (ensure_dir_missing_parent x c "extracted_cubes_1d" w Hc
                     eq_refl Hnight Hcubes)).
Qed.

(** ** The exporter after the assembler *)

Lemma split_sep_two (sep : ascii) (s : string) :
  sep ∈ chars s → ∃ a b l, rev (Str.split sep s) = a :: b :: l.
Proof.
  intros Hin.
  assert (∃ h1 h2 t, Str.split sep s = h1 :: h2 :: t) as (h1 & h2 & t & ->).
  { induction s as [|c s IH]; simpl in *; [by apply elem_of_nil in Hin|].
    destruct (Ascii.eqb_spec c sep) as [->|Hne].
    - destruct s as [|c' s]; simpl; [by eauto|].
      destruct (Ascii.eqb c' sep); [by eauto|].
      destruct (Str.split sep s); by eauto.
    - apply elem_of_cons in Hin as [->|Hin]; [done|].
      destruct (IH Hin) as (h1 & h2 & t & ->). by eauto. }
  pose proof (length_rev (h1 :: h2 :: t)) as Hlen.
  destruct (rev (h1 :: h2 :: t)) as [|a [|b l]]; simplify_eq/=. by eauto.
Qed.

(** X15. With steps that cannot be taken for the end of a cube name, the
    exporter passes over the cubes of the assembler: for a path that ends
    with [_r.fits] or [_b.fits] the loop body reads, prints and writes
    nothing, and leaves [filename] as it was. *)
Theorem exporter_skips_cubes night steps out_dir path name var (w : World) :
  Forall step_ok steps →
  cube_like (Path.join path name) →
  ascii_file night steps out_dir path name var w = Return var w.
Proof.
  intros Hsteps Hcube. unfold ascii_file.
  assert ("."%char ∈ chars (Path.join path name)) as Hdot.
  { destruct Hcube as [[a ->]%endswith_spec|[a ->]%endswith_spec];
      rewrite chars_app, elem_of_app; right; simpl;
      rewrite !elem_of_cons; auto. }
  destruct (split_sep_two _ _ Hdot) as (a & b & l & Hrev).
  unfold Str.penultimate. rewrite Hrev.
  destruct (bool_decide (Str.tail b ∈ steps)) eqn:Hin; [|done].
  apply bool_decide_eq_true in Hin. rewrite Forall_forall in Hsteps.
  by rewrite (cube_like_not_step _ _ (Hsteps _ Hin) Hcube).
Qed.

(** ** [flat_stats] *)

Context `{!Numpy Num Frame}.

Lemma join_absolute_l a b :
  Str.startswith a "/" = true → Str.startswith (Path.join a b) "/" = true.
Proof.
  intros Ha. unfold Path.join.
  destruct (Str.startswith b "/") eqn:Hb; [done|].
  destruct a as [|c a]; [done|]. rewrite startswith_sep_cons in Ha.
  destruct (_ || _);
    change (String c a +:+ ?x) with (String c (a +:+ x));
    by rewrite startswith_sep_cons.
Qed.

Lemma walk_absolute fuel (s : FS) top :
  Str.startswith top "/" = true →
  Forall (λ '(path, _, _), Str.startswith path "/" = true) (walk fuel s top).
Proof.
  revert top. induction fuel as [|k IH]; intros top Htop; simpl; [done|].
  destruct (dirs s !! top) as [names|]; [|done].
  constructor; [done|]. apply Forall_bind, Forall_forall.
  intros sub _. by apply IH, join_absolute_l.
Qed.

Lemma flat_file_eq path name ax (w : World) :
  Str.startswith path "/" = true →
  flat_file path name ax w
  = Return ax {| fs := fs w; stdout := stdout w ++ [Path.join path name] |}.
Proof.
  intros Hpath. unfold flat_file. rewrite bind_eq, print_eq.
  pose proof (join_absolute_l path name Hpath) as Habs.
  destruct (Path.join path name) as [|c fl]; [done|].
  rewrite startswith_sep_cons in Habs.
  by destruct (ascii_dec "/" c) as [<-|].
Qed.

Lemma flat_files_eq path names ax (w : World) :
  Str.startswith path "/" = true →
  for_each names (flat_file path) ax w
  = Return ax
      {| fs := fs w; stdout := stdout w ++ (Path.join path <$> names) |}.
Proof.
  intros Hpath. revert w. induction names as [|name names IH]; intros w; simpl.
  - rewrite app_nil_r. by destruct w.
  - rewrite bind_eq, flat_file_eq, IH by done. simpl.
    by rewrite <- app_assoc.
Qed.

(** X16. [flat_stats] compares the path of every file under its root, which
    starts with the root and so with a separator, with the bare name
    [wifesB_super_domeflat.fits]: the two are never equal. So whatever the
    store holds, the call returns, it reads no file and plots no curve (the
    figure shown is empty), it leaves the file system as it was, and what it
    prints is the line with the root followed by the path of every file
    under the root, in the order of the walk. *)
Theorem flat_stats_plots_nothing (w : World) :
  flat_stats w
  = Return []
      {| fs := fs w;
         stdout := stdout w
           ++ ("root " +:+ flat_root)
              :: ('(path, _, names) ← os_walk (fs w) flat_root;
                  Path.join path <$> names) |}.
Proof.
  unfold flat_stats. rewrite bind_eq, print_eq, bind_eq. simpl.
  pose proof (walk_absolute (S (size (dirs (fs w)))) (fs w) flat_root eq_refl)
    as Habs.
  fold (os_walk (fs w) flat_root) in Habs.
  assert (∀ (l : list (string * list string * list string)) (v : World),
            Forall (λ '(path, _, _), Str.startswith path "/" = true) l →
            for_each l
              (λ '(path, _, names), for_each names (flat_file path)) [] v
            = Return []
                {| fs := fs v;
                   stdout := stdout v
                     ++ ('(path, _, names) ← l; Path.join path <$> names) |})
    as Hloop.
  { clear. induction l as [|[[path subdirs] names] l IH]; intros v Hl.
    - simpl. rewrite app_nil_r. by destruct v.
    - apply Forall_cons in Hl as [Hpath Hl]. simpl.
      rewrite bind_eq, flat_files_eq, IH by done. simpl.
      by rewrite <- app_assoc. }
  rewrite bind_eq, Hloop by done. simpl. by rewrite <- app_assoc.
Qed.

(** ** [print_header.py] *)

(** X17. The script only reads: whatever its arguments are and however it
    ends, the file system is left as it was. *)
Theorem print_header_reads_only header_str argv (w : World) :
  fs (final (print_header header_str argv w)) = fs w.
Proof.
  change (same_fs w (final (print_header header_str argv w))). revert w.
  change (keeps same_fs (print_header header_str argv : M unit)).
  unfold print_header, index.
  repeat keeps_step; apply same_fs_print.
Qed.

(** X18. After a repair that returned, the script asked for [OBJNAME] of a
    file of the night whose header met the three conditions prints the value
    that [OBJECT] has, between single quotes. *)
Theorem print_header_after_repair header_str script root night p hdu rest
    object (w w1 : World) :
  update_object_header root night false w = Return tt w1 →
  p ∈ glob_in (fs w) (Path.join root night) ".fits" →
  files (fs w) !! p = Some (FitsFile (hdu :: rest)) →
  needs_repair (hdu_header hdu) = true →
  hdu_header hdu !! "OBJECT" = Some object →
  print_header header_str [script; p; "OBJNAME"] w1
  = Return tt
      {| fs := fs w1; stdout := stdout w1 ++ ["'" +:+ object +:+ "'"] |}.
Proof.
  unfold update_object_header. intros Hrun Hp Hfile Hneeds Hobject.
  apply bind_Return in Hrun as (s & w0 & [-> ->]%get_fs_Return & Hrun).
  apply update_files_Return in Hrun as (_ & Hfiles & _).
  specialize (Hfiles p). rewrite decide_True, Hfile in Hfiles
    by by rewrite merge_sort_Permutation.
  simpl in Hfiles. unfold repair in Hfiles. rewrite Hobject, Hneeds in Hfiles.
  unfold print_header, index. simpl. rewrite bind_eq. simpl.
  unfold read, getheader, fits_open. rewrite bind_eq, Hfiles. simpl.
  unfold card. by rewrite bind_eq, lookup_insert_eq.
Qed.

(** ** A frame without arm marker in the exporter *)

(** X19. The exporter has the same statement without [else] as the
    assembler, on the name of the file: for a selected frame whose name
    holds neither arm marker, met when no earlier frame has assigned
    [filename], the loop body raises [UnboundLocalError] for [filename]. The
    error comes after the header is read and the spectrum extracted; the
    path of the frame is printed and nothing is written. *)
Theorem unmarked_frame_unbound night steps out_dir path name (w : World)
    step header objectid run flux wave spectrum sig :
  Str.tail <$> Str.penultimate (Str.split "." (Path.join path name))
  = Some step →
  step ∈ steps →
  Str.endswith (Path.join path name) (step +:+ ".fits") = true →
  Str.contains "T2m3wr" name = false →
  Str.contains "T2m3wb" name = false →
  getheader (Path.join path name) (fs w) = inr header →
  header !! "OBJNAME" = Some objectid →
  header !! "RUN" = Some run →
  read_and_find_star_p08 (Path.join path name)
    (files (fs w) !! Path.join path name) = inr (flux, wave) →
  weighted_extract_spectrum flux = inr (spectrum, sig) →
  ascii_file night steps out_dir path name None w
  = Raise (UnboundLocalError "filename")
      {| fs := fs w; stdout := stdout w ++ [Path.join path name] |}.
Proof.
  intros Hstep Hin Hend Hred Hblue Hheader Hobjname Hrun Hread Hextract.
  unfold ascii_file.
  destruct (Str.penultimate _) as [part|]; [|done].
  injection Hstep as <-.
  rewrite bool_decide_eq_true_2, Hend by done. simpl.
  rewrite (bind_run _ _ _ _ _ (print_eq _ _)).
  unfold getheader in Hheader.
  destruct (fits_open (Path.join path name) (fs w)) as [e|hdul] eqn:Hopen;
    [done|].
  erewrite bind_run by (unfold read; simpl; by rewrite Hopen).
  erewrite bind_run by (unfold read; simpl; by rewrite Hheader).
  erewrite bind_run by (unfold card; by rewrite Hobjname).
  erewrite bind_run by (unfold card; by rewrite Hrun).
  erewrite bind_run
    by (unfold ps_read_and_find_star_p08, read; simpl; by rewrite Hread).
  cbv beta iota.
  erewrite bind_run
    by (unfold ps_weighted_extract_spectrum, read; simpl; by rewrite Hextract).
  cbv beta iota.
  apply bind_fail. unfold spectral_arm. by rewrite Hred, Hblue.
Qed.

(** ** The directories [os.walk] visits *)

Lemma string_length_app a b :
  String.length (a +:+ b) = String.length a + String.length b.
Proof. induction a as [|c a IH]; simpl; [done|]. by rewrite <- IH. Qed.

(** The listings of a store hold names: not empty, without separator. *)
Definition listed_names (s : FS) : Prop :=
  map_Forall
    (λ _ names, Forall (λ n, n ≠ "" ∧ Str.contains "/" n = false) names)
    (dirs s).

Global Instance listed_names_dec (s : FS) : Decision (listed_names s).
Proof. unfold listed_names. apply _. Defined.

Lemma join_longer top n :
  n ≠ "" → Str.contains "/" n = false →
  String.length top < String.length (Path.join top n).
Proof.
  intros Hne Hsep.
  assert (Str.startswith n "/" = false) as Hrel.
  { destruct n as [|c n]; [done|]. rewrite startswith_sep_cons.
    destruct (ascii_dec "/" c) as [<-|]; [|done].
    apply not_true_iff_false in Hsep. destruct Hsep.
    apply contains_char. by left. }
  assert (0 < String.length n) by (destruct n; [done|simpl; lia]).
  destruct (join_cases top n Hrel) as [-> | ->];
    rewrite !string_length_app; simpl; lia.
Qed.

Lemma walk_S fuel (s : FS) top :
  walk (S fuel) s top
  = match dirs s !! top with
    | None => []
    | Some names =>
        (top, filter (λ n, isdir s (Path.join top n) = true) names,
              filter (λ n, isdir s (Path.join top n) = false) names)
          :: (sub ← filter (λ n, isdir s (Path.join top n) = true) names;
              walk fuel s (Path.join top sub))
    end.
Proof. reflexivity. Qed.

Lemma list_bind_ext_in {A B} (f g : A → list B) (l : list A) :
  (∀ x, x ∈ l → f x = g x) → l ≫= f = l ≫= g.
Proof.
  induction l as [|x l IH]; intros Hfg; [done|].
  rewrite !bind_cons, Hfg, IH; [done| |by left].
  intros y Hy. apply Hfg. by right.
Qed.

(** The directories of the store with a longer path than [top]. *)
Definition deeper (s : FS) (top : string) : gset string :=
  filter (λ d, String.length top < String.length d) (dom (dirs s)).

Lemma walk_fuel (s : FS) fuel top :
  listed_names s → size (deeper s top) < fuel →
  walk (S fuel) s top = walk fuel s top.
Proof.
  intros Hnames. revert top.
  induction fuel as [|k IH]; intros top Hk; [lia|].
  rewrite (walk_S (S k)), (walk_S k).
  destruct (dirs s !! top) as [names|] eqn:Htop; [|done]. f_equal.
  apply list_bind_ext_in. intros sub [Hdir Hsub]%list_elem_of_filter.
  apply IH.
  assert (deeper s (Path.join top sub) ⊂ deeper s top) as Hless;
    [|apply subset_size in Hless; lia].
  pose proof (Hnames _ _ Htop) as Hlisting. rewrite Forall_forall in Hlisting.
  destruct (Hlisting _ Hsub) as [Hne Hsep].
  pose proof (join_longer top sub Hne Hsep) as Hlen.
  split.
  - intros d [Hd Hin]%elem_of_filter. apply elem_of_filter.
    split; [lia|done].
  - intros Hback.
    assert (Path.join top sub ∈ deeper s top) as Hin.
    { apply elem_of_filter. split; [done|]. apply elem_of_dom.
      unfold isdir in Hdir. by apply bool_decide_eq_true in Hdir. }
    apply Hback, elem_of_filter in Hin as [Hin _]. lia.
Qed.

Lemma os_walk_more_fuel (s : FS) top extra :
  listed_names s → walk (S (size (dirs s)) + extra) s top = os_walk s top.
Proof.
  intros Hnames. induction extra as [|k IH]; [by rewrite Nat.add_0_r|].
  rewrite Nat.add_succ_r, walk_fuel; [done..|].
  assert (size (deeper s top) ≤ size (dirs s)); [|lia].
  rewrite <- (size_dom (D:=gset string)). apply subseteq_size.
  intros d [_ Hd]%elem_of_filter. done.
Qed.

Lemma walk_entry fuel (s : FS) top path subdirs names :
  (path, subdirs, names) ∈ walk fuel s top →
  ∃ listing,
    dirs s !! path = Some listing
    ∧ subdirs = filter (λ n, isdir s (Path.join path n) = true) listing
    ∧ names = filter (λ n, isdir s (Path.join path n) = false) listing.
Proof.
  revert top. induction fuel as [|k IH]; intros top Hin;
    [by apply elem_of_nil in Hin|].
  rewrite walk_S in Hin. destruct (dirs s !! top) as [listing|] eqn:Htop;
    [|by apply elem_of_nil in Hin].
  apply elem_of_cons in Hin as [[= -> -> ->]|Hin]; [by exists listing|].
  apply list_elem_of_bind in Hin as (sub & Hin & _). by eapply IH.
Qed.

Lemma walk_below fuel (s : FS) top path subdirs names sub :
  (path, subdirs, names) ∈ walk fuel s top → sub ∈ subdirs →
  ∃ subdirs' names',
    (Path.join path sub, subdirs', names') ∈ walk (S fuel) s top.
Proof.
  revert top. induction fuel as [|k IH]; intros top Hin Hsub;
    [by apply elem_of_nil in Hin|].
  rewrite walk_S in Hin. rewrite (walk_S (S k)).
  destruct (dirs s !! top) as [listing|] eqn:Htop;
    [|by apply elem_of_nil in Hin].
  apply elem_of_cons in Hin as [[= -> -> ->]|Hin].
  - pose proof Hsub as [Hdir _]%list_elem_of_filter.
    unfold isdir in Hdir. apply bool_decide_eq_true in Hdir as [below Hbelow].
    eexists _, _. right. apply list_elem_of_bind. exists sub.
    split; [|done]. rewrite walk_S, Hbelow. by left.
  - apply list_elem_of_bind in Hin as (sub0 & Hin & Hsub0).
    destruct (IH _ Hin Hsub) as (subdirs' & names' & Hbelow).
    exists subdirs', names'. right. apply list_elem_of_bind. by exists sub0.
Qed.

(** X20. The walk that [extract_stellar_spectra_ascii] and [flat_stats] loop
    over goes to any depth. On a store whose listings hold names (not empty,
    without separator) the recursion never runs out of fuel: the top
    directory is visited first, every entry gives an existing directory with
    the directories and the other names of its listing, and with a directory
    every directory listed in it is visited too, under the joined path. *)
Theorem os_walk_reaches_every_directory (s : FS) top :
  listed_names s →
  (∀ listing, dirs s !! top = Some listing →
     head (os_walk s top)
     = Some (top, filter (λ n, isdir s (Path.join top n) = true) listing,
                  filter (λ n, isdir s (Path.join top n) = false) listing))
  ∧ (∀ path subdirs names,
       (path, subdirs, names) ∈ os_walk s top →
       ∃ listing,
         dirs s !! path = Some listing
         ∧ subdirs = filter (λ n, isdir s (Path.join path n) = true) listing
         ∧ names = filter (λ n, isdir s (Path.join path n) = false) listing)
  ∧ (∀ path subdirs names sub,
       (path, subdirs, names) ∈ os_walk s top → sub ∈ subdirs →
       ∃ subdirs' names',
         (Path.join path sub, subdirs', names') ∈ os_walk s top).
Proof.
  intros Hnames. split; [|split].
  - intros listing Htop. unfold os_walk. by rewrite walk_S, Htop.
  - intros path subdirs names. apply walk_entry.
  - intros path subdirs names sub Hin Hsub.
    destruct (walk_below _ _ _ _ _ _ _ Hin Hsub) as (subdirs' & names' & Hbelow).
    exists subdirs', names'.
    rewrite <- (os_walk_more_fuel s top 1 Hnames).
    by rewrite Nat.add_1_r.
Qed.

(** ** From the file found to the key and back *)

Lemma prefix_app a t : String.prefix a (a +:+ t) = true.
Proof.
  induction a as [|c a IH]; simpl; [by destruct t|].
  by destruct (ascii_dec c c).
Qed.

Lemma contains_eq sub s :
  Str.contains sub s
  = String.prefix sub s
    || match s with EmptyString => false | String _ s' => Str.contains sub s' end.
Proof.
  destruct s as [|c s]; cbn [Str.contains]; by destruct (String.prefix sub _).
Qed.

Lemma contains_app sub x y : Str.contains sub (x +:+ sub +:+ y) = true.
Proof.
  induction x as [|c x IH].
  - change ("" +:+ sub +:+ y) with (sub +:+ y).
    by rewrite contains_eq, prefix_app.
  - change (String c x +:+ sub +:+ y) with (String c (x +:+ sub +:+ y)).
    rewrite contains_eq, IH. apply orb_true_r.
Qed.

Lemma replace_from_skip s t old new :
  Str.replace_from (String.length s) old new (s +:+ t)
  = Str.replace_from 0 old new t.
Proof. induction s as [|c s IH]; [done|]. simpl. apply IH. Qed.

Lemma replace_found c0 o new t :
  Str.replace_from 0 (String c0 o) new (String c0 o +:+ t)
  = new +:+ Str.replace_from 0 (String c0 o) new t.
Proof.
  pose proof (prefix_app (String c0 o) t) as Hprefix.
  change (String c0 o +:+ t) with (String c0 (o +:+ t)) in *.
  change (Str.replace_from 0 (String c0 o) new (String c0 (o +:+ t)))
    with (if String.prefix (String c0 o) (String c0 (o +:+ t))
          then new +:+ Str.replace_from (String.length (String c0 o) - 1)
                         (String c0 o) new (o +:+ t)
          else String c0 (Str.replace_from 0 (String c0 o) new (o +:+ t))).
  rewrite Hprefix.
  replace (String.length (String c0 o) - 1) with (String.length o)
    by (simpl; lia).
  by rewrite replace_from_skip.
Qed.

(** An occurrence at the end that is the only one is replaced, and
    nothing else. *)
Lemma replace_at_end a old new :
  old ≠ "" →
  (∀ x y, a = x +:+ y → y ≠ "" → String.prefix old (y +:+ old) = false) →
  Str.replace (a +:+ old) old new = a +:+ new.
Proof.
  intros Hold. unfold Str.replace. destruct old as [|c0 o]; [done|].
  induction a as [|c a IH]; intros Hfree.
  - change ("" +:+ String c0 o) with (String c0 o).
    transitivity (Str.replace_from 0 (String c0 o) new (String c0 o +:+ ""));
      [by rewrite string_app_nil_r|].
    rewrite replace_found. simpl. by rewrite string_app_nil_r.
  - pose proof (Hfree "" (String c a) eq_refl) as Hhere.
    change (String c a +:+ String c0 o)
      with (String c (a +:+ String c0 o)) in *.
    change (Str.replace_from 0 (String c0 o) new (String c (a +:+ String c0 o)))
      with (if String.prefix (String c0 o) (String c (a +:+ String c0 o))
            then new +:+ Str.replace_from (String.length (String c0 o) - 1)
                           (String c0 o) new (a +:+ String c0 o)
            else String c (Str.replace_from 0 (String c0 o) new
                             (a +:+ String c0 o))).
    rewrite Hhere by done.
    rewrite IH; [done|]. intros x y -> Hy. by apply (Hfree (String c x)).
Qed.

Lemma step_suffix_once a rest x y :
  Str.contains ".p" a = false → a = x +:+ y → y ≠ "" →
  String.prefix (".p" +:+ rest) (y +:+ ".p" +:+ rest) = false.
Proof.
  intros Hfree -> Hy. destruct y as [|c y]; [done|].
  change (String c y +:+ ".p" +:+ rest) with (String c (y +:+ ".p" +:+ rest)).
  change (".p" +:+ rest) with (String "." (String "p" rest)).
  change (String.prefix (String "." (String "p" rest))
            (String c (y +:+ String "." (String "p" rest))))
    with (if ascii_dec "." c
          then String.prefix (String "p" rest)
                 (y +:+ String "." (String "p" rest))
          else false).
  destruct (ascii_dec "." c) as [<-|]; [|done].
  destruct y as [|c' y]; [done|].
  change (String c' y +:+ ?t) with (String c' (y +:+ t)).
  change (String.prefix (String "p" rest)
            (String c' (y +:+ String "." (String "p" rest))))
    with (if ascii_dec "p" c'
          then String.prefix rest (y +:+ String "." (String "p" rest))
          else false).
  destruct (ascii_dec "p" c') as [<-|]; [|done].
  apply not_true_iff_false in Hfree. destruct Hfree.
  apply (contains_app ".p" x y).
Qed.

(** X21. The key of a file found gives the file back as its first step-file:
    when the path of a file that [glob] finds for the first step ends with
    [.p<step>.fits] and holds no [.p] before that, the key made of it is the
    path without this ending, and the first of the step-files of the key,
    the one the primary header of the cube is read from, is the file itself.
    *)
Theorem found_file_is_first_step_file (s : FS) data_dir steps step0 a :
  head steps = Some step0 →
  Str.contains ".p" a = false →
  a +:+ ".p" +:+ step0 +:+ ".fits" ∈ glob_below s data_dir (step0 +:+ ".fits") →
  a ∈ unique_obs s data_dir step0
  ∧ head ((λ step, a +:+ ".p" +:+ step +:+ ".fits") <$> steps)
    = Some (a +:+ ".p" +:+ step0 +:+ ".fits").
Proof.
  intros Hstep0 Hfree Hfound. split.
  - unfold unique_obs. apply list_elem_of_fmap.
    exists (a +:+ ".p" +:+ step0 +:+ ".fits"). split; [|done].
    rewrite (replace_at_end a (".p" +:+ step0 +:+ ".fits") "");
      [by rewrite string_app_nil_r|done|].
    intros x y. apply step_suffix_once. done.
  - destruct steps as [|? steps']; [done|]. by injection Hstep0 as ->.
Qed.

(** ** The frames the exporter selects *)

Lemma split_nonempty sep s : Str.split sep s ≠ [].
Proof.
  destruct s as [|c s]; [done|]. simpl.
  destruct (Ascii.eqb c sep); [done|]. by destruct (Str.split sep s).
Qed.

Lemma split_concat sep s :
  String.concat (String sep "") (Str.split sep s) = s.
Proof.
  induction s as [|c s IH]; [done|]. simpl.
  pose proof (split_nonempty sep s) as Hne.
  destruct (Ascii.eqb_spec c sep) as [->|_].
  - destruct (Str.split sep s) as [|h t]; [done|].
    change (String.concat (String sep "") ("" :: h :: t))
      with ("" +:+ String sep "" +:+ String.concat (String sep "") (h :: t)).
    by rewrite IH.
  - destruct (Str.split sep s) as [|h [|h' t]]; [done|..]; simpl in *;
      by rewrite <- IH.
Qed.

Lemma split_free sep s : Forall (λ x, sep ∉ chars x) (Str.split sep s).
Proof.
  induction s as [|c s IH]; simpl.
  - repeat constructor. by intros ?%elem_of_nil.
  - destruct (Ascii.eqb_spec c sep) as [->|Hne].
    + constructor; [by intros ?%elem_of_nil|done].
    + destruct (Str.split sep s) as [|h t]; [|apply Forall_cons in IH as [Hh Ht]].
      * repeat constructor. simpl. by intros [?|?%elem_of_nil]%elem_of_cons.
      * constructor; [|done]. simpl. by intros [?|?]%elem_of_cons.
Qed.

Lemma split_snoc sep a b :
  sep ∉ chars b →
  Str.split sep (a +:+ String sep b) = Str.split sep a ++ [b].
Proof.
  intros Hb. induction a as [|c a IH].
  - change ("" +:+ String sep b) with (String sep b). simpl.
    by rewrite (proj2 (Ascii.eqb_eq _ _)), split_no_sep.
  - change (String c a +:+ String sep b) with (String c (a +:+ String sep b)).
    simpl. rewrite IH. destruct (Ascii.eqb c sep); [done|].
    pose proof (split_nonempty sep a). by destruct (Str.split sep a).
Qed.

Lemma concat_snoc sep l x :
  l ≠ [] →
  String.concat sep (l ++ [x]) = String.concat sep l +:+ sep +:+ x.
Proof.
  induction l as [|y [|y' l] IH]; intros Hne; [done|done|].
  change (String.concat sep ((y :: y' :: l) ++ [x]))
    with (y +:+ sep +:+ String.concat sep ((y' :: l) ++ [x])).
  rewrite IH by done.
  change (String.concat sep (y :: y' :: l))
    with (y +:+ sep +:+ String.concat sep (y' :: l)).
  by rewrite !string_app_assoc.
Qed.

(** Paths with a last but one part: [<pre><part>.<ext>], where [part] and
    [ext] hold no dot and [pre] is empty or ends with a dot. *)
Lemma penultimate_split fl part :
  Str.penultimate (Str.split "." fl) = Some part
  ↔ ∃ pre ext,
      fl = pre +:+ part +:+ "." +:+ ext
      ∧ (pre = "" ∨ Str.endswith pre "." = true)
      ∧ ("."%char ∉ chars part) ∧ ("."%char ∉ chars ext).
Proof.
  unfold Str.penultimate. split.
  - destruct (rev (Str.split "." fl)) as [|ext [|part' l0]] eqn:Hrev; [done..|].
    intros [= ->]. apply (f_equal (@rev _)) in Hrev.
    rewrite rev_involutive in Hrev. simpl in Hrev.
    pose proof (split_free "." fl) as Hfree. rewrite Hrev in Hfree.
    apply Forall_app in Hfree as [[_ [Hpart _]%Forall_cons]%Forall_app
                                    [Hext _]%Forall_cons].
    pose proof (split_concat "." fl) as Hfl. rewrite Hrev in Hfl.
    rewrite concat_snoc in Hfl by (by destruct (rev l0)).
    destruct (rev l0) as [|y l] eqn:Hl0.
    + exists "", ext. rewrite <- Hfl. split; [done|]. split; [by left|done].
    + exists (String.concat "." (y :: l) +:+ "."), ext.
      rewrite concat_snoc in Hfl by done. rewrite <- Hfl.
      split; [by rewrite !string_app_assoc|]. split; [|done].
      right. apply endswith_app.
  - intros (pre & ext & -> & Hpre & Hpart & Hext).
    assert (∃ l, Str.split "." (pre +:+ part) = l ++ [part]) as [l Hl].
    { destruct Hpre as [->|[pre' ->]%endswith_spec].
      - exists []. by apply split_no_sep.
      - exists (Str.split "." pre'). rewrite string_app_assoc.
        by apply (split_snoc "." pre' part). }
    change ("." +:+ ext) with (String "." ext).
    rewrite <- string_app_assoc.
    rewrite (split_snoc "." (pre +:+ part) ext Hext), Hl.
    rewrite !rev_app_distr. done.
Qed.

(** The lines of a run only grow. *)
Definition prints_more : relation World := λ w w',
  ∃ l, stdout w' = stdout w ++ l.

Global Instance prints_more_preorder : PreOrder prints_more.
Proof.
  split.
  - intros w. exists []. by rewrite app_nil_r.
  - intros w1 w2 w3 [l Hl] [l' Hl']. exists (l ++ l').
    by rewrite Hl', Hl, app_assoc.
Qed.

Lemma prints_more_print (w : World) line :
  prints_more w {| fs := fs w; stdout := stdout w ++ [line] |}.
Proof. by exists [line]. Qed.

Lemma prints_more_fs (w : World) (s : FS) :
  prints_more w {| fs := s; stdout := stdout w |}.
Proof. exists []. simpl. by rewrite app_nil_r. Qed.

(** The paths of the frames of the steps: [<pre><part>.fits] where [part]
    holds no dot and is a character followed by one of the steps, and
    [pre] is empty or ends with a dot. *)
Definition step_frame (steps : list string) (fl : string) : Prop :=
  ∃ pre part,
    fl = pre +:+ part +:+ ".fits"
    ∧ (pre = "" ∨ Str.endswith pre "." = true)
    ∧ ("."%char ∉ chars part)
    ∧ Str.tail part ∈ steps.

Lemma step_frame_selected steps fl :
  step_frame steps fl ↔
  ∃ part,
    Str.penultimate (Str.split "." fl) = Some part
    ∧ Str.tail part ∈ steps
    ∧ Str.endswith fl (Str.tail part +:+ ".fits") = true.
Proof.
  split.
  - intros (pre & part & -> & Hpre & Hpart & Hin). exists part.
    split; [|split; [done|]].
    + apply penultimate_split. exists pre, "fits". repeat (split; [done|]).
      simpl. rewrite !elem_of_cons. intros [?|[?|[?|[?|?%elem_of_nil]]]]; done.
    + destruct part as [|c part]; simpl.
      * by apply endswith_app_l, endswith_app.
      * apply endswith_app_l.
        change (String c part +:+ ".fits") with (String c "" +:+ part +:+ ".fits").
        apply endswith_app_l, endswith_spec. by exists "".
  - intros (part & Hpen & Hin & Hend).
    apply penultimate_split in Hpen as (pre & ext & -> & Hpre & Hpart & Hext).
    exists pre, part. split; [|done]. do 2 f_equal.
    apply endswith_spec in Hend as [a Ha].
    apply (f_equal (Str.split ".")) in Ha.
    change ("." +:+ ext) with (String "." ext) in Ha.
    change (".fits") with (String "." "fits") in Ha.
    rewrite <- (string_app_assoc pre), <- (string_app_assoc a) in Ha.
    rewrite (split_snoc "." (pre +:+ part) ext Hext) in Ha.
    rewrite (split_snoc "." (a +:+ Str.tail part) "fits") in Ha.
    + by apply app_inj_tail in Ha as [_ ->].
    + simpl. rewrite !elem_of_cons.
      intros [?|[?|[?|[?|?%elem_of_nil]]]]; done.
Qed.

(** X22. The frames [extract_stellar_spectra_ascii] goes into are those
    whose path is [<pre><c><step>.fits], with [step] one of [steps], [c] any
    one character (the code drops it unread, so it need not be [p]) and no
    dot in [<c><step>]: for such a path the loop body prints the path first;
    for any other path it returns with nothing printed, read or written, or
    raises [IndexError] when the path holds no dot. *)
Theorem exporter_selects night steps out_dir path name var (w : World) :
  (step_frame steps (Path.join path name) →
   ∃ l, stdout (final (ascii_file night steps out_dir path name var w))
        = stdout w ++ Path.join path name :: l)
  ∧ (¬ step_frame steps (Path.join path name) →
     ascii_file night steps out_dir path name var w = Return var w
     ∨ ascii_file night steps out_dir path name var w = Raise IndexError w).
Proof.
  split.
  - intros (part & Hpen & Hin & Hend)%step_frame_selected.
    unfold ascii_file. rewrite Hpen, bool_decide_eq_true_2, Hend by done.
    simpl. rewrite bind_eq, print_eq.
    match goal with |- ∃ l, stdout (final (?k ?u ?v)) = _ =>
      assert (keeps prints_more (k u)) as Hkeeps end.
    { repeat keeps_step;
        try (intros; first [apply prints_more_print|apply prints_more_fs]).
      unfold savetxt. apply keeps_update; [apply _|].
      intros; apply prints_more_fs. }
    match goal with |- ∃ l, stdout (final (?k ?u ?v)) = _ =>
      destruct (Hkeeps v) as [l Hl] end.
    exists l. rewrite Hl. simpl. by rewrite <- app_assoc.
  - intros Hnot. unfold ascii_file.
    destruct (Str.penultimate _) as [part|] eqn:Hpen; [|by right].
    destruct (bool_decide (Str.tail part ∈ steps)) eqn:Hin; [|by left].
    destruct (Str.endswith _ _) eqn:Hend; [|by left].
    destruct Hnot. apply step_frame_selected. exists part.
    by apply bool_decide_eq_true in Hin.
Qed.

(** ** The table of a frame *)

(** X23. The file the exporter writes for a frame holds the series of that
    very frame: when the loop body returns for a frame it has selected, the
    two routines have succeeded on the frame, the wavelengths and the
    spectrum have one length, and the file system is the one before with one
    file stored, in the output directory under the name left in [filename]:
    one line per sample with the wavelength and the spectrum value. The
    uncertainty that comes with the spectrum is not written. *)
Theorem ascii_table_of_frame night steps out_dir path name var (w w' : World)
    var' :
  step_frame steps (Path.join path name) →
  ascii_file night steps out_dir path name var w = Return var' w' →
  ∃ flux wave spectrum sig filename,
    read_and_find_star_p08 (Path.join path name)
      (files (fs w) !! Path.join path name) = inr (flux, wave)
    ∧ weighted_extract_spectrum flux = inr (spectrum, sig)
    ∧ length wave = length spectrum
    ∧ var' = Some filename
    ∧ fs w'
      = put (Path.join out_dir filename)
          (TextFile
             ((λ '(x, y), format_e18 x +:+ " " +:+ format_e18 y)
                <$> zip wave spectrum))
          (fs w).
Proof.
  intros (part & Hpen & Hin & Hend)%step_frame_selected Hrun.
  unfold ascii_file in Hrun.
  rewrite Hpen, bool_decide_eq_true_2, Hend in Hrun by done. simpl in Hrun.
  apply bind_Return in Hrun as (u & w1 & Hprint & Hrun).
  apply print_Return in Hprint as ->.
  apply bind_Return in Hrun as (hdul & w1 & [_ ->]%read_Return & Hrun).
  apply bind_Return in Hrun as (header & w1 & [_ ->]%read_Return & Hrun).
  apply bind_Return in Hrun as (objectid & w1 & [_ ->]%card_Return & Hrun).
  apply bind_Return in Hrun as (run & w1 & [_ ->]%card_Return & Hrun).
  apply bind_Return in Hrun as ([flux wave] & w1 & Hread & Hrun).
  unfold ps_read_and_find_star_p08 in Hread.
  apply read_Return in Hread as [Hread ->].
  apply bind_Return in Hrun as ([spectrum sig] & w1 & Hextract & Hrun).
  unfold ps_weighted_extract_spectrum in Hextract.
  apply read_Return in Hextract as [Hextract ->].
  apply bind_Return in Hrun as (filename & w1 & [_ ->]%local_Return & Hrun).
  apply bind_Return in Hrun as (u' & w1 & Hprint & Hrun).
  apply print_Return in Hprint as ->.
  apply bind_Return in Hrun as (X & w1 & HX & Hrun).
  destruct (Nat.eqb_spec (length spectrum) (length wave)) as [Hlen|]; [|done].
  simpl in HX. injection HX as <- <-.
  apply bind_Return in Hrun as (u'' & w1 & Hsave & [<- ->]%mret_Return).
  unfold savetxt in Hsave. apply update_Return in Hsave as (s & Hwrite & ->).
  apply write_inr in Hwrite as (-> & _ & _). simpl in *.
  exists flux, wave, spectrum, sig, (Str.replace filename " " "_").
  split; [done|]. split; [done|]. split; [done|]. split; [done|].
  rewrite transpose_pair by done. by rewrite savetxt_rows.
Qed.

End Properties.

(** * The properties on the night of integer frames *)

Import Fixture.


Example ascii_table_lines :
  files (fs (final (extract_stellar_spectra_ascii "root" "20190101" ["08"]
                      (world night_below))))
    !! "root/20190101/ascii/20190101_HD_1234_08_r.dat"
  = Some (TextFile ["1 10"; "2 20"]).
Proof. vm_compute. reflexivity. Qed.

(** The observation of [night_below], as the loop of
    [make_extracted_stellar_cube] meets it: the output directory is there. *)
Definition below_ready : World Z frame :=
  final (ensure_dir "root/20190101/extracted_cubes_1d" (world night_below)).

Definition cube_below : outcome Z frame (option string) :=
  cube_observation "20190101" steps "root/20190101/extracted_cubes_1d"
    "root/20190101/reduc/obs1.T2m3wr-x" None below_ready.

Lemma cube_layout_witness :
  ∃ step0 header name tables,
    head steps = Some step0
    ∧ getheader ("root/20190101/reduc/obs1.T2m3wr-x" +:+ ".p" +:+ step0 +:+ ".fits")
        (fs below_ready) = inr header
    ∧ Some "20190101_HD1234_r.fits" = Some name
    ∧ fs (final cube_below)
      = put (Path.join "root/20190101/extracted_cubes_1d" name)
          (FitsFile ({| hdu_header := header; hdu_data := NoData |} :: tables))
          (fs below_ready)
    ∧ Forall2 (step_table (fs below_ready) "root/20190101/reduc/obs1.T2m3wr-x")
        steps tables
    ∧ length tables = length steps
    ∧ (λ t, hdu_header t !! "REDSTEP") <$> tables = Some <$> steps.
Proof.
  apply (cube_layout "20190101" steps "root/20190101/extracted_cubes_1d"
           "root/20190101/reduc/obs1.T2m3wr-x" None below_ready
           (final cube_below) (Some "20190101_HD1234_r.fits")).
  vm_compute. reflexivity.
Defined.

Lemma cube_name_witness :
  ∃ step0 header objname obj_id name,
    head steps = Some step0
    ∧ getheader ("root/20190101/reduc/obs1.T2m3wr-x" +:+ ".p" +:+ step0 +:+ ".fits")
        (fs below_ready) = inr header
    ∧ header !! "OBJNAME" = Some objname
    ∧ String.list_ascii_of_string obj_id
      = filter (λ c, c ≠ " "%char) (String.list_ascii_of_string objname)
    ∧ Str.contains " " obj_id = false
    ∧ name = (if Str.contains "T2m3wr" "root/20190101/reduc/obs1.T2m3wr-x"
              then "20190101" +:+ "_" +:+ obj_id +:+ "_r.fits"
              else "20190101" +:+ "_" +:+ obj_id +:+ "_b.fits")
    ∧ Some "20190101_HD1234_r.fits" = Some name
    ∧ isfile (fs (final cube_below))
        (Path.join "root/20190101/extracted_cubes_1d" name) = true.
Proof.
  apply (cube_name "20190101" steps "root/20190101/extracted_cubes_1d"
           "root/20190101/reduc/obs1.T2m3wr-x" None below_ready
           (final cube_below) (Some "20190101_HD1234_r.fits")).
  - vm_compute. reflexivity.
  - left. vm_compute. reflexivity.
Defined.

(** The red-arm exposure of "HD 1234" on 20190101: the run returns, the
    cube is [20190101_HD1234_r.fits], and there is no
    [20190101_HD_1234_r.fits]. *)
Lemma cube_name_deletes_spaces :
  (∃ header,
      getheader "root/20190101/reduc/obs1.T2m3wr-x.p08.fits" night_below
      = inr header
      ∧ header !! "OBJNAME" = Some "HD 1234")
  ∧ (∃ w', make_extracted_stellar_cube "root" "20190101" steps (world night_below)
           = Return tt w'
           ∧ isfile (fs w')
               "root/20190101/extracted_cubes_1d/20190101_HD1234_r.fits" = true
           ∧ isfile (fs w')
               "root/20190101/extracted_cubes_1d/20190101_HD_1234_r.fits" = false).
Proof.
  split.
  - eexists. split; vm_compute; reflexivity.
  - eexists. split; [vm_compute; reflexivity|].
    split; vm_compute; reflexivity.
Qed.

Lemma arm_of_marked_key_witness :
  spectral_arm "root/20190101/reduc/obs1.T2m3wr-x" "red.fits" "blue.fits" None
  = Some (if Str.contains "T2m3wr" "root/20190101/reduc/obs1.T2m3wr-x"
          then "red.fits" else "blue.fits")
  ∧ local "output_filename"
      (spectral_arm "root/20190101/reduc/obs1.T2m3wr-x" "red.fits" "blue.fits"
         None) below_ready
    = Return (if Str.contains "T2m3wr" "root/20190101/reduc/obs1.T2m3wr-x"
              then "red.fits" else "blue.fits") below_ready.
Proof.
  apply (arm_of_marked_key "root/20190101/reduc/obs1.T2m3wr-x").
  left. reflexivity.
Defined.

(** A key with both markers: no error, the cube gets the red name. *)
Lemma both_markers_taken_as_red :
  Str.contains "T2m3wr" "root/20190101/reduc/obs1.T2m3wr-T2m3wb" = true
  ∧ Str.contains "T2m3wb" "root/20190101/reduc/obs1.T2m3wr-T2m3wb" = true
  ∧ unique_obs night_both "root/20190101" "08"
    = ["root/20190101/reduc/obs1.T2m3wr-T2m3wb"]
  ∧ ∃ w', make_extracted_stellar_cube "root" "20190101" steps (world night_both)
          = Return tt w'
          ∧ isfile (fs w')
              "root/20190101/extracted_cubes_1d/20190101_HD1234_r.fits" = true.
Proof.
  split; [reflexivity|]. split; [reflexivity|].
  split; [vm_compute; reflexivity|].
  eexists. split; vm_compute; reflexivity.
Qed.

(** The world in which the loop over the observations of a night starts. *)
Definition ready (s : FS Z frame) : World Z frame :=
  final (ensure_dir "root/20190101/extracted_cubes_1d" (world s)).

Definition cube_of (s : World Z frame) (ob : string) (var : option string) :
    outcome Z frame (option string) :=
  cube_observation "20190101" steps "root/20190101/extracted_cubes_1d" ob var s.

(** The complete exposure is found first and gets its cube; the one
    without step 09 then stops the call. *)
Lemma failure_aborts_run_witness :
  make_extracted_stellar_cube "root" "20190101" steps (world night_partial_late)
  = Raise (FileNotFoundError "root/20190101/reduc/a.T2m3wr-1.p09.fits")
      (final (cube_of
                (final (cube_of (ready night_partial_late)
                          "root/20190101/reduc/b.T2m3wb-2" None))
                "root/20190101/reduc/a.T2m3wr-1" (Some "20190101_HD2_b.fits")))
  ∧ fs (final (cube_of
                 (final (cube_of (ready night_partial_late)
                           "root/20190101/reduc/b.T2m3wb-2" None))
                 "root/20190101/reduc/a.T2m3wr-1" (Some "20190101_HD2_b.fits")))
    = fs (final (cube_of (ready night_partial_late)
                   "root/20190101/reduc/b.T2m3wb-2" None)).
Proof.
  apply (failure_aborts_run "root" "20190101" steps "08"
           ["root/20190101/reduc/b.T2m3wb-2"] "root/20190101/reduc/a.T2m3wr-1" []
           (Some "20190101_HD2_b.fits") _ (world night_partial_late)
           (ready night_partial_late)).
  - vm_compute. reflexivity.
  - reflexivity.
  - vm_compute. reflexivity.
  - vm_compute. reflexivity.
  - vm_compute. reflexivity.
Defined.

(** The exposure without step 09 is found first: the call raises, and the
    complete exposure, found as well and fit for a cube of its own, gets
    none. *)
Lemma missing_step_stops_the_run :
  unique_obs (fs (ready night_partial)) "root/20190101" "08"
  = ["root/20190101/reduc/a.T2m3wr-1"; "root/20190101/reduc/b.T2m3wb-2"]
  ∧ (∃ w', cube_of (ready night_partial) "root/20190101/reduc/b.T2m3wb-2" None
           = Return (Some "20190101_HD2_b.fits") w')
  ∧ ∃ w', make_extracted_stellar_cube "root" "20190101" steps (world night_partial)
          = Raise (FileNotFoundError "root/20190101/reduc/a.T2m3wr-1.p09.fits") w'
          ∧ isfile (fs w')
              "root/20190101/extracted_cubes_1d/20190101_HD2_b.fits" = false.
Proof.
  split; [vm_compute; reflexivity|]. split.
  - eexists. vm_compute. reflexivity.
  - eexists. split; vm_compute; reflexivity.
Qed.

Lemma night_unmarked_extractable :
  extractable (fs (ready night_unmarked)) steps "root/20190101/reduc/obs1".
Proof.
  exists "08", (list_to_map [("OBJNAME", "HD 1234"); ("RUN", "7")]), "HD 1234".
  eexists. split; [reflexivity|]. split; [vm_compute; reflexivity|].
  split; [vm_compute; reflexivity|].
  unfold steps.
  econstructor; [|econstructor; [|econstructor; [|constructor]]];
    exists ([10; 20]%Z, [3; 4]%Z), [1; 2]%Z, [10; 20]%Z, [3; 4]%Z;
    (split; [vm_compute; reflexivity|]); repeat (split; [done|]); reflexivity.
Defined.

Lemma unmarked_first_key_unbound_witness :
  make_extracted_stellar_cube "root" "20190101" steps (world night_unmarked)
  = Raise (UnboundLocalError "output_filename")
      {| fs := fs (ready night_unmarked);
         stdout := stdout (ready night_unmarked)
                     ++ extraction_log steps "root/20190101/reduc/obs1" |}.
Proof.
  apply (unmarked_first_key_unbound "root" "20190101" steps "08"
           "root/20190101/reduc/obs1" []).
  - vm_compute. reflexivity.
  - reflexivity.
  - vm_compute. reflexivity.
  - reflexivity.
  - reflexivity.
  - apply night_unmarked_extractable.
Defined.

Example unmarked_run_log :
  stdout (final (make_extracted_stellar_cube "root" "20190101" steps
                   (world night_unmarked)))
  = ["Making cube for root/20190101/reduc/obs1.pXX.fits";
     Str.tab +:+ "Extracting 1D spectrum for step 08";
     Str.tab +:+ "Extracting 1D spectrum for step 09";
     Str.tab +:+ "Extracting 1D spectrum for step 10"].
Proof. vm_compute. reflexivity. Qed.

Lemma found_one_level_below_witness :
  "root/20190101/reduc/obs1.T2m3wr-x" ∈ unique_obs night_below "root/20190101" "08"
  ↔ ∃ sub name,
      sub ∈ listdir night_below "root/20190101"
      ∧ hidden sub = false
      ∧ isdir night_below (Path.join "root/20190101" sub) = true
      ∧ name ∈ listdir night_below (Path.join "root/20190101" sub)
      ∧ hidden name = false
      ∧ Str.endswith name ("08" +:+ ".fits") = true
      ∧ "root/20190101/reduc/obs1.T2m3wr-x"
        = Str.replace (Path.join (Path.join "root/20190101" sub) name)
            (".p" +:+ "08" +:+ ".fits") "".
Proof.
  apply (found_one_level_below night_below "root/20190101" "08"); reflexivity.
Defined.

Example found_below :
  unique_obs night_below "root/20190101" "08"
  = ["root/20190101/reduc/obs1.T2m3wr-x"].
Proof. vm_compute. reflexivity. Qed.

(** The step-files directly in the night directory: the file of the first
    step is there, under [root/20190101] and with the suffix [.p08.fits],
    and no observation is found; the call returns without a cube. *)
Lemma flat_night_not_searched :
  isfile night_flat "root/20190101/obs1.T2m3wr-x.p08.fits" = true
  ∧ Str.endswith "root/20190101/obs1.T2m3wr-x.p08.fits" ".p08.fits" = true
  ∧ unique_obs (fs (ready night_flat)) "root/20190101" "08" = []
  ∧ ∃ w', make_extracted_stellar_cube "root" "20190101" steps (world night_flat)
          = Return tt w'
          ∧ listdir (fs w') "root/20190101/extracted_cubes_1d" = [].
Proof.
  split; [vm_compute; reflexivity|]. split; [vm_compute; reflexivity|].
  split; [vm_compute; reflexivity|].
  eexists. split; vm_compute; reflexivity.
Qed.

(** The raw files of [night_headers] after the repair. *)
Definition headers_repaired : World Z frame :=
  final (update_object_header "root" "20190101" false (world night_headers)).

Lemma header_repair_witness :
  dirs (fs headers_repaired) = dirs night_headers
  ∧ ("root/20190101/a.fits" ∉ glob_in night_headers (Path.join "root" "20190101") ".fits" →
     files (fs headers_repaired) !! "root/20190101/a.fits"
     = files night_headers !! "root/20190101/a.fits")
  ∧ ("root/20190101/a.fits" ∈ glob_in night_headers (Path.join "root" "20190101") ".fits" →
     ∃ hdu rest,
       files night_headers !! "root/20190101/a.fits" = Some (FitsFile (hdu :: rest))
       ∧ if needs_repair (hdu_header hdu)
         then ∃ object,
                hdu_header hdu !! "OBJECT" = Some object
                ∧ files (fs headers_repaired) !! "root/20190101/a.fits"
                  = Some (FitsFile
                      ({| hdu_header := <["OBJNAME" := object]> (hdu_header hdu);
                          hdu_data := hdu_data hdu |} :: rest))
         else files (fs headers_repaired) !! "root/20190101/a.fits"
              = files night_headers !! "root/20190101/a.fits").
Proof.
  apply (header_repair "root" "20190101" (world night_headers) headers_repaired
           "root/20190101/a.fits").
  vm_compute. reflexivity.
Defined.

Example headers_after_repair :
  (λ p, files (fs headers_repaired) !! p ≫= λ c,
          match c with
          | FitsFile (hdu :: _) => hdu_header hdu !! "OBJNAME"
          | _ => None
          end)
    <$> ["root/20190101/a.fits"; "root/20190101/b.fits";
         "root/20190101/c.fits"; "root/20190101/d.fits"]
  = [Some "HD 1234"; Some "HD 5"; Some "exp 5"; Some "exp 1"].
Proof. vm_compute. reflexivity. Qed.

(** The file system after the assembler has run on [night_twice]. *)
Definition twice_assembled : World Z frame :=
  final (make_extracted_stellar_cube "root" "20190101" steps (world night_twice)).

Lemma steps_step_ok : Forall step_ok steps.
Proof.
  repeat constructor.
  - by exists "0", "8"%char.
  - by exists "0", "9"%char.
  - by exists "1", "0"%char.
Defined.


Example twice_one_cube :
  listdir (fs twice_assembled) "root/20190101/extracted_cubes_1d"
  = ["20190101_HD1234_r.fits"].
Proof. vm_compute. reflexivity. Qed.

(** * The further properties on the night of integer frames *)

(** The two exposures of [night_twice], one after the other. *)
Definition twice_first : World Z frame :=
  final (cube_of (ready night_twice) "root/20190101/reduc/obs1.T2m3wr-x" None).

Definition twice_second : World Z frame :=
  final (cube_of twice_first "root/20190101/reduc/obs2.T2m3wr-y"
           (Some "20190101_HD1234_r.fits")).

Lemma same_object_one_cube_witness :
  ∃ name c1 header tables,
    Some "20190101_HD1234_r.fits" = Some name
    ∧ Some "20190101_HD1234_r.fits" = Some name
    ∧ fs twice_first
      = put (Path.join "root/20190101/extracted_cubes_1d" name) c1
          (fs (ready night_twice))
    ∧ getheader ("root/20190101/reduc/obs2.T2m3wr-y" +:+ ".p" +:+ "08" +:+ ".fits")
        (fs twice_first) = inr header
    ∧ Forall2 (step_table (fs twice_first) "root/20190101/reduc/obs2.T2m3wr-y")
        steps tables
    ∧ fs twice_second
      = put (Path.join "root/20190101/extracted_cubes_1d" name)
          (FitsFile ({| hdu_header := header; hdu_data := NoData |} :: tables))
          (fs (ready night_twice)).
Proof.
  apply (same_object_one_cube "20190101" steps "08"
           "root/20190101/extracted_cubes_1d"
           "root/20190101/reduc/obs1.T2m3wr-x"
           "root/20190101/reduc/obs2.T2m3wr-y" None
           (ready night_twice) twice_first twice_second).
  - reflexivity.
  - left. split; reflexivity.
  - vm_compute. reflexivity.
  - vm_compute. reflexivity.
  - vm_compute. reflexivity.
Defined.

(** The exposure of [night_unmarked] when [output_filename] holds the name
    of an earlier cube. *)
Definition unmarked_after : World Z frame :=
  final (cube_of (ready night_unmarked) "root/20190101/reduc/obs1"
           (Some "20190101_HD1_r.fits")).

Lemma unmarked_key_takes_last_name_witness :
  Some "20190101_HD1_r.fits" = Some "20190101_HD1_r.fits"
  ∧ ∃ step0 header tables,
      head steps = Some step0
      ∧ getheader ("root/20190101/reduc/obs1" +:+ ".p" +:+ step0 +:+ ".fits")
          (fs (ready night_unmarked)) = inr header
      ∧ Forall2 (step_table (fs (ready night_unmarked)) "root/20190101/reduc/obs1")
          steps tables
      ∧ files (fs unmarked_after)
          !! Path.join "root/20190101/extracted_cubes_1d" "20190101_HD1_r.fits"
        = Some (FitsFile
            ({| hdu_header := header; hdu_data := NoData |} :: tables))
      ∧ ∀ p, p ≠ Path.join "root/20190101/extracted_cubes_1d" "20190101_HD1_r.fits" →
             files (fs unmarked_after) !! p
             = files (fs (ready night_unmarked)) !! p.
Proof.
  apply (unmarked_key_takes_last_name "20190101" steps
           "root/20190101/extracted_cubes_1d" "root/20190101/reduc/obs1"
           "20190101_HD1_r.fits" (ready night_unmarked) unmarked_after).
  - reflexivity.
  - reflexivity.
  - vm_compute. reflexivity.
Defined.

(** A red-arm exposure of "HD 1", found first, and an exposure of "HD 2"
    whose key holds no arm marker: the call returns with one cube, under
    the name of the first exposure and with the header of the second. *)
Definition night_stale : FS Z frame :=
  store
    [ ("root", ["20190101"]);
      ("root/20190101", ["reduc"]);
      ("root/20190101/reduc",
        step_names "a.T2m3wr-1" steps ++ step_names "b-2" steps) ]
    (exposure "root/20190101/reduc" "a.T2m3wr-1" "HD 1" steps
       ++ exposure "root/20190101/reduc" "b-2" "HD 2" steps).

Definition stale_assembled : outcome Z frame unit :=
  make_extracted_stellar_cube "root" "20190101" steps (world night_stale).

Example stale_name_overwrites :
  (∃ w', stale_assembled = Return tt w')
  ∧ listdir (fs (final stale_assembled)) "root/20190101/extracted_cubes_1d"
    = ["20190101_HD1_r.fits"]
  ∧ (files (fs (final stale_assembled))
       !! "root/20190101/extracted_cubes_1d/20190101_HD1_r.fits" ≫= λ c,
     match c with
     | FitsFile (hdu :: _) => hdu_header hdu !! "OBJNAME"
     | _ => None
     end)
    = Some "HD 2".
Proof.
  split; [eexists; vm_compute; reflexivity|].
  split; vm_compute; reflexivity.
Qed.

Lemma assembler_changes_only_cubes_witness :
  ∃ rest hdus,
    "root/20190101/extracted_cubes_1d/20190101_HD1234_r.fits"
    = Path.join (Path.join (Path.join "root" "20190101") "extracted_cubes_1d")
        ("20190101" +:+ "_" +:+ rest)
    ∧ (Str.endswith rest "_r.fits" = true ∨ Str.endswith rest "_b.fits" = true)
    ∧ files (fs (final (make_extracted_stellar_cube "root" "20190101" steps
                          (world night_below))))
        !! "root/20190101/extracted_cubes_1d/20190101_HD1234_r.fits"
      = Some (FitsFile hdus).
Proof.
  apply (assembler_changes_only_cubes "root" "20190101" steps
           (world night_below)
           "root/20190101/extracted_cubes_1d/20190101_HD1234_r.fits").
  vm_compute. discriminate.
Defined.

Lemma exporter_changes_only_dat_witness :
  ∃ filename lines,
    "root/20190101/ascii/20190101_HD_1234_08_r.dat"
    = Path.join (Path.join (Path.join "root" "20190101") "ascii") filename
    ∧ (Str.endswith filename "_r.dat" = true
       ∨ Str.endswith filename "_b.dat" = true)
    ∧ Str.contains " " filename = false
    ∧ files (fs (final (extract_stellar_spectra_ascii "root" "20190101" ["08"]
                          (world night_below))))
        !! "root/20190101/ascii/20190101_HD_1234_08_r.dat"
      = Some (TextFile lines).
Proof.
  apply (exporter_changes_only_dat "root" "20190101" ["08"] (world night_below)
           "root/20190101/ascii/20190101_HD_1234_08_r.dat").
  vm_compute. discriminate.
Defined.

(** The red-arm frame of step 08 of [night_below], as the loop of
    [extract_stellar_spectra_ascii] meets it: the directory [ascii] is
    there. *)
Definition ascii_ready : World Z frame :=
  final (ensure_dir "root/20190101/ascii" (world night_below)).

Definition ascii_below : outcome Z frame (option string) :=
  ascii_file "20190101" ["08"] "root/20190101/ascii" "root/20190101/reduc"
    "obs1.T2m3wr-x.p08.fits" None ascii_ready.

Lemma ascii_name_witness :
  ∃ header objectid filename,
    getheader (Path.join "root/20190101/reduc" "obs1.T2m3wr-x.p08.fits")
      (fs ascii_ready) = inr header
    ∧ header !! "OBJNAME" = Some objectid
    ∧ String.list_ascii_of_string filename
      = (λ c, if decide (c = " "%char) then "_"%char else c)
          <$> String.list_ascii_of_string
                ("20190101" +:+ "_" +:+ objectid +:+ "_" +:+ "08"
                   +:+ (if Str.contains "T2m3wr" "obs1.T2m3wr-x.p08.fits"
                        then "_r.dat" else "_b.dat"))
    ∧ Str.contains " " filename = false
    ∧ Some "20190101_HD_1234_08_r.dat" = Some filename
    ∧ isfile (fs (final ascii_below))
        (Path.join "root/20190101/ascii" filename) = true.
Proof.
  apply (ascii_name "20190101" ["08"] "root/20190101/ascii"
           "root/20190101/reduc" "obs1.T2m3wr-x.p08.fits" None ascii_ready
           (final ascii_below) (Some "20190101_HD_1234_08_r.dat") "08").
  - reflexivity.
  - constructor.
  - reflexivity.
  - left. reflexivity.
  - vm_compute. reflexivity.
Defined.

(** A file [README] in the night directory. *)
Lemma dotless_path_IndexError_witness :
  ascii_file "20190101" steps "root/20190101/ascii" "root/20190101" "README"
    None (world night_below)
  = Raise IndexError (world night_below).
Proof.
  apply (dotless_path_IndexError "20190101" steps "root/20190101/ascii"
           "root/20190101" "README" None (world night_below)).
  reflexivity.
Defined.

(** With such a file the export of the night stops before any frame is
    read. *)
Example readme_stops_export :
  extract_stellar_spectra_ascii "root" "20190101" steps
    (world (store [ ("root", ["20190101"]);
                    ("root/20190101", ["README"; "reduc"]);
                    ("root/20190101/reduc", step_names "obs1.T2m3wr-x" steps) ]
              (exposure "root/20190101/reduc" "obs1.T2m3wr-x" "HD 1234" steps)))
  = Raise IndexError
      {| fs := store [ ("root", ["20190101"]);
                       ("root/20190101", ["README"; "reduc"; "ascii"]);
                       ("root/20190101/reduc", step_names "obs1.T2m3wr-x" steps);
                       ("root/20190101/ascii", []) ]
                 (exposure "root/20190101/reduc" "obs1.T2m3wr-x" "HD 1234" steps);
         stdout := ["Converting to ascii: root/20190101"] |}.
Proof. vm_compute. reflexivity. Qed.

(** A frame [sky08.fits] below the night: [glob] finds it for step 08, and
    its name does not end with [.p08.fits]. *)
Definition night_sky : FS Z frame :=
  store
    [ ("root", ["20190101"]);
      ("root/20190101", ["reduc"]);
      ("root/20190101/reduc", ["sky08.fits"]) ]
    [ ("root/20190101/reduc/sky08.fits",
        frame_file [("OBJNAME", "sky"); ("RUN", "7")]) ].

Lemma match_without_step_suffix_witness :
  "root/20190101/reduc/sky08.fits"
    ∈ unique_obs (fs (ready night_sky)) "root/20190101" "08"
  ∧ cube_observation "20190101" steps "root/20190101/extracted_cubes_1d"
      "root/20190101/reduc/sky08.fits" None (ready night_sky)
    = Raise (FileNotFoundError
               ("root/20190101/reduc/sky08.fits" +:+ ".p" +:+ "08" +:+ ".fits"))
        (ready night_sky).
Proof.
  apply (match_without_step_suffix "20190101" steps "08"
           "root/20190101/extracted_cubes_1d" "root/20190101"
           "root/20190101/reduc/sky08.fits" None (ready night_sky)).
  - reflexivity.
  - vm_compute. constructor.
  - reflexivity.
  - vm_compute. reflexivity.
Defined.

(** A red-arm frame of step 08 with [OBJNAME] and without [RUN]. *)
Definition night_norun : FS Z frame :=
  store
    [ ("root", ["20190101"]);
      ("root/20190101", ["reduc"]);
      ("root/20190101/reduc", ["a.T2m3wr-1.p08.fits"]) ]
    [ ("root/20190101/reduc/a.T2m3wr-1.p08.fits",
        frame_file [("OBJNAME", "HD 1")]) ].

Lemma missing_RUN_stops_export_witness :
  ascii_file "20190101" steps "root/20190101/ascii" "root/20190101/reduc"
    "a.T2m3wr-1.p08.fits" None (world night_norun)
  = Raise (KeyError "RUN")
      {| fs := fs (world night_norun);
         stdout := stdout (world night_norun)
                     ++ [Path.join "root/20190101/reduc" "a.T2m3wr-1.p08.fits"] |}.
Proof.
  apply (missing_RUN_stops_export "20190101" steps "root/20190101/ascii"
           "root/20190101/reduc" "a.T2m3wr-1.p08.fits" None (world night_norun)
           "08" (list_to_map [("OBJNAME", "HD 1")]) "HD 1").
  - reflexivity.
  - constructor.
  - reflexivity.
  - vm_compute. reflexivity.
  - vm_compute. reflexivity.
  - vm_compute. reflexivity.
Defined.

Lemma dry_run_previews_witness :
  match update_object_header "root" "20190101" false (world night_headers),
        update_object_header "root" "20190101" true (world night_headers) with
  | Return _ w1, Return _ w2 => stdout w1 = stdout w2
  | Raise e1 w1, Raise e2 w2 => e1 = e2 ∧ stdout w1 = stdout w2
  | _, _ => False
  end.
Proof.
  apply (dry_run_previews "root" "20190101" (world night_headers)).
  apply (bool_decide_unpack _). vm_compute. exact I.
Defined.

(** The report of [night_headers]: one line, for the file with the
    copy-paste error. *)
Lemma dry_run_report_witness :
  ∃ fits_files,
    fits_files ≡ₚ glob_in (fs (world night_headers)) (Path.join "root" "20190101")
                   ".fits"
    ∧ Sorted String.le fits_files
    ∧ stdout (final (update_object_header "root" "20190101" true
                       (world night_headers)))
      = stdout (world night_headers)
        ++ report (fs (world night_headers)) fits_files.
Proof.
  apply (dry_run_report "root" "20190101" (world night_headers)).
  vm_compute. reflexivity.
Defined.

Example report_of_night_headers :
  stdout (final (update_object_header "root" "20190101" true
                   (world night_headers)))
  = ["root/20190101/a.fits: " +:+ Str.tab +:+ " OBJECT: HD 1234"
       +:+ Str.tab +:+ " OBJNAME: exp 300"].
Proof. vm_compute. reflexivity. Qed.

Lemma repair_twice_witness :
  ∃ w2,
    update_object_header "root" "20190101" false headers_repaired = Return tt w2
    ∧ fs w2 = fs headers_repaired.
Proof.
  apply (repair_twice "root" "20190101" (world night_headers) headers_repaired).
  vm_compute. reflexivity.
Defined.

(** Three raw files: the second one has [OBJNAME] and no [IMAGETYP]. *)
Definition night_no_imagetyp : FS Z frame :=
  store
    [ ("root", ["20190101"]);
      ("root/20190101", ["a.fits"; "b.fits"; "c.fits"]) ]
    [ ("root/20190101/a.fits",
        frame_file [("IMAGETYP", "object"); ("OBJNAME", "exp 300");
                    ("OBJECT", "HD 1234")]);
      ("root/20190101/b.fits", frame_file [("OBJNAME", "exp 5")]);
      ("root/20190101/c.fits",
        frame_file [("IMAGETYP", "object"); ("OBJNAME", "exp 1");
                    ("OBJECT", "HD 5")]) ].

Definition first_repaired : World Z frame :=
  final (update_file false "root/20190101/a.fits" tt (world night_no_imagetyp)).

Lemma header_error_keeps_earlier_repairs_witness :
  update_object_header "root" "20190101" false (world night_no_imagetyp)
  = Raise (KeyError "IMAGETYP") first_repaired.
Proof.
  apply (header_error_keeps_earlier_repairs "root" "20190101" false
           ["root/20190101/a.fits"] "root/20190101/b.fits"
           ["root/20190101/c.fits"]
           {| hdu_header := list_to_map [("OBJNAME", "exp 5")];
              hdu_data := Image series |} []
           (world night_no_imagetyp) first_repaired).
  - vm_compute. reflexivity.
  - vm_compute. reflexivity.
  - vm_compute. reflexivity.
  - exists "exp 5". vm_compute. reflexivity.
  - vm_compute. reflexivity.
Defined.

(** The first file is repaired and stays so, the third one is not. *)
Example repairs_before_the_error :
  (λ p, files (fs first_repaired) !! p ≫= λ c,
          match c with
          | FitsFile (hdu :: _) => hdu_header hdu !! "OBJNAME"
          | _ => None
          end)
    <$> ["root/20190101/a.fits"; "root/20190101/c.fits"]
  = [Some "HD 1234"; Some "exp 1"].
Proof. vm_compute. reflexivity. Qed.

(** A root without the night. *)
Lemma missing_night_FileNotFoundError_witness :
  extract_stellar_spectra_ascii "root" "20190101" steps
    (world (store [("root", [])] []))
  = Raise (FileNotFoundError (Path.join (Path.join "root" "20190101") "ascii"))
      (world (store [("root", [])] []))
  ∧ make_extracted_stellar_cube "root" "20190101" steps
      (world (store [("root", [])] []))
    = Raise (FileNotFoundError
               (Path.join (Path.join "root" "20190101") "extracted_cubes_1d"))
        (world (store [("root", [])] [])).
Proof.
  apply (missing_night_FileNotFoundError "root" "20190101" steps
           "root/2019010" "1"%char (world (store [("root", [])] []))).
  - reflexivity.
  - discriminate.
  - vm_compute. reflexivity.
  - vm_compute. reflexivity.
  - vm_compute. reflexivity.
Defined.

(** The cube of [night_twice], met by the exporter. *)
Lemma exporter_skips_cubes_witness :
  ascii_file "20190101" steps "root/20190101/ascii"
    "root/20190101/extracted_cubes_1d" "20190101_HD1234_r.fits" None
    twice_assembled
  = Return None twice_assembled.
Proof.
  apply (exporter_skips_cubes "20190101" steps "root/20190101/ascii"
           "root/20190101/extracted_cubes_1d" "20190101_HD1234_r.fits" None
           twice_assembled steps_step_ok).
  left. reflexivity.
Defined.

(** Integer images for [flat_stats]: the rows are the three series. *)
#[local] Instance numpy_Z : Numpy Z frame := {|
  image_rows '(wave, spectrum, sig) := [wave; spectrum; sig];
  fmax := Z.max;
  fdiv := Z.div
|}.

(** A master flat of the name [flat_stats] looks for, directly under its
    root, and one in a night below it. *)
Definition flats : FS Z frame :=
  store
    [ ("/data/mash/marusa/2m3reduced/wifes/",
        ["wifesB_super_domeflat.fits"; "20190101"]);
      ("/data/mash/marusa/2m3reduced/wifes/20190101",
        ["wifesB_super_domeflat.fits"]) ]
    [ ("/data/mash/marusa/2m3reduced/wifes/wifesB_super_domeflat.fits",
        frame_file []);
      ("/data/mash/marusa/2m3reduced/wifes/20190101/wifesB_super_domeflat.fits",
        frame_file []) ].

Example flats_not_plotted :
  flat_stats (world flats)
  = Return []
      {| fs := flats;
         stdout :=
           [ "root /data/mash/marusa/2m3reduced/wifes/";
             "/data/mash/marusa/2m3reduced/wifes/wifesB_super_domeflat.fits";
             "/data/mash/marusa/2m3reduced/wifes/20190101/wifesB_super_domeflat.fits" ] |}.
Proof. vm_compute. reflexivity. Qed.

Lemma print_header_after_repair_witness :
  print_header (λ _, "") ["print_header.py"; "root/20190101/a.fits"; "OBJNAME"]
    headers_repaired
  = Return tt
      {| fs := fs headers_repaired;
         stdout := stdout headers_repaired ++ ["'" +:+ "HD 1234" +:+ "'"] |}.
Proof.
  apply (print_header_after_repair (λ _, "") "print_header.py" "root" "20190101"
           "root/20190101/a.fits"
           {| hdu_header :=
                list_to_map [("IMAGETYP", "object"); ("OBJNAME", "exp 300");
                             ("OBJECT", "HD 1234")];
              hdu_data := Image series |} [] "HD 1234"
           (world night_headers) headers_repaired).
  - vm_compute. reflexivity.
  - vm_compute. constructor.
  - vm_compute. reflexivity.
  - vm_compute. reflexivity.
  - vm_compute. reflexivity.
Defined.

(** The frame of step 08 of [night_unmarked]. *)
Lemma unmarked_frame_unbound_witness :
  ascii_file "20190101" steps "root/20190101/ascii" "root/20190101/reduc"
    "obs1.p08.fits" None (world night_unmarked)
  = Raise (UnboundLocalError "filename")
      {| fs := fs (world night_unmarked);
         stdout := stdout (world night_unmarked)
                     ++ [Path.join "root/20190101/reduc" "obs1.p08.fits"] |}.
Proof.
  apply (unmarked_frame_unbound "20190101" steps "root/20190101/ascii"
           "root/20190101/reduc" "obs1.p08.fits" (world night_unmarked) "08"
           (list_to_map [("OBJNAME", "HD 1234"); ("RUN", "7")]) "HD 1234" "7"
           ([10; 20]%Z, [3; 4]%Z) [1; 2]%Z [10; 20]%Z [3; 4]%Z).
  - reflexivity.
  - constructor.
  - reflexivity.
  - reflexivity.
  - reflexivity.
  - vm_compute. reflexivity.
  - vm_compute. reflexivity.
  - vm_compute. reflexivity.
  - vm_compute. reflexivity.
  - reflexivity.
Defined.

(** The walk of [night_below] from the root. *)
Lemma os_walk_reaches_every_directory_witness :
  (∀ listing, dirs night_below !! "root" = Some listing →
     head (os_walk night_below "root")
     = Some ("root",
             filter (λ n, isdir night_below (Path.join "root" n) = true) listing,
             filter (λ n, isdir night_below (Path.join "root" n) = false) listing))
  ∧ (∀ path subdirs names,
       (path, subdirs, names) ∈ os_walk night_below "root" →
       ∃ listing,
         dirs night_below !! path = Some listing
         ∧ subdirs
           = filter (λ n, isdir night_below (Path.join path n) = true) listing
         ∧ names
           = filter (λ n, isdir night_below (Path.join path n) = false) listing)
  ∧ (∀ path subdirs names sub,
       (path, subdirs, names) ∈ os_walk night_below "root" → sub ∈ subdirs →
       ∃ subdirs' names',
         (Path.join path sub, subdirs', names') ∈ os_walk night_below "root").
Proof.
  apply (os_walk_reaches_every_directory night_below "root").
  apply (bool_decide_unpack _). vm_compute. exact I.
Defined.

Example walk_of_night_below :
  os_walk night_below "root"
  = [ ("root", ["20190101"], []);
      ("root/20190101", ["reduc"], []);
      ("root/20190101/reduc", [], step_names "obs1.T2m3wr-x" steps) ].
Proof. vm_compute. reflexivity. Qed.

(** The file of step 08 of [night_below] and its key. *)
Lemma found_file_is_first_step_file_witness :
  "root/20190101/reduc/obs1.T2m3wr-x" ∈ unique_obs night_below "root/20190101" "08"
  ∧ head ((λ step, "root/20190101/reduc/obs1.T2m3wr-x" +:+ ".p" +:+ step +:+ ".fits")
            <$> steps)
    = Some ("root/20190101/reduc/obs1.T2m3wr-x" +:+ ".p" +:+ "08" +:+ ".fits").
Proof.
  apply (found_file_is_first_step_file night_below "root/20190101" steps "08"
           "root/20190101/reduc/obs1.T2m3wr-x").
  - reflexivity.
  - reflexivity.
  - vm_compute. constructor.
Defined.

(** The character before the step need not be [p]. *)
Example letter_before_step_not_checked :
  step_frame steps "root/20190101/reduc/obs1.q08.fits".
Proof.
  exists "root/20190101/reduc/obs1.", "q08". split; [done|].
  split; [by right|]. split; [|by constructor].
  simpl. rewrite !elem_of_cons. intros [?|[?|[?|?%elem_of_nil]]]; done.
Qed.

(** The frame of step 08 of [night_below] is one the exporter selects. *)
Lemma obs1_step_frame :
  step_frame ["08"] (Path.join "root/20190101/reduc" "obs1.T2m3wr-x.p08.fits").
Proof.
  exists "root/20190101/reduc/obs1.T2m3wr-x.", "p08".
  split; [reflexivity|]. split; [right; reflexivity|].
  split; [|constructor].
  simpl. rewrite !elem_of_cons. intros [?|[?|[?|?%elem_of_nil]]]; done.
Defined.

Lemma ascii_table_of_frame_witness :
  ∃ flux wave spectrum sig filename,
    read_and_find_star_p08
      (Path.join "root/20190101/reduc" "obs1.T2m3wr-x.p08.fits")
      (files (fs ascii_ready)
         !! Path.join "root/20190101/reduc" "obs1.T2m3wr-x.p08.fits")
    = inr (flux, wave)
    ∧ weighted_extract_spectrum flux = inr (spectrum, sig)
    ∧ length wave = length spectrum
    ∧ Some "20190101_HD_1234_08_r.dat" = Some filename
    ∧ fs (final ascii_below)
      = put (Path.join "root/20190101/ascii" filename)
          (TextFile
             ((λ '(x, y), format_e18 x +:+ " " +:+ format_e18 y)
                <$> zip wave spectrum))
          (fs ascii_ready).
Proof.
  apply (ascii_table_of_frame "20190101" ["08"] "root/20190101/ascii"
           "root/20190101/reduc" "obs1.T2m3wr-x.p08.fits" None ascii_ready
           (final ascii_below) (Some "20190101_HD_1234_08_r.dat")).
  - apply obs1_step_frame.
  - vm_compute. reflexivity.
Defined.
